(* ===== verification/_CoqProject ===== *)
-Q . S2P
Prelude.v
PyString.v
PyValue.v
Gemini.v
QueryEngine.v
Api.v
UserStore.v
App.v
Visualizer.v
Dashboard.v
System.v
DbLoader.v
