(* ===== verification/Prelude.v ===== *)
(** * Verification of the e-commerce question-answering agent

    The program (Python, under [src/]) answers a natural-language question
    about sales data: a Flask endpoint ([main.py], [api.py]) hands the
    question to [run_query] ([query_engine.py]), which asks a language model
    for a SQL statement ([ask_gemini] in [_gemini_connector.py]), removes
    markdown fences from the answer, executes it on a SQLite file and
    returns the rows.  A Streamlit front end ([app.py]) logs users in
    against a JSON file ([user_store.py]; [auth_utils.py] is a second,
    SQLite-backed store with the same operations) and posts questions to
    the endpoint; [visualizer.py] picks a chart for a table.  The
    database is filled beforehand by [db_loader.py], which cleans three
    CSV files and stores each as a table.

    ** Files of the development, in dependency order

    - [Prelude] (this file): the effect model shared by every component.
      Python exceptions are values [exn] (class and message); a computation
      over a state [S] is [M S A := S -> result A * S], with [ret], [bind],
      [raise], [lift], [try_except] (Python's [try/except Exception]),
      [try_except_if] (a class-selective [except]), [try_finally] and
      [zoom] (a component run on its part of a larger state).  Notations
      live in [py_scope]; [never_raises], [returns] and [preserves] are the
      judgements; the hint database [py], the rewrite database [py_run]
      and the tactics [mrun], [case_run] automate them.
    - [PyString] (module [Str]): the built-in [str] methods the sources
      call ([strip], [lower], [startswith], [in], [split], [replace]) and
      [join], as structural fixpoints over [string], with the lemma library
      the components use.
    - [PyValue]: dynamically typed values ([pyval]): [None], booleans,
      integers, floats, strings, bytes, lists, tuples and dicts, with
      truthiness ([truthy], Python's [not x]), [dict.get] ([py_get]),
      [isinstance(_, dict)], [str] and [repr] ([py_str], [py_repr]) and
      [jsonify].
    - [Gemini] (module [Gemini]): [_gemini_connector.py].  Module start-up
      ([import_connector]: the API key from the environment and the [.env]
      file, fatal when absent) and [ask_gemini] (prompt construction
      [build_prompt], one call of the completion service, the
      [select]-prefix check [is_select], the handler that turns every
      exception into the synthetic statement [error_sql]).  The completion
      service is the interface [CompletionService]: a state and a step
      function chosen by the environment.
    - [QueryEngine] (module [QueryEngine]): [query_engine.py].
      [run_query] with its early returns, fence removal ([unfence]), the
      database interface [SqlStore], the state [world] (client, store, open
      connections, printed lines, executed statements) and the catch-all
      handler; the reference pipeline [run_query_ref] it is proved equal
      to.
    - [Api]: the two Flask handlers, [MainPy.ask_question] ([main.py]) and
      [ApiPy.ask_question] ([api.py]), on a [request] that is the outcome
      of [request.json], answering a [response] (JSON value and status);
      the reference answers [main_ref] and [api_ref].
    - [UserStore]: the interface [CredentialStore] with its laws
      [CredentialLaws], a refinement of the finite map of accounts;
      [UserStore] ([user_store.py], a JSON object in a file) and
      [AuthUtils] ([auth_utils.py], a table with a primary key, with
      connection, transaction, [try/except/finally]), both shown lawful.
    - [App] (module [App]): [signup], [login] and the routing statements
      of [app.py] over [st.session_state], the credential store and the
      elements rendered, with the main page as a parameter.
    - [Visualizer]: [generate_chart] of [visualizer.py].
    - [Dashboard] (module [Dashboard]): the rest of [app.py]: [main_app]
      with its request ([ask], [ask_failed]), its table, filters and
      chart ([show_results], [apply_filter], [auto_chart]), [local_css],
      [load_lottieurl], [show_lottie], [apply_theme] and [script], the
      file as Streamlit runs it.  The network and pandas are the
      interfaces [Network] and [Pandas]; the browser is the relation
      [browse], one run of the script per step.
    - [System] (module [System]): the page in front of the back end:
      [local_backend] serves the page's POST with [main.py]'s handler.
    - [DbLoader] (module [DbLoader]): [db_loader.py].  A table
      ([dataframe]) is its column names and its rows of optional cells;
      [clean_dataframe] is [normalize] on the names, [dropna_columns],
      [dropna_rows] and [fillna]; [load_and_store_csv] and the script
      [main] run over [disk]: the files as [read_csv] parses them, the
      tables of the database and the lines printed.  The parsing of a
      date is the interface [Dates].

    ** What the theorems show

    - Type and totality: [ask_gemini], [run_query] and [main.py]'s handler
      never raise; their results always have the shape the callers rely
      on (a statement that starts with [select], a non-empty list of
      tuples, a response with status 200, 400 or 500).
    - Equivalence with reference definitions: [run_query] equals
      [run_query_ref] and [main.py]'s handler equals [main_ref], which
      shows the emptiness test, the parse-error return and the test for a
      dict result to be dead code; the two handlers agree on readable
      bodies.
    - Functional behaviour on every branch, error branches included: the
      statement executed for each kind of completion, the outcome for each
      answer of the store, the response for each kind of body.
    - Divergences from the written specification: pipeline failures are
      returned as rows and answered with HTTP 200; fenced completions are
      replaced by the synthetic error statement, which is executed; text
      fenced after a leading [SELECT] is executed unchecked.
    - Resource behaviour: the completion service is called exactly once
      per question; the database connection is closed on the success path
      and left open when execution raises; [auth_utils.add_user] closes on
      every path and [verify_user] does not.
    - Refinement: both credential stores implement the specification on
      the map of accounts.  Round trip: in each module, from a machine
      with or without the file or the table, start-up, registration and
      validation in sequence accept the password registered and no
      other.
    - Invariant by induction on the runs of the script: an authenticated
      session names a user that has an account; an unauthenticated run
      does not execute the main page.
    - The main page: no exception escapes the request, nothing is posted
      without a question, a failure to fetch the animation stops the
      page.
    - End to end: a question pressed on the page reaches the pipeline and
      comes back as a table; the section for the generated SQL, the
      filters and the chart of the page never apply to an answer of this
      back end.
    - Ingestion: [clean_dataframe] returns a well-formed table without
      missing cells and is idempotent; [load_and_store_csv] on both of
      its paths; the script keeps the database well formed, leaves it
      half loaded when a file is missing and, on files whose headers
      normalise to the schema of the prompt, creates that schema.
    - The string library carries no theorem of its own in this list: its
      lemmas ([join_split], [split_length_contains], [strip_idemp],
      [replace_char], ...) serve the theorems on the components.

    ** Bounds and modelling choices

    - A Python [str] is a Rocq [string]; a character is a code point below
      256 (Latin-1), on which [isspace] and [lower] are exact.  Text outside
      that range (a dash in the prompt template, the symbols in messages
      of the user interface) appears as its UTF-8 bytes; such text is only
      ever printed, rendered or handed to the completion service.
    - All recursion is structural: [split] and [replace] carry a skip
      counter instead of jumping over a match, so no fuel is needed, and
      every definition evaluates.
    - External systems (the completion service, SQLite, the network,
      pandas, the files) are interfaces with a state of their own,
      instantiated by concrete machines in the witnesses
      ([scripted_service], [demo_store], [demo_backend], [demo_pandas]).
      Ghost fields ([g_prompts], [w_executed], [w_open], [open_conns])
      record calls made; they influence no result.
    - A float is carried as the text of its [repr] and never computed on.
    - The file [users.json] holds what [save_users] writes; in [users.db]
      a statement sees the open transaction, and [close] without [commit]
      rolls it back.
    - A run of the Streamlit script reads the widgets' values from the
      user's input; [st.rerun()] ends the run with [RerunException].  A
      table or a chart is rendered as a handle to the object displayed.
    - Of pandas the system theorems assume one fact ([PandasLaws]): rows
      without names give a table whose column labels are positions.
    - What the model leaves to the environment.  [print] and the
      Streamlit elements record what is shown and never raise.  The
      connection counters [w_open] and [open_conns] count the calls of
      [connect] not yet followed by [close()]: a connection "left open"
      is one whose [close()] was not reached, whatever the garbage
      collector does later.  A failure of [fetchall] is a failure of
      the store's [sql_execute].  [read_csv] and [json.load] fail only
      on a missing file, and [to_sql] accepts every table, one with two
      columns of the same name included.  The import of [user_store] at
      the head of [app.py], which creates [users.json] once per process,
      is the hypothesis that the store is there.  [App.app],
      [Dashboard.ambient] and [Dashboard.page] are the state of the
      model: the session, the store, the files, the network, what is
      displayed; they translate no line of the sources.
    - In [DbLoader] a CSV file is the table [read_csv] returns for it
      and a missing cell is [None]; a column is dropped or converted by
      position, so column names are taken to be distinct where a column
      is assigned by name; file names are relative, so that
      [os.path.join] is the concatenation with a slash.

    ** Not modelled

    [list_models.py] and [inspect_db.py] (scripts that only print what
    external services return).  Of pandas, Plotly, Streamlit, Flask,
    SQLAlchemy and [requests], what the sources do not own: the parsing
    of a CSV file and of a date, the content of a table of the page, the
    drawing of a chart, the layout of the page, the HTTP exchange. *)

From stdpp Require Import base strings list.

Declare Scope py_scope.
Delimit Scope py_scope with py.

(** ** Exceptions *)

(** The exception classes the sources raise, catch or can receive from the
    libraries they call.  Every class here derives from [Exception], but
    [RerunException], which Streamlit raises to end a run of its script
    and which the sources raise outside of any [try]. *)
Inductive exn_class : Type :=
| ValueError
| EnvironmentError
| AttributeError
| TypeError
| KeyError
| FileNotFoundError
| IntegrityError
| OperationalError
| UnboundLocalError
| HTTPException
| ConnectionError
| HTTPError
| JSONDecodeError
| RequestException
| ServiceError
| RerunException.

#[export] Instance exn_class_eq_dec : EqDecision exn_class.
Proof. solve_decision. Defined.

(** An exception value: its class and [str(e)]. *)
Record exn : Type := Exn { exn_cls : exn_class; exn_str : string }.

#[export] Instance exn_eq_dec : EqDecision exn.
Proof. solve_decision. Defined.

(** Outcome of running a statement: a value, or a raised exception. *)
Inductive result (A : Type) : Type :=
| Ok (a : A)
| Raise (e : exn).
Arguments Ok {A} a.
Arguments Raise {A} e.

Definition is_ok {A} (r : result A) : bool :=
  match r with Ok _ => true | Raise _ => false end.

(** ** The state-and-exception monad *)

(** A computation reads and updates a state [S]; the state reached when an
    exception is raised is kept, as Python keeps side effects made before
    a [raise]. *)
Definition M (S A : Type) : Type := S -> result A * S.

Definition ret {S A} (a : A) : M S A := fun s => (Ok a, s).

Definition raise {S A} (e : exn) : M S A := fun s => (Raise e, s).

Definition bind {S A B} (c : M S A) (k : A -> M S B) : M S B :=
  fun s => match c s with
           | (Ok a, s') => k a s'
           | (Raise e, s') => (Raise e, s')
           end.

(** [try: c except Exception as e: h e].  Every value of [exn] is
    caught.  The one class of the model that Python does not derive from
    [Exception] is [RerunException], which only [st.rerun()] raises, and
    the sources call it outside of every [try]. *)
Definition try_except {S A} (c : M S A) (h : exn -> M S A) : M S A :=
  fun s => match c s with
           | (Ok a, s') => (Ok a, s')
           | (Raise e, s') => h e s'
           end.

(** [try: c except <classes accepted by p> as e: h e]; other exceptions
    pass through. *)
Definition try_except_if {S A} (p : exn -> bool) (c : M S A)
    (h : exn -> M S A) : M S A :=
  fun s => match c s with
           | (Ok a, s') => (Ok a, s')
           | (Raise e, s') => if p e then h e s' else (Raise e, s')
           end.

(** [try: c finally: f].  The outcome of [c] is kept unless [f] raises. *)
Definition try_finally {S A} (c : M S A) (f : M S unit) : M S A :=
  fun s => match c s with
           | (r, s') => match f s' with
                        | (Ok _, s'') => (r, s'')
                        | (Raise e, s'') => (Raise e, s'')
                        end
           end.

(** Run a computation of a component on its part of a larger state:
    [proj] reads the part, [upd] writes it back. *)
Definition zoom {W S A} (proj : W -> S) (upd : S -> W -> W) (c : M S A) : M W A :=
  fun w => let '(r, s') := c (proj w) in (r, upd s' w).

Definition get_state {S} : M S S := fun s => (Ok s, s).

(** The outcome of a pure operation that may raise, as a computation. *)
Definition lift {S A} (r : result A) : M S A := fun s => (r, s).

Definition modify {S} (f : S -> S) : M S unit := fun s => (Ok tt, f s).

(** [for x in l: body x] *)
Fixpoint for_each {S A} (l : list A) (body : A -> M S unit) : M S unit :=
  match l with
  | [] => ret tt
  | x :: l' => bind (body x) (fun _ => for_each l' body)
  end.

Notation "'do' x <- c ;; k" := (bind c (fun x => k))
  (at level 10, x name, c at level 99, k at level 200) : py_scope.
Notation "'exec' c ;; k" := (bind c (fun _ => k))
  (at level 10, c at level 99, k at level 200) : py_scope.

(** ** Judgements *)

(** [c] started in [s] returns [a] and ends in [s']. *)
Definition returns {S A} (c : M S A) (s : S) (a : A) (s' : S) : Prop :=
  c s = (Ok a, s').

(** [c] returns a value from every state: no exception escapes it. *)
Definition never_raises {S A} (c : M S A) : Prop :=
  forall s, is_ok (fst (c s)) = true.

(** [c] leaves the part of the state observed by [f] unchanged, whatever
    its outcome. *)
Definition preserves {S A T} (f : S -> T) (c : M S A) : Prop :=
  forall s, f (snd (c s)) = f s.

(** ** Automation *)

Create HintDb py discriminated.
Create Rewrite HintDb py_run.

(** Unfold the monad's operations in the goal and compute. *)
Ltac mrun :=
  unfold returns, never_raises, preserves, bind, ret, raise, try_except,
    try_except_if, try_finally, zoom, get_state, lift, modify in *; simpl in *.

(** Case analysis on the outcome of the computation scrutinised by the
    goal's first [match]. *)
Ltac case_run :=
  match goal with
  | |- context [match ?c ?s with pair _ _ => _ end] =>
      let r := fresh "r" in
      let s' := fresh "s'" in
      let E := fresh "E" in
      destruct (c s) as [r s'] eqn:E; try destruct r; simpl in *
  end.

Section monad_laws.
Context {S A B C : Type}.
Implicit Types (s : S) (a : A) (e : exn).

Lemma bind_ret_l (a : A) (k : A -> M S B) s : bind (ret a) k s = k a s.
Proof. reflexivity. Qed.

Lemma bind_ret_r (c : M S A) s : bind c ret s = c s.
Proof. mrun. case_run; reflexivity. Qed.

Lemma bind_assoc (c : M S A) (k : A -> M S B) (j : B -> M S C) s :
  bind (bind c k) j s = bind c (fun a => bind (k a) j) s.
Proof. mrun. case_run; reflexivity. Qed.

Lemma bind_raise e (k : A -> M S B) s : bind (raise e) k s = (Raise e, s).
Proof. reflexivity. Qed.

Lemma try_except_ret a (h : exn -> M S A) s : try_except (ret a) h s = (Ok a, s).
Proof. reflexivity. Qed.

Lemma try_except_raise e (h : exn -> M S A) s : try_except (raise e) h s = h e s.
Proof. reflexivity. Qed.

(** A handler that never raises makes the whole [try] total: this is how
    the sources keep exceptions from crossing a function boundary. *)
Lemma try_except_never_raises (c : M S A) (h : exn -> M S A) :
  (forall e, never_raises (h e)) -> never_raises (try_except c h).
Proof.
  intros Hh s. unfold try_except.
  destruct (c s) as [[a|e] s']; [reflexivity | apply Hh].
Qed.

Lemma bind_never_raises (c : M S A) (k : A -> M S B) :
  never_raises c -> (forall a, never_raises (k a)) -> never_raises (bind c k).
Proof.
  intros Hc Hk s. unfold bind. specialize (Hc s).
  destruct (c s) as [[a|e] s']; [apply Hk | discriminate].
Qed.

Lemma ret_never_raises a : never_raises (@ret S A a).
Proof. intros s. reflexivity. Qed.

Lemma modify_never_raises (f : S -> S) : never_raises (modify f).
Proof. intros s. reflexivity. Qed.

Lemma never_raises_returns (c : M S A) s :
  never_raises c -> exists a s', returns c s a s'.
Proof.
  intros H. specialize (H s). unfold returns.
  destruct (c s) as [[a|e] s']; [eauto | discriminate].
Qed.

(** [try/finally] runs the final block on both outcomes. *)
Lemma try_finally_ok (c : M S A) (f : M S unit) s r s' s'' :
  c s = (r, s') -> f s' = (Ok tt, s'') -> try_finally c f s = (r, s'').
Proof. intros Hc Hf. unfold try_finally. rewrite Hc, Hf. reflexivity. Qed.

Lemma preserves_bind {T} (g : S -> T) (c : M S A) (k : A -> M S B) :
  preserves g c -> (forall a, preserves g (k a)) -> preserves g (bind c k).
Proof.
  intros Hc Hk s. unfold bind. specialize (Hc s).
  destruct (c s) as [[a|e] s']; simpl in *; [rewrite Hk; exact Hc | exact Hc].
Qed.

Lemma preserves_try_except {T} (g : S -> T) (c : M S A) (h : exn -> M S A) :
  preserves g c -> (forall e, preserves g (h e)) -> preserves g (try_except c h).
Proof.
  intros Hc Hh s. unfold try_except. specialize (Hc s).
  destruct (c s) as [[a|e] s']; simpl in *; [exact Hc | rewrite Hh; exact Hc].
Qed.

Lemma preserves_ret {T} (g : S -> T) a : preserves g (@ret S A a).
Proof. intros s. reflexivity. Qed.

Lemma preserves_raise {T} (g : S -> T) e : preserves g (@raise S A e).
Proof. intros s. reflexivity. Qed.

Lemma preserves_lift {T} (g : S -> T) (r : result A) : preserves g (@lift S A r).
Proof. intros s. reflexivity. Qed.

Lemma preserves_modify {T} (g : S -> T) (f : S -> S) :
  (forall s, g (f s) = g s) -> preserves g (modify f).
Proof. intros H s. apply H. Qed.

Lemma preserves_for_each {T} (g : S -> T) (l : list A) (body : A -> M S unit) :
  (forall x, preserves g (body x)) -> preserves g (for_each l body).
Proof.
  intros H. induction l as [| x l IH]; [by intros s |].
  intros s. simpl. unfold bind. specialize (H x s).
  destruct (body x s) as [[[] | e] s']; [by rewrite IH | done].
Qed.

(** A computation that ends by returning a known value hands that
    value to its continuation. *)
Lemma preserves_bind_ret {T} (g : S -> T) (c : M S unit) (v : A) (k : A -> M S B) :
  preserves g c -> preserves g (k v) ->
  preserves g (bind (bind c (fun _ => ret v)) k).
Proof.
  intros Hc Hk s. unfold bind, ret. specialize (Hc s).
  destruct (c s) as [[[] | e] s']; cbn [snd] in *; [by rewrite Hk | done].
Qed.

(** A predicate on the state that each part of a sequence keeps is kept
    by the sequence, whatever its outcome. *)
Lemma bind_invariant (P : S -> Prop) (c : M S A) (k : A -> M S B) s :
  P s -> (forall s, P s -> P (snd (c s))) -> (forall a s, P s -> P (snd (k a s))) ->
  P (snd (bind c k s)).
Proof.
  intros Hs Hc Hk. unfold bind. specialize (Hc s Hs).
  destruct (c s) as [[a|e] s']; simpl in *; auto.
Qed.

(** Whatever the continuation preserves is as the first computation
    left it. *)
Lemma bind_preserved {T} (g : S -> T) (c : M S A) (k : A -> M S B) s :
  (forall a, preserves g (k a)) -> g (snd (bind c k s)) = g (snd (c s)).
Proof.
  intros Hk. unfold bind. destruct (c s) as [[a | e] s']; [apply Hk | done].
Qed.

Lemma zoom_never_raises {W} (proj : W -> S) (upd : S -> W -> W) (c : M S A) :
  never_raises c -> never_raises (zoom proj upd c).
Proof.
  intros Hc w. unfold zoom. specialize (Hc (proj w)).
  by destruct (c (proj w)).
Qed.

Lemma zoom_run {W} (proj : W -> S) (upd : S -> W -> W) (c : M S A) w r s' :
  c (proj w) = (r, s') -> zoom proj upd c w = (r, upd s' w).
Proof. intros H. unfold zoom. by rewrite H. Qed.

(** A zoomed computation leaves alone whatever [upd] leaves alone. *)
Lemma zoom_preserves {W T} (proj : W -> S) (upd : S -> W -> W) (g : W -> T)
    (c : M S A) :
  (forall s w, g (upd s w) = g w) -> preserves g (zoom proj upd c).
Proof.
  intros H w. unfold zoom. destruct (c (proj w)) as [r s']. apply H.
Qed.

Lemma lift_Ok (a : A) : @lift S A (Ok a) = ret a.
Proof. reflexivity. Qed.

Lemma lift_Raise e : @lift S A (Raise e) = raise e.
Proof. reflexivity. Qed.

Lemma bind_run (c : M S A) (k : A -> M S B) s a s' :
  c s = (Ok a, s') -> bind c k s = k a s'.
Proof. intros H. unfold bind. by rewrite H. Qed.

Lemma bind_run_raise (c : M S A) (k : A -> M S B) s e s' :
  c s = (Raise e, s') -> bind c k s = (Raise e, s').
Proof. intros H. unfold bind. by rewrite H. Qed.

Lemma try_except_run (c : M S A) (h : exn -> M S A) s a s' :
  c s = (Ok a, s') -> try_except c h s = (Ok a, s').
Proof. intros H. unfold try_except. by rewrite H. Qed.

Lemma try_except_run_raise (c : M S A) (h : exn -> M S A) s e s' :
  c s = (Raise e, s') -> try_except c h s = h e s'.
Proof. intros H. unfold try_except. by rewrite H. Qed.

End monad_laws.

#[export] Hint Resolve try_except_never_raises bind_never_raises
  ret_never_raises modify_never_raises zoom_never_raises : py.
#[export] Hint Resolve preserves_bind preserves_try_except preserves_ret
  preserves_raise preserves_lift preserves_for_each : py.

(** One step of a proof that a computation preserves an observation, by
    the structure of the computation. *)
Ltac preserves_step :=
  lazymatch goal with
  | |- preserves _ (bind (bind _ (fun _ => ret _)) _) => apply preserves_bind_ret
  | |- preserves _ (bind _ _) => apply preserves_bind; [| intros ?]
  | |- preserves _ (try_except _ _) => apply preserves_try_except; [| intros ?]
  | |- preserves _ (for_each _ _) => apply preserves_for_each; intros ?
  | |- preserves _ (ret _) => apply preserves_ret
  | |- preserves _ (raise _) => apply preserves_raise
  | |- preserves _ (lift _) => apply preserves_lift
  | |- preserves _ (if ?b then _ else _) => destruct b
  | |- preserves _ (match ?x with _ => _ end) => destruct x
  end.

Ltac preserves_auto := cbv zeta; repeat preserves_step; auto with py.
#[export] Hint Rewrite @bind_ret_l @bind_raise @try_except_ret
  @try_except_raise @lift_Ok @lift_Raise : py_run.

(** ** Lists *)

(** Python's [len(l) >= 2] test followed by [l[1]]: the second element
    exists exactly when the list has two elements or more. *)
Lemma lookup_1_is_Some {A} (l : list A) : is_Some (l !! 1) <-> 2 <= length l.
Proof. rewrite lookup_lt_is_Some. lia. Qed.
