(* ===== verification/PyString.v ===== *)
(** * Python [str] methods used by the sources

    The sources call [strip], [lower], [startswith], [split], [replace] and
    the [in] operator on strings: [_gemini_connector.py] to clean and check
    the completion, [query_engine.py] to remove a markdown fence.  This
    file defines each of them as a structural fixpoint over [string] and
    proves the facts the components rely on.

    A character is a code point below 256.  [isspace] and [lower_char]
    list the code points Python treats as white space or as upper case in
    that range.  [split] and [replace] are defined for a non-empty
    separator, which is what every call in the sources passes (Python
    raises [ValueError] on an empty one); they scan left to right and
    never overlap two matches, by counting down the characters of the
    match just taken ([skip]). *)

From stdpp Require Import base strings list.
From Stdlib Require Import Ascii NArith.
From S2P Require Import Prelude.

Module Str.

(** ** Definitions *)

(** [c.isspace()] for a code point below 256: TAB..CR, FS..US, space,
    NEL and NBSP. *)
Definition isspace (c : ascii) : bool :=
  let n := N_of_ascii c in
  ((9 <=? n) && (n <=? 13) || (28 <=? n) && (n <=? 32)
   || (n =? 133) || (n =? 160))%N.

(** [c.lower()]: [A-Z] and the upper-case letters of Latin-1 (all of
    C0..DE but the multiplication sign D7) move up by 32. *)
Definition lower_char (c : ascii) : ascii :=
  let n := N_of_ascii c in
  if ((65 <=? n) && (n <=? 90) || (192 <=? n) && (n <=? 222) && negb (n =? 215))%N
  then ascii_of_N (n + 32) else c.

(** [s.lower()]. *)
Fixpoint lower (s : string) : string :=
  match s with
  | EmptyString => EmptyString
  | String c s' => String (lower_char c) (lower s')
  end.

(** [s.lstrip()]. *)
Fixpoint lstrip (s : string) : string :=
  match s with
  | EmptyString => EmptyString
  | String c s' => if isspace c then lstrip s' else s
  end.

(** [s.rstrip()]. *)
Fixpoint rstrip (s : string) : string :=
  match s with
  | EmptyString => EmptyString
  | String c s' =>
      match rstrip s' with
      | EmptyString => if isspace c then EmptyString else String c EmptyString
      | r => String c r
      end
  end.

(** [s.strip()]. *)
Definition strip (s : string) : string := rstrip (lstrip s).

(** [s.startswith(p)]. *)
Fixpoint startswith (s p : string) : bool :=
  match p, s with
  | EmptyString, _ => true
  | String a p', String b s' => bool_decide (a = b) && startswith s' p'
  | String _ _, EmptyString => false
  end.

(** [sub in s]. *)
Fixpoint contains (s sub : string) : bool :=
  startswith s sub ||
  match s with
  | EmptyString => false
  | String _ s' => contains s' sub
  end.

(** The scan of [s.split(sep)]: the piece under construction and the
    pieces after it.  [skip] counts the characters of the current match
    still to be passed over. *)
Fixpoint split_go (sep : string) (skip : nat) (s : string) : string * list string :=
  match s with
  | EmptyString => (EmptyString, [])
  | String c s' =>
      match skip with
      | S k => split_go sep k s'
      | O =>
          if startswith s sep
          then (EmptyString,
                let '(p, ps) := split_go sep (String.length sep - 1) s' in p :: ps)
          else let '(p, ps) := split_go sep 0 s' in (String c p, ps)
      end
  end.

(** [s.split(sep)], [sep] non-empty. *)
Definition split (s sep : string) : list string :=
  let '(p, ps) := split_go sep 0 s in p :: ps.

(** The scan of [s.replace(old, new)]. *)
Fixpoint replace_go (old new : string) (skip : nat) (s : string) : string :=
  match s with
  | EmptyString => EmptyString
  | String c s' =>
      match skip with
      | S k => replace_go old new k s'
      | O =>
          if startswith s old
          then new +:+ replace_go old new (String.length old - 1) s'
          else String c (replace_go old new 0 s')
      end
  end.

(** [s.replace(old, new)], [old] non-empty. *)
Definition replace (s old new : string) : string := replace_go old new 0 s.

(** [sep.join(l)]: the inverse of [split], used to state what [split]
    and [replace] compute. *)
Fixpoint join (sep : string) (l : list string) : string :=
  match l with
  | [] => EmptyString
  | [x] => x
  | x :: l' => x +:+ sep +:+ join sep l'
  end.

(** [s[n:]]. *)
Fixpoint drop (n : nat) (s : string) : string :=
  match n, s with
  | O, _ => s
  | S _, EmptyString => EmptyString
  | S k, String _ s' => drop k s'
  end.

(** Every character of [s] is white space. *)
Fixpoint all_space (s : string) : bool :=
  match s with
  | EmptyString => true
  | String c s' => isspace c && all_space s'
  end.

(** [String c p :: ps] from the pieces [p :: ps]: what an unmatched
    character does to the result of the scan. *)
Definition cons_head (c : ascii) (l : list string) : list string :=
  match l with
  | [] => [String c EmptyString]
  | p :: ps => String c p :: ps
  end.

(** [s[0]], [s[-1]] when they exist, and the test that such a character
    is not white space. *)
Definition first_char (s : string) : option ascii :=
  match s with EmptyString => None | String c _ => Some c end.

Fixpoint last_char (s : string) : option ascii :=
  match s with
  | EmptyString => None
  | String c EmptyString => Some c
  | String _ s' => last_char s'
  end.

Definition not_space (o : option ascii) : bool :=
  match o with None => true | Some c => negb (isspace c) end.

(** The character [a] occurs in [s]. *)
Fixpoint has_char (a : ascii) (s : string) : bool :=
  match s with
  | EmptyString => false
  | String c s' => bool_decide (c = a) || has_char a s'
  end.

(** [f] applied to every character of [s], and the function that turns
    the character [a] into [b]: what [lower] and the replacement of one
    character by another are. *)
Fixpoint map_chars (f : ascii -> ascii) (s : string) : string :=
  match s with
  | EmptyString => EmptyString
  | String c s' => String (f c) (map_chars f s')
  end.

Definition swap_char (a b c : ascii) : ascii :=
  if bool_decide (a = c) then b else c.

(** ** Concatenation, length and [drop] *)

Lemma app_nil_l s : EmptyString +:+ s = s.
Proof. reflexivity. Qed.

Lemma app_cons c s t : String c s +:+ t = String c (s +:+ t).
Proof. reflexivity. Qed.

Lemma app_nil_r s : s +:+ EmptyString = s.
Proof. induction s as [|c s IH]; [done | by rewrite app_cons, IH]. Qed.

Lemma app_assoc s t u : (s +:+ t) +:+ u = s +:+ (t +:+ u).
Proof. induction s as [|c s IH]; [done | by rewrite !app_cons, IH]. Qed.

Lemma length_app s t :
  String.length (s +:+ t) = String.length s + String.length t.
Proof. induction s as [|c s IH]; [done | rewrite app_cons; simpl; lia]. Qed.

Lemma app_eq_nil s t : s +:+ t = EmptyString -> s = EmptyString /\ t = EmptyString.
Proof. destruct s; [done | discriminate]. Qed.

Lemma drop_app s t : drop (String.length s) (s +:+ t) = t.
Proof. induction s as [|c s IH]; [by destruct t | exact IH]. Qed.

Lemma length_drop n s : String.length (drop n s) = String.length s - n.
Proof.
  revert n; induction s as [|c s IH]; intros [|n]; simpl; done.
Qed.

Lemma drop_0 s : drop 0 s = s.
Proof. by destruct s. Qed.

#[export] Hint Rewrite app_nil_l app_cons app_nil_r app_assoc length_app
  drop_app drop_0 : py_run.

(** ** [startswith] *)

Lemma startswith_nil s : startswith s EmptyString = true.
Proof. by destruct s. Qed.

Lemma startswith_app p t : startswith (p +:+ t) p = true.
Proof.
  induction p as [|c p IH]; [apply startswith_nil |].
  rewrite app_cons; simpl. by rewrite bool_decide_eq_true_2, IH.
Qed.

Lemma startswith_drop s p :
  startswith s p = true -> s = p +:+ drop (String.length p) s.
Proof.
  revert s; induction p as [|a p IH]; intros [|b s]; simpl; try done.
  intros [->%bool_decide_eq_true Hp]%andb_true_iff.
  rewrite app_cons. f_equal. by apply IH.
Qed.

(** [s.startswith(p)] holds exactly when [s] is [p] followed by some text. *)
Lemma startswith_spec s p :
  startswith s p = true <-> exists t, s = p +:+ t.
Proof.
  split; [intros H; eexists; by apply startswith_drop |].
  intros [t ->]. apply startswith_app.
Qed.

Lemma startswith_app_l s p t :
  startswith s p = true -> startswith (s +:+ t) p = true.
Proof.
  intros [u ->]%startswith_spec. rewrite app_assoc. apply startswith_app.
Qed.

Lemma startswith_empty p : startswith EmptyString p = true -> p = EmptyString.
Proof. by destruct p. Qed.

Lemma startswith_nonempty s p :
  p <> EmptyString -> startswith s p = true -> s <> EmptyString.
Proof. intros Hp H ->. by apply Hp, startswith_empty. Qed.

Lemma startswith_length s p :
  startswith s p = true -> String.length p <= String.length s.
Proof. intros [t ->]%startswith_spec. rewrite length_app. lia. Qed.

(** ** [in] *)

Lemma contains_nil sub : contains EmptyString sub = startswith EmptyString sub.
Proof. simpl. apply orb_false_r. Qed.

Lemma contains_cons c s sub :
  contains (String c s) sub = startswith (String c s) sub || contains s sub.
Proof. reflexivity. Qed.

(** [sub in s] holds exactly when [s] decomposes around an occurrence. *)
Lemma contains_spec s sub :
  contains s sub = true <-> exists a b, s = a +:+ sub +:+ b.
Proof.
  induction s as [|c s IH].
  - rewrite contains_nil. split.
    + intros ->%startswith_empty. by exists EmptyString, EmptyString.
    + intros (a & b & H). symmetry in H.
      apply app_eq_nil in H as [-> [-> _]%app_eq_nil]. done.
  - rewrite contains_cons, orb_true_iff, IH. split.
    + intros [[t Ht]%startswith_spec | (a & b & ->)].
      * exists EmptyString, t. by rewrite Ht.
      * by exists (String c a), b.
    + intros ([|c' a] & b & H).
      * left. rewrite H, app_nil_l. apply startswith_app.
      * right. rewrite app_cons in H. injection H as -> ->. eauto.
Qed.

Lemma contains_startswith s sub : startswith s sub = true -> contains s sub = true.
Proof. destruct s; [by rewrite contains_nil | rewrite contains_cons; by intros ->]. Qed.

Lemma contains_empty sub :
  sub <> EmptyString -> contains EmptyString sub = false.
Proof. rewrite contains_nil. by destruct sub. Qed.

Lemma contains_app_l s t x : contains s x = true -> contains (s +:+ t) x = true.
Proof.
  rewrite !contains_spec. intros (a & b & ->). exists a, (b +:+ t).
  by rewrite !app_assoc.
Qed.

Lemma contains_app_r s t x : contains t x = true -> contains (s +:+ t) x = true.
Proof.
  rewrite !contains_spec. intros (a & b & ->). exists (s +:+ a), b.
  by rewrite !app_assoc.
Qed.

Lemma contains_refl s : contains s s = true.
Proof.
  apply contains_startswith. rewrite <- (app_nil_r s) at 1. apply startswith_app.
Qed.

Lemma startswith_lower_nonempty s p :
  p <> EmptyString -> startswith (lower s) p = true -> s <> EmptyString.
Proof. intros Hp H ->. by apply Hp, startswith_empty. Qed.

Lemma last_char_app s t : t <> EmptyString -> last_char (s +:+ t) = last_char t.
Proof.
  intros Ht. induction s as [|c s IH]; [done |]. rewrite app_cons.
  simpl. rewrite IH. destruct (s +:+ t) eqn:E; [| done].
  by apply app_eq_nil in E as [_ ?].
Qed.

(** ** The scan shared by [split] and [replace] *)

Lemma split_go_skip sep k s : split_go sep k s = split_go sep 0 (drop k s).
Proof.
  revert k; induction s as [|c s IH]; intros [|k]; try done. simpl. apply IH.
Qed.

Lemma replace_go_skip old new k s :
  replace_go old new k s = replace_go old new 0 (drop k s).
Proof.
  revert k; induction s as [|c s IH]; intros [|k]; try done. simpl. apply IH.
Qed.

Lemma drop_pred_tail c s sep :
  sep <> EmptyString ->
  drop (String.length sep - 1) s = drop (String.length sep) (String c s).
Proof. destruct sep; [done | intros _; simpl; by rewrite Nat.sub_0_r]. Qed.

Lemma split_nil sep : split EmptyString sep = [EmptyString].
Proof. reflexivity. Qed.

(** At a match, [split] closes the current piece and resumes after the
    separator. *)
Lemma split_match s sep :
  sep <> EmptyString -> startswith s sep = true ->
  split s sep = EmptyString :: split (drop (String.length sep) s) sep.
Proof.
  intros Hsep H. destruct s as [|c s]; [by apply startswith_empty in H |].
  unfold split at 1. cbn [split_go]. rewrite H, split_go_skip.
  by rewrite (drop_pred_tail c).
Qed.

(** Elsewhere, the character joins the current piece. *)
Lemma split_nomatch c s sep :
  startswith (String c s) sep = false ->
  split (String c s) sep = cons_head c (split s sep).
Proof.
  intros H. unfold split. cbn [split_go]. rewrite H.
  by destruct (split_go sep 0 s).
Qed.

Lemma replace_nil old new : replace EmptyString old new = EmptyString.
Proof. reflexivity. Qed.

Lemma replace_match s old new :
  old <> EmptyString -> startswith s old = true ->
  replace s old new = new +:+ replace (drop (String.length old) s) old new.
Proof.
  intros Hold H. destruct s as [|c s]; [by apply startswith_empty in H |].
  unfold replace. cbn [replace_go]. rewrite H, replace_go_skip.
  by rewrite (drop_pred_tail c).
Qed.

Lemma replace_nomatch c s old new :
  startswith (String c s) old = false ->
  replace (String c s) old new = String c (replace s old new).
Proof. intros H. unfold replace. cbn [replace_go]. by rewrite H. Qed.

(** Induction along the scan: the empty string, a match followed by the
    rest after the separator, or one unmatched character. *)
Lemma scan_ind (sep : string) (Hsep : sep <> EmptyString) (P : string -> Prop) :
  P EmptyString ->
  (forall s, startswith s sep = true -> P (drop (String.length sep) s) -> P s) ->
  (forall c s, startswith (String c s) sep = false -> P s -> P (String c s)) ->
  forall s, P s.
Proof.
  intros Hnil Hmatch Hstep s.
  remember (String.length s) as n eqn:Hn. revert s Hn.
  induction n as [n IH] using lt_wf_ind. intros [|c s] Hn; [done |].
  destruct (startswith (String c s) sep) eqn:E.
  - apply Hmatch; [done |]. eapply IH; [| done].
    rewrite length_drop, Hn. destruct sep; [done | simpl; lia].
  - apply Hstep; [done |]. eapply IH; [| done]. simpl in Hn. lia.
Qed.

(** ** [split], [join] and [replace] *)

Lemma split_nonempty s sep : split s sep <> [].
Proof. unfold split. by destruct (split_go sep 0 s). Qed.

Lemma length_cons_head c l : l <> [] -> length (cons_head c l) = length l.
Proof. by destruct l. Qed.

Lemma join_cons_head sep c l :
  l <> [] -> join sep (cons_head c l) = String c (join sep l).
Proof. destruct l as [|p [|q l]]; done. Qed.

Lemma join_cons sep p l :
  l <> [] -> join sep (p :: l) = p +:+ sep +:+ join sep l.
Proof. by destruct l. Qed.

(** Round trip: joining the pieces with the separator gives the string
    back. *)
Lemma join_split s sep : sep <> EmptyString -> join sep (split s sep) = s.
Proof.
  intros Hsep. induction s as [| s Hm IH | c s Hm IH] using (scan_ind sep Hsep); try done.
  - rewrite split_match, join_cons, IH by auto using split_nonempty.
    rewrite app_nil_l. symmetry. by apply startswith_drop.
  - by rewrite split_nomatch, join_cons_head, IH by auto using split_nonempty.
Qed.

(** [split] yields two pieces or more exactly when the separator occurs:
    after an [in] test that succeeded, indexing the second piece cannot
    fail. *)
Lemma split_length_contains s sep :
  sep <> EmptyString -> (2 <= length (split s sep) <-> contains s sep = true).
Proof.
  intros Hsep. induction s as [| s Hm IH | c s Hm IH] using (scan_ind sep Hsep); try done.
  - rewrite split_nil, contains_empty by done. simpl. split; [lia | done].
  - rewrite split_match, contains_startswith by done.
    pose proof (split_nonempty (drop (String.length sep) s) sep).
    destruct (split _ sep); simpl; [done | split; [done | lia]].
  - rewrite split_nomatch, length_cons_head, contains_cons, Hm
      by auto using split_nonempty. exact IH.
Qed.

(** [replace] is [split] followed by [join] with the new text. *)
Lemma replace_join_split s old new :
  old <> EmptyString -> replace s old new = join new (split s old).
Proof.
  intros Hold. induction s as [| s Hm IH | c s Hm IH] using (scan_ind old Hold); try done.
  - rewrite replace_match, split_match, join_cons, IH by auto using split_nonempty.
    done.
  - by rewrite replace_nomatch, split_nomatch, join_cons_head, IH
      by auto using split_nonempty.
Qed.

(** A text free of the separator's first character, followed by the
    separator, is the first piece. *)
Lemma split_app_sep a sep rest c :
  first_char sep = Some c -> has_char c a = false ->
  split (a +:+ sep +:+ rest) sep = a :: split rest sep.
Proof.
  intros Hc Ha. assert (sep <> EmptyString) as Hsep by (by destruct sep).
  induction a as [|x a IH].
  - rewrite app_nil_l, split_match, drop_app; auto using startswith_app.
  - simpl in Ha. apply orb_false_iff in Ha as [Hx Ha].
    rewrite app_cons, split_nomatch, IH; [done.. |].
    destruct sep as [|y sep]; [done |]. simpl in *.
    injection Hc as ->. apply bool_decide_eq_false in Hx.
    by rewrite bool_decide_eq_false_2.
Qed.

(** Without an occurrence there is one piece, the string itself. *)
Lemma split_not_contains s sep :
  sep <> EmptyString -> contains s sep = false -> split s sep = [s].
Proof.
  intros Hsep. induction s as [| s Hm IH | c s Hm IH] using (scan_ind sep Hsep); try done.
  - by rewrite contains_startswith.
  - rewrite contains_cons, Hm. simpl. intros H.
    by rewrite split_nomatch, IH.
Qed.

Lemma replace_not_contains s old new :
  old <> EmptyString -> contains s old = false -> replace s old new = s.
Proof.
  intros Hold H. by rewrite replace_join_split, split_not_contains.
Qed.

(** The first piece is a prefix of the string. *)
Lemma split_head_prefix s sep p ps :
  sep <> EmptyString -> split s sep = p :: ps -> exists t, s = p +:+ t.
Proof.
  intros Hsep H. pose proof (join_split s sep Hsep) as J. rewrite H in J.
  destruct ps; simpl in J; [exists EmptyString; by rewrite app_nil_r | eauto].
Qed.

(** No piece contains the separator. *)
Lemma split_pieces_no_sep s sep :
  sep <> EmptyString -> Forall (fun p => contains p sep = false) (split s sep).
Proof.
  intros Hsep. induction s as [| s Hm IH | c s Hm IH] using (scan_ind sep Hsep).
  - repeat constructor. by apply contains_empty.
  - rewrite split_match by done. constructor; [by apply contains_empty | done].
  - rewrite split_nomatch by done.
    destruct (split s sep) as [|p ps] eqn:E; [by apply split_nonempty in E |].
    apply Forall_cons in IH as [Hp Hps]. constructor; [| done].
    rewrite contains_cons, Hp, orb_false_r.
    destruct (split_head_prefix s sep p ps Hsep E) as [t ->].
    destruct (startswith (String c p) sep) eqn:F; [| done].
    by rewrite <- Hm, <- app_cons, (startswith_app_l _ _ t F).
Qed.

(** ** [lower] *)

Lemma lower_char_idemp c : lower_char (lower_char c) = lower_char c.
Proof. by destruct c as [[] [] [] [] [] [] [] []]. Qed.

Lemma isspace_lower_char c : isspace (lower_char c) = isspace c.
Proof. by destruct c as [[] [] [] [] [] [] [] []]. Qed.

Lemma lower_app s t : lower (s +:+ t) = lower s +:+ lower t.
Proof. induction s as [|c s IH]; [done | by rewrite !app_cons; simpl; rewrite IH]. Qed.

Lemma length_lower s : String.length (lower s) = String.length s.
Proof. induction s as [|c s IH]; simpl; congruence. Qed.

Lemma lower_idemp s : lower (lower s) = lower s.
Proof. induction s as [|c s IH]; simpl; [done | by rewrite lower_char_idemp, IH]. Qed.

Lemma lower_eq_nil s : lower s = EmptyString <-> s = EmptyString.
Proof. by destruct s. Qed.

(** ** [strip] *)

Lemma rstrip_eq_nil s : rstrip s = EmptyString <-> all_space s = true.
Proof.
  induction s as [|c s IH]; [done |]. simpl.
  destruct (rstrip s) eqn:E, (isspace c); simpl; try (split; done || fail).
  - tauto.
  - rewrite <- IH. split; done.
Qed.

Lemma rstrip_cons_nonspace c s :
  isspace c = false -> rstrip (String c s) = String c (rstrip s).
Proof. intros H. simpl. rewrite H. by destruct (rstrip s). Qed.

Lemma rstrip_idemp s : rstrip (rstrip s) = rstrip s.
Proof.
  induction s as [|c s IH]; [done |]. simpl.
  destruct (rstrip s) as [|a r] eqn:E.
  - destruct (isspace c) eqn:F; [done | by rewrite rstrip_cons_nonspace].
  - simpl. simpl in IH. destruct (rstrip r); rewrite IH; done.
Qed.

Lemma lstrip_first s : not_space (first_char (lstrip s)) = true.
Proof.
  induction s as [|c s IH]; [done |]. simpl.
  destruct (isspace c) eqn:F; [done | by simpl; rewrite F].
Qed.

Lemma lstrip_fixed s : not_space (first_char s) = true -> lstrip s = s.
Proof. destruct s as [|c s]; [done |]. simpl. by intros ->%negb_true_iff. Qed.

Lemma rstrip_first s :
  not_space (first_char s) = true -> not_space (first_char (rstrip s)) = true.
Proof.
  destruct s as [|c s]; [done |]. simpl. intros H%negb_true_iff.
  rewrite H. destruct (rstrip s); simpl; by rewrite H.
Qed.

Lemma rstrip_last s : not_space (last_char (rstrip s)) = true.
Proof.
  induction s as [|c s IH]; [done |]. simpl.
  destruct (rstrip s) as [|a r] eqn:E; [| done].
  destruct (isspace c) eqn:F; simpl; by rewrite ?F.
Qed.

Lemma rstrip_fixed s : not_space (last_char s) = true -> rstrip s = s.
Proof.
  induction s as [|c s IH]; [done |]. destruct s as [|a s].
  - simpl. by intros ->%negb_true_iff.
  - intros H. change (rstrip (String c (String a s))) with
      (match rstrip (String a s) with
       | EmptyString => if isspace c then EmptyString else String c EmptyString
       | r => String c r end).
    by rewrite IH.
Qed.

(** [strip] is idempotent: stripping the completion a second time, as
    [run_query] does, changes nothing. *)
Lemma strip_idemp s : strip (strip s) = strip s.
Proof.
  unfold strip. rewrite (lstrip_fixed (rstrip _)), rstrip_idemp;
    auto using rstrip_first, lstrip_first.
Qed.

(** The result of [strip] neither starts nor ends with white space. *)
Lemma strip_clean s :
  not_space (first_char (strip s)) = true /\ not_space (last_char (strip s)) = true.
Proof. split; [apply rstrip_first, lstrip_first | apply rstrip_last]. Qed.

(** A string that neither starts nor ends with white space is its own
    [strip]. *)
Lemma strip_fixed s :
  not_space (first_char s) = true -> not_space (last_char s) = true -> strip s = s.
Proof. intros H1 H2. unfold strip. by rewrite lstrip_fixed, rstrip_fixed. Qed.

Lemma lstrip_decomp s : exists l, s = l +:+ lstrip s /\ all_space l = true.
Proof.
  induction s as [|c s (l & E & H)]; [by exists EmptyString |]. simpl.
  destruct (isspace c) eqn:F; [| by exists EmptyString].
  exists (String c l). rewrite app_cons, <- E. simpl. by rewrite F.
Qed.

Lemma rstrip_decomp s : exists r, s = rstrip s +:+ r /\ all_space r = true.
Proof.
  induction s as [|c s (r & E & H)]; [by exists EmptyString |]. simpl.
  destruct (rstrip s) as [|a t] eqn:G.
  - rewrite app_nil_l in E. subst r.
    destruct (isspace c) eqn:F; [exists (String c s) | exists s]; simpl;
      by rewrite ?F.
  - exists r. by rewrite app_cons, <- E.
Qed.

(** [strip] removes a run of white space at each end and nothing else. *)
Lemma strip_decomp s :
  exists l r, s = l +:+ strip s +:+ r /\ all_space l = true /\ all_space r = true.
Proof.
  destruct (lstrip_decomp s) as (l & El & Hl).
  destruct (rstrip_decomp (lstrip s)) as (r & Er & Hr).
  exists l, r. unfold strip. by rewrite <- Er, <- El.
Qed.

Lemma all_space_app s t : all_space (s +:+ t) = all_space s && all_space t.
Proof.
  induction s as [|c s IH]; [done |]. rewrite app_cons. simpl.
  by rewrite IH, andb_assoc.
Qed.

Lemma lstrip_all_space s : all_space s = true -> lstrip s = EmptyString.
Proof.
  induction s as [|c s IH]; [done |]. simpl.
  intros [-> H]%andb_true_iff. auto.
Qed.

(** [strip] returns the empty string exactly on white space. *)
Lemma strip_eq_nil s : strip s = EmptyString <-> all_space s = true.
Proof.
  unfold strip. rewrite rstrip_eq_nil. split.
  - intros H. destruct (lstrip_decomp s) as (l & E & Hl).
    rewrite E, all_space_app, Hl, H. done.
  - intros H. by rewrite lstrip_all_space.
Qed.

(** ** Character by character *)

Lemma lower_map_chars s : lower s = map_chars lower_char s.
Proof. induction s as [|c s IH]; simpl; congruence. Qed.

(** Replacing a one-character text by another is a map over the
    characters. *)
Lemma replace_char s a b :
  replace s (String a EmptyString) (String b EmptyString) = map_chars (swap_char a b) s.
Proof.
  unfold replace. induction s as [|c s IH]; [done |]. simpl.
  rewrite startswith_nil, andb_true_r, IH.
  change (swap_char a b c) with (if bool_decide (a = c) then b else c).
  by destruct (bool_decide (a = c)).
Qed.

Lemma map_chars_compose f g s : map_chars f (map_chars g s) = map_chars (fun c => f (g c)) s.
Proof. induction s as [|c s IH]; simpl; congruence. Qed.

Lemma map_chars_ext f g s : (forall c, f c = g c) -> map_chars f s = map_chars g s.
Proof. intros H. induction s as [|c s IH]; simpl; congruence. Qed.

Lemma first_char_map_chars f s : first_char (map_chars f s) = f <$> first_char s.
Proof. by destruct s. Qed.

Lemma last_char_map_chars f s : last_char (map_chars f s) = f <$> last_char s.
Proof.
  induction s as [|c s IH]; [done |]. destruct s as [|a s]; [done |].
  exact IH.
Qed.

Lemma has_char_map_chars f a s :
  (forall c, f c <> a) -> has_char a (map_chars f s) = false.
Proof.
  intros H. induction s as [|c s IH]; [done |]. simpl.
  rewrite IH. by rewrite bool_decide_eq_false_2.
Qed.

End Str.

#[export] Hint Resolve Str.startswith_app Str.startswith_app_l Str.contains_app_l
  Str.contains_app_r Str.contains_refl Str.contains_startswith
  Str.split_nonempty Str.strip_idemp : py.
