(* ===== verification/PyValue.v ===== *)
(** * Dynamically typed Python values

    The HTTP handlers receive a parsed JSON body and return one; the
    pipeline returns rows read from SQLite.  [pyval] is the universe of
    such values.  This file defines the operations the sources apply to
    them: truthiness ([if not question]), [dict.get] ([data.get]),
    [isinstance(_, dict)] and key membership ([main.py]), formatting into
    an f-string ([py_str], with [repr] for the elements of containers) and
    JSON serialisation ([jsonify]).

    A float is carried as the text of its [repr], which determines it; a
    dict is an association list with distinct keys, in insertion order. *)

From stdpp Require Import base strings list pretty.
From Stdlib Require Import Ascii NArith ZArith.
From S2P Require Import Prelude PyString.

(** ** Values *)

Inductive pyval : Type :=
| VNone
| VBool (b : bool)
| VInt (z : Z)
| VFloat (repr : string)
| VStr (s : string)
| VBytes (b : string)
| VList (l : list pyval)
| VTuple (l : list pyval)
| VDict (d : list (string * pyval)).

(** [type(v).__name__]. *)
Definition type_name (v : pyval) : string :=
  match v with
  | VNone => "NoneType"
  | VBool _ => "bool"
  | VInt _ => "int"
  | VFloat _ => "float"
  | VStr _ => "str"
  | VBytes _ => "bytes"
  | VList _ => "list"
  | VTuple _ => "tuple"
  | VDict _ => "dict"
  end.

(** [bool(v)]: what [if v] and [not v] test. *)
Definition truthy (v : pyval) : bool :=
  match v with
  | VNone => false
  | VBool b => b
  | VInt z => negb (z =? 0)%Z
  | VFloat r => negb (bool_decide (r = "0.0") || bool_decide (r = "-0.0"))
  | VStr s => negb (bool_decide (s = EmptyString))
  | VBytes b => negb (bool_decide (b = EmptyString))
  | VList l | VTuple l => negb (bool_decide (l = []))
  | VDict d => negb (bool_decide (d = []))
  end.

(** [isinstance(v, dict)]. *)
Definition is_dict (v : pyval) : bool :=
  match v with VDict _ => true | _ => false end.

(** Lookup of a key in a dict's items. *)
Fixpoint dict_lookup (d : list (string * pyval)) (k : string) : option pyval :=
  match d with
  | [] => None
  | (k', v) :: d' => if bool_decide (k' = k) then Some v else dict_lookup d' k
  end.

(** [k in v] for a dict [v]. *)
Definition has_key (v : pyval) (k : string) : bool :=
  match v with
  | VDict d => bool_decide (is_Some (dict_lookup d k))
  | _ => false
  end.

(** [v[k]] for a dict [v] known to hold [k]; [None] stands for the
    [KeyError] case, which the caller's guard excludes. *)
Definition dict_item (v : pyval) (k : string) : pyval :=
  match v with
  | VDict d => default VNone (dict_lookup d k)
  | _ => VNone
  end.

(** [v.get(k)]: the value under [k], [None] when absent; a value that is
    not a dict has no attribute [get]. *)
Definition py_get (v : pyval) (k : string) : result pyval :=
  match v with
  | VDict d => Ok (default VNone (dict_lookup d k))
  | _ => Raise (Exn AttributeError
                  ("'" +:+ type_name v +:+ "' object has no attribute 'get'"))
  end.

(** [v.get(k, d)]: the value under [k], [d] when absent. *)
Definition py_get_default (v : pyval) (k : string) (d : pyval) : result pyval :=
  match v with
  | VDict items => Ok (default d (dict_lookup items k))
  | _ => Raise (Exn AttributeError
                  ("'" +:+ type_name v +:+ "' object has no attribute 'get'"))
  end.

(** ** [repr] and [str] *)

Definition squote : ascii := "'"%char.
Definition dquote : ascii := ascii_of_nat 34.
Definition backslash : ascii := ascii_of_nat 92.

Definition hex_digit (n : N) : ascii :=
  if (n <? 10)%N then ascii_of_N (48 + n) else ascii_of_N (87 + n).

(** The escape [\xhh] of a character. *)
Definition hex_escape (c : ascii) : string :=
  let n := N_of_ascii c in
  String backslash (String "x" (String (hex_digit (n / 16))
    (String (hex_digit (n mod 16)) EmptyString))).

(** [c.isprintable()] below 256: not a control character, not in
    7F..A0, not the soft hyphen. *)
Definition isprintable (c : ascii) : bool :=
  let n := N_of_ascii c in
  negb ((n <? 32) || (127 <=? n) && (n <=? 160) || (n =? 173))%N.

(** The quote [repr] encloses a string in: a double quote only when the
    text has a single quote and no double quote. *)
Definition repr_quote (s : string) : ascii :=
  if Str.has_char squote s && negb (Str.has_char dquote s) then dquote else squote.

(** One character of [repr(s)].  [printable] is [isprintable] for a
    [str] and the ASCII test for [bytes]. *)
Definition repr_char (printable : ascii -> bool) (q c : ascii) : string :=
  if bool_decide (c = q) || bool_decide (c = backslash)
  then String backslash (String c EmptyString)
  else if bool_decide (c = ascii_of_nat 9) then String backslash "t"
  else if bool_decide (c = ascii_of_nat 10) then String backslash "n"
  else if bool_decide (c = ascii_of_nat 13) then String backslash "r"
  else if printable c then String c EmptyString
  else hex_escape c.

Fixpoint repr_chars (printable : ascii -> bool) (q : ascii) (s : string) : string :=
  match s with
  | EmptyString => EmptyString
  | String c s' => repr_char printable q c +:+ repr_chars printable q s'
  end.

(** [repr(s)] for a [str]. *)
Definition repr_str (s : string) : string :=
  let q := repr_quote s in
  String q (repr_chars isprintable q s +:+ String q EmptyString).

Definition isprintable_byte (c : ascii) : bool :=
  let n := N_of_ascii c in ((32 <=? n) && (n <? 127))%N.

(** [repr(b)] for [bytes]. *)
Definition repr_bytes (b : string) : string :=
  let q := repr_quote b in
  String "b" (String q (repr_chars isprintable_byte q b +:+ String q EmptyString)).

(** [repr(v)]. *)
Fixpoint py_repr (v : pyval) : string :=
  match v with
  | VNone => "None"
  | VBool true => "True"
  | VBool false => "False"
  | VInt z => pretty z
  | VFloat r => r
  | VStr s => repr_str s
  | VBytes b => repr_bytes b
  | VList l => "[" +:+ Str.join ", " (map py_repr l) +:+ "]"
  | VTuple l =>
      match l with
      | [x] => "(" +:+ py_repr x +:+ ",)"
      | _ => "(" +:+ Str.join ", " (map py_repr l) +:+ ")"
      end
  | VDict d =>
      "{" +:+ Str.join ", "
        (map (fun kv => repr_str (fst kv) +:+ ": " +:+ py_repr (snd kv)) d) +:+ "}"
  end.

(** [str(v)], which is what an f-string field [{v}] inserts. *)
Definition py_str (v : pyval) : string :=
  match v with
  | VStr s => s
  | _ => py_repr v
  end.

(** ** JSON serialisation *)

(** [jsonify] accepts [None], booleans, numbers, strings, lists, tuples
    (written as arrays) and dicts, and raises [TypeError] on [bytes].  The
    result is the JSON value written, as the client parses it back. *)
Fixpoint jsonable (v : pyval) : bool :=
  match v with
  | VBytes _ => false
  | VList l | VTuple l => forallb jsonable l
  | VDict d => forallb (fun kv => jsonable (snd kv)) d
  | _ => true
  end.

Fixpoint to_json (v : pyval) : pyval :=
  match v with
  | VList l | VTuple l => VList (map to_json l)
  | VDict d => VDict (map (fun kv => (fst kv, to_json (snd kv))) d)
  | _ => v
  end.

Definition jsonify (v : pyval) : result pyval :=
  if jsonable v then Ok (to_json v)
  else Raise (Exn TypeError "Object of type bytes is not JSON serializable").

(** ** Facts *)

Lemma py_str_VStr s : py_str (VStr s) = s.
Proof. reflexivity. Qed.

(** A falsy string is the empty string. *)
Lemma truthy_VStr s : truthy (VStr s) = false <-> s = EmptyString.
Proof.
  simpl. rewrite negb_false_iff, bool_decide_eq_true. done.
Qed.

(** [get] never raises on a dict, and raises [AttributeError] on
    everything else. *)
Lemma py_get_ok v k : is_ok (py_get v k) = is_dict v.
Proof. by destruct v. Qed.

Lemma py_get_VDict d k : py_get (VDict d) k = Ok (default VNone (dict_lookup d k)).
Proof. reflexivity. Qed.

Lemma dict_lookup_cons_eq k v d : dict_lookup ((k, v) :: d) k = Some v.
Proof. simpl. by rewrite bool_decide_eq_true_2. Qed.

Lemma dict_lookup_cons_ne k k' v d :
  k' <> k -> dict_lookup ((k', v) :: d) k = dict_lookup d k.
Proof. intros H. simpl. by rewrite bool_decide_eq_false_2. Qed.

Lemma has_key_not_dict v k : is_dict v = false -> has_key v k = false.
Proof. by destruct v. Qed.

(** [jsonify] succeeds exactly on values free of [bytes]. *)
Lemma jsonify_ok v : is_ok (jsonify v) = jsonable v.
Proof. unfold jsonify. by destruct (jsonable v). Qed.

Lemma jsonify_str s : jsonify (VStr s) = Ok (VStr s).
Proof. reflexivity. Qed.

#[export] Hint Rewrite py_str_VStr py_get_VDict dict_lookup_cons_eq
  jsonify_str : py_run.
