(* ===== verification/Gemini.v ===== *)
(** * The completion client: [_gemini_connector.py]

    Start-up reads the API key from the environment and refuses to go on
    without one ([import_connector]).  [ask_gemini] builds the prompt
    around the question, calls the completion service once, strips the
    answer and checks that it starts with [select] in any letter case; any
    exception, the failed check included, is turned into a SQL statement
    that selects the error message.

    The module-level object [model] is the interface [CompletionService]:
    a state and one operation, [generate_content] followed by [.text],
    which returns text or raises.  [gemini_state] adds the log of prompts
    sent, a ghost field that records the calls made. *)

From stdpp Require Import base strings list gmap.
From S2P Require Import Prelude PyString PyValue.

#[local] Open Scope py_scope.

Module Gemini.

(** ** Start-up *)

(** The configured model handle: [genai.configure(api_key=...)] and
    [genai.GenerativeModel(model_name=...)]. *)
Record generative_model : Type := {
  api_key : string;
  model_name : string;
}.

(** [os.getenv(k)] on the process environment. *)
Definition os_getenv (env : gmap string string) (k : string) : option string :=
  env !! k.

(** [x or y] on optional strings: [x] when it is a non-empty string. *)
Definition or_else (x y : option string) : option string :=
  match x with
  | Some s => if bool_decide (s = EmptyString) then y else x
  | None => y
  end.

(** Truthiness of an optional string: set, and not empty. *)
Definition is_set (x : option string) : bool :=
  match x with
  | Some s => negb (bool_decide (s = EmptyString))
  | None => false
  end.

(** [load_dotenv()]: variables of the [.env] file are added to the
    environment; variables already set keep their value. *)
Definition load_dotenv (dotenv : gmap string string) : M (gmap string string) unit :=
  modify (fun env => env ∪ dotenv).

(** The statements the module runs when it is imported. *)
Definition import_connector (dotenv : gmap string string)
    : M (gmap string string) generative_model :=
  exec load_dotenv dotenv ;;
  do env <- get_state ;;
  let API_KEY := or_else (os_getenv env "GEMINI_API_KEY")
                         (os_getenv env "GOOGLE_API_KEY") in
  if negb (is_set API_KEY)
  then raise (Exn EnvironmentError
                "❌ Gemini API key not found in environment variables!")
  else ret {| api_key := default EmptyString API_KEY;
              model_name := "models/gemini-2.5-flash-lite" |}.

(** ** The completion service *)

(** [model.generate_content(prompt).text]: the service answers with text
    or raises, and moves to a new state of its own. *)
Class CompletionService : Type := {
  svc_state : Type;
  svc_generate : string -> svc_state -> result string * svc_state;
}.

Section client.
Context `{model : CompletionService}.

Record gemini_state : Type := {
  g_service : svc_state;
  g_prompts : list string;
}.

Definition generate_content (prompt : string) : M gemini_state string :=
  fun s =>
    let '(r, svc) := svc_generate prompt (g_service s) in
    (r, {| g_service := svc; g_prompts := g_prompts s ++ [prompt] |}).

(** ** [ask_gemini] *)

(** The f-string of the prompt, before and after the question. *)
Definition prompt_head : string :=
"
You are a helpful assistant that converts English questions to SQLite SQL queries.
Only return the SQL query — no explanations, no code formatting like ```sql.
The database has the following tables and columns:

- eligibility(eligibility_datetime_utc, item_id, eligibility, message)
- ad_sales_metrics(date, item_id, ad_sales, impressions, ad_spend, clicks, units_sold)
- total_sales_metrics(date, item_id, total_sales, total_units_ordered)

Join tables using item_id when necessary.
Avoid using any markdown formatting.
Return only valid, executable SQL.

Question: ".

Definition prompt_tail : string :=
"
SQL:".

Definition build_prompt (question : pyval) : string :=
  prompt_head +:+ py_str question +:+ prompt_tail.

(** The statement returned in place of an exception [e]. *)
Definition error_sql (e : exn) : string :=
  "SELECT 'Error: " +:+ exn_str e +:+ "' AS error_message;".

(** [not sql.lower().startswith("select")] *)
Definition is_select (sql : string) : bool :=
  Str.startswith (Str.lower sql) "select".

Definition ask_gemini (question : pyval) : M gemini_state string :=
  let prompt := build_prompt question in
  try_except
    (do response_text <- generate_content prompt ;;
     let sql := Str.strip response_text in
     if negb (is_select sql)
     then raise (Exn ValueError
                   "Gemini response did not contain a valid SQL SELECT statement.")
     else ret sql)
    (fun e => ret (error_sql e)).

End client.

(** ** The schema of the specification *)

(** The tables the written specification lists for the relational store,
    and the line of the prompt that describes one. *)
Definition schema : list (string * list string) :=
  [ ("eligibility",
     ["eligibility_datetime_utc"; "item_id"; "eligibility"; "message"]);
    ("ad_sales_metrics",
     ["date"; "item_id"; "ad_sales"; "impressions"; "ad_spend"; "clicks";
      "units_sold"]);
    ("total_sales_metrics",
     ["date"; "item_id"; "total_sales"; "total_units_ordered"]) ].

Definition render_table (t : string * list string) : string :=
  "- " +:+ fst t +:+ "(" +:+ Str.join ", " (snd t) +:+ ")".

(** ** A scripted service *)

(** A completion service that plays back a list of outcomes, one per
    call, and raises once the script is exhausted.  The witnesses run the
    client against it. *)
Definition scripted_service : CompletionService := {|
  svc_state := list (result string);
  svc_generate := fun _ script =>
    match script with
    | [] => (Raise (Exn ServiceError "no more responses"), [])
    | r :: script' => (r, script')
    end;
|}.

(** The state of [scripted_service] before any call. *)
Definition scripted (script : list (result string)) : @gemini_state scripted_service :=
  {| g_service := script : @svc_state scripted_service; g_prompts := [] |}.

(** ** Facts about [ask_gemini] *)

Section client_facts.
Context `{model : CompletionService}.
Implicit Types (q : pyval) (s : gemini_state) (e : exn).

Lemma is_select_error_sql e : is_select (error_sql e) = true.
Proof.
  unfold is_select, error_sql. rewrite Str.lower_app.
  by apply Str.startswith_app_l.
Qed.

Lemma strip_error_sql e : Str.strip (error_sql e) = error_sql e.
Proof.
  apply Str.strip_fixed; [done |]. unfold error_sql.
  by rewrite <- Str.app_assoc, Str.last_char_app.
Qed.

Lemma is_select_nonempty sql : is_select sql = true -> sql <> EmptyString.
Proof. by apply Str.startswith_lower_nonempty. Qed.

(** What [ask_gemini] returns for an outcome of the service. *)
Definition answer_of (r : result string) : string :=
  match r with
  | Ok text =>
      if is_select (Str.strip text) then Str.strip text
      else error_sql (Exn ValueError
             "Gemini response did not contain a valid SQL SELECT statement.")
  | Raise e => error_sql e
  end.

Lemma ask_gemini_run q s :
  ask_gemini q s =
  let '(r, svc) := svc_generate (build_prompt q) (g_service s) in
  (Ok (answer_of r),
   {| g_service := svc; g_prompts := g_prompts s ++ [build_prompt q] |}).
Proof.
  unfold ask_gemini, generate_content. mrun.
  destruct (svc_generate _ _) as [[text|e] svc]; simpl; [| done].
  by destruct (is_select (Str.strip text)).
Qed.

Lemma answer_of_select r : is_select (answer_of r) = true.
Proof.
  destruct r as [text|e]; simpl; [| apply is_select_error_sql].
  destruct (is_select (Str.strip text)) eqn:E; [done | apply is_select_error_sql].
Qed.

Lemma answer_of_stripped r : Str.strip (answer_of r) = answer_of r.
Proof.
  destruct r as [text|e]; simpl; [| apply strip_error_sql].
  destruct (is_select (Str.strip text));
    [apply Str.strip_idemp | apply strip_error_sql].
Qed.

(** C2. [ask_gemini] always returns, and what it returns starts with
    [select] in some letter case, is not empty and has no white space at
    either end: every exception, the rejected completion included, has
    been replaced by the synthetic statement. *)
Theorem ask_gemini_select q s :
  exists sql s', ask_gemini q s = (Ok sql, s')
    /\ is_select sql = true /\ sql <> EmptyString /\ Str.strip sql = sql.
Proof.
  rewrite ask_gemini_run. destruct (svc_generate _ _) as [r svc].
  eexists _, _. split; [done |].
  auto using answer_of_select, answer_of_stripped, is_select_nonempty.
Qed.

(** No exception escapes [ask_gemini], whatever the service does. *)
Theorem ask_gemini_never_raises q : never_raises (ask_gemini q).
Proof. intros s. rewrite ask_gemini_run. by destruct (svc_generate _ _). Qed.

(** One call of [ask_gemini] sends exactly one prompt to the service,
    the one built from the question; nothing is retried. *)
Theorem ask_gemini_calls_once q s :
  g_prompts (snd (ask_gemini q s)) = g_prompts s ++ [build_prompt q].
Proof. rewrite ask_gemini_run. by destruct (svc_generate _ _). Qed.

(** A completion that starts with [select] once stripped is
    returned stripped and otherwise unchanged. *)
Theorem ask_gemini_accepts q s text svc :
  svc_generate (build_prompt q) (g_service s) = (Ok text, svc) ->
  is_select (Str.strip text) = true ->
  fst (ask_gemini q s) = Ok (Str.strip text).
Proof. intros Hs Hc. rewrite ask_gemini_run, Hs. simpl. by rewrite Hc. Qed.

(** C14. A completion that does not start with [select] once stripped,
    prose or a fenced block for instance, is replaced by the statement
    that selects the [ValueError] message: the caller receives SQL, not a
    failure. *)
Theorem ask_gemini_rejects q s text svc :
  svc_generate (build_prompt q) (g_service s) = (Ok text, svc) ->
  is_select (Str.strip text) = false ->
  fst (ask_gemini q s) =
  Ok "SELECT 'Error: Gemini response did not contain a valid SQL SELECT statement.' AS error_message;".
Proof. intros Hs Hc. rewrite ask_gemini_run, Hs. simpl. by rewrite Hc. Qed.

(** C15. When the service raises, the message of the exception is spliced
    as it is, quotes included, into a SQL string literal. *)
Theorem ask_gemini_service_error q s e svc :
  svc_generate (build_prompt q) (g_service s) = (Raise e, svc) ->
  fst (ask_gemini q s) = Ok ("SELECT 'Error: " +:+ exn_str e +:+ "' AS error_message;").
Proof. intros Hs. by rewrite ask_gemini_run, Hs. Qed.

End client_facts.

(** ** Facts about the prompt *)

(** The prompt carries the question verbatim, between the fixed
    instructions and the [SQL:] cue. *)
Theorem build_prompt_question (q : pyval) :
  exists head tail, build_prompt q = head +:+ py_str q +:+ tail
    /\ Str.contains head "Only return the SQL query" = true
    /\ Str.contains head "Join tables using item_id when necessary." = true.
Proof.
  exists prompt_head, prompt_tail. repeat split; vm_compute; reflexivity.
Qed.

(** The prompt describes every table of the schema, name and
    columns in order. *)
Theorem build_prompt_schema (q : pyval) :
  Forall (fun t => Str.contains (build_prompt q) (render_table t) = true) schema.
Proof.
  unfold build_prompt.
  repeat constructor; apply Str.contains_app_l; vm_compute; reflexivity.
Qed.

(** ** Facts about start-up *)

(** The key the module configures: [GEMINI_API_KEY] when set and not
    empty, [GOOGLE_API_KEY] otherwise. *)
Definition chosen_key (env : gmap string string) : option string :=
  or_else (env !! "GEMINI_API_KEY") (env !! "GOOGLE_API_KEY").

(** The outcome of start-up for a chosen key. *)
Definition configure (key : option string) : result generative_model :=
  if negb (is_set key)
  then Raise (Exn EnvironmentError
                "❌ Gemini API key not found in environment variables!")
  else Ok {| api_key := default EmptyString key;
             model_name := "models/gemini-2.5-flash-lite" |}.

Lemma import_connector_run dotenv env :
  import_connector dotenv env = (configure (chosen_key (env ∪ dotenv)), env ∪ dotenv).
Proof.
  unfold import_connector, load_dotenv, configure, chosen_key, os_getenv.
  unfold bind, modify, get_state, raise, ret.
  by destruct (negb (is_set _)).
Qed.

Lemma is_set_or_else (x y : option string) :
  is_set (or_else x y) = is_set x || is_set y.
Proof.
  unfold or_else. destruct x as [a|]; [| done]. cbn [is_set].
  case_bool_decide; cbn [is_set negb orb]; [done |].
  by rewrite bool_decide_eq_false_2.
Qed.

Lemma is_set_Some (x : option string) :
  is_set x = true <-> exists v, x = Some v /\ v <> EmptyString.
Proof.
  destruct x as [a|]; cbn [is_set]; [| naive_solver].
  rewrite negb_true_iff, bool_decide_eq_false. naive_solver.
Qed.

Lemma configure_ok (key : option string) : is_ok (configure key) = is_set key.
Proof. unfold configure. by destruct (is_set key). Qed.

(** C39. Importing the module succeeds exactly when one of the two
    variables holds a non-empty key, in the process environment or in the
    [.env] file; otherwise it raises [EnvironmentError] and the process
    does not start. *)
Theorem import_connector_ok_iff dotenv env :
  is_ok (fst (import_connector dotenv env)) = true <->
  (exists v, (env ∪ dotenv) !! "GEMINI_API_KEY" = Some v /\ v <> EmptyString)
  \/ (exists v, (env ∪ dotenv) !! "GOOGLE_API_KEY" = Some v /\ v <> EmptyString).
Proof.
  rewrite import_connector_run. cbn [fst]. unfold chosen_key.
  by rewrite configure_ok, is_set_or_else, orb_true_iff, !is_set_Some.
Qed.

(** A non-empty [GEMINI_API_KEY] is preferred to [GOOGLE_API_KEY],
    and a variable of the process environment to the same variable of the
    [.env] file. *)
Theorem import_connector_prefers dotenv env key :
  env !! "GEMINI_API_KEY" = Some key -> key <> EmptyString ->
  fst (import_connector dotenv env) =
  Ok {| api_key := key; model_name := "models/gemini-2.5-flash-lite" |}.
Proof.
  intros Hk Hne. rewrite import_connector_run. cbn [fst]. unfold chosen_key.
  rewrite (lookup_union_Some_l _ _ _ _ Hk). unfold or_else, configure.
  rewrite bool_decide_eq_false_2 by done. cbn [is_set default].
  by rewrite bool_decide_eq_false_2.
Qed.

(** ** Witnesses *)

(** The completions of scenarios A and B of the specification, and a
    service failure whose message holds quotes. *)
Definition plain_completion : string :=
  "SELECT date, total_sales FROM total_sales_metrics ORDER BY date;
".

Definition fenced_completion : string :=
  "```sql
SELECT * FROM eligibility;
```".

Definition quota_error : exn :=
  Exn ServiceError "quota exceeded for 'flash-lite'".

Lemma ask_gemini_accepts_witness :
  fst (ask_gemini (VStr "Show total sales trend over time")
         (scripted [Ok plain_completion])) =
  Ok "SELECT date, total_sales FROM total_sales_metrics ORDER BY date;".
Proof.
  apply (ask_gemini_accepts (model := scripted_service) (VStr _)
           (scripted [Ok plain_completion]) plain_completion []);
    vm_compute; reflexivity.
Defined.

Lemma ask_gemini_rejects_witness :
  fst (ask_gemini (VStr "List eligibility") (scripted [Ok fenced_completion])) =
  Ok "SELECT 'Error: Gemini response did not contain a valid SQL SELECT statement.' AS error_message;".
Proof.
  apply (ask_gemini_rejects (model := scripted_service) (VStr _)
           (scripted [Ok fenced_completion]) fenced_completion []);
    vm_compute; reflexivity.
Defined.

Lemma ask_gemini_service_error_witness :
  fst (ask_gemini (VStr "q") (scripted [Raise quota_error])) =
  Ok "SELECT 'Error: quota exceeded for 'flash-lite'' AS error_message;".
Proof.
  apply (ask_gemini_service_error (model := scripted_service) (VStr _)
           (scripted [Raise quota_error]) quota_error []);
    vm_compute; reflexivity.
Defined.

Lemma import_connector_prefers_witness :
  fst (import_connector {[ "GEMINI_API_KEY" := "from-file" ]}
         {[ "GEMINI_API_KEY" := "k1"; "GOOGLE_API_KEY" := "k2" ]}) =
  Ok {| api_key := "k1"; model_name := "models/gemini-2.5-flash-lite" |}.
Proof.
  apply (import_connector_prefers _ _ "k1");
    [vm_compute; reflexivity | discriminate].
Defined.

Lemma import_connector_ok_iff_witness :
  is_ok (fst (import_connector ∅ {[ "GOOGLE_API_KEY" := "k2" ]})) = true.
Proof.
  apply (proj2 (import_connector_ok_iff ∅ {[ "GOOGLE_API_KEY" := "k2" ]})).
  right. exists "k2". split; [vm_compute; reflexivity | discriminate].
Defined.

End Gemini.
