(* ===== verification/QueryEngine.v ===== *)
(** * The pipeline: [query_engine.py]

    [run_query] asks [ask_gemini] for a statement, prints it, removes a
    markdown fence when there is one, strips and prints the result, opens
    a connection to the SQLite file, executes the statement, fetches all
    rows and closes the connection.  Every exception is caught and
    returned as a one-row result; so are three error conditions tested
    on the way and the case of an empty result.

    SQLite is the interface [SqlStore]: a state (the database files) with
    three operations, opening a file, executing a statement on it and
    closing it.  The state [world] of the pipeline holds the state of the
    completion client, the state of the store, the number of connections
    opened and not yet closed, the lines printed, and a ghost log of the
    statements handed to the store. *)

From stdpp Require Import base strings list.
From Stdlib Require Import Ascii.
From S2P Require Import Prelude PyString PyValue Gemini.
Import Gemini.

#[local] Open Scope py_scope.

Module QueryEngine.

(** A row as [fetchall] returns it: the cells of a tuple. *)
Definition row : Type := list pyval.

(** ** The relational store *)

Class SqlStore : Type := {
  db_state : Type;
  (** [sqlite3.connect(path)] *)
  sql_connect : string -> db_state -> result unit * db_state;
  (** [cursor.execute(sql)] on a connection to [path], with the rows a
      later [fetchall] returns *)
  sql_execute : string -> string -> db_state -> result (list row) * db_state;
  (** [conn.close()] *)
  sql_close : string -> db_state -> db_state;
}.

Section pipeline.
Context `{model : CompletionService} `{store : SqlStore}.

Record world : Type := {
  w_gemini : gemini_state;
  w_db : db_state;
  w_open : nat;
  w_stdout : list string;
  w_executed : list string;
}.

Definition set_gemini (g : gemini_state) (w : world) : world :=
  {| w_gemini := g; w_db := w_db w; w_open := w_open w;
     w_stdout := w_stdout w; w_executed := w_executed w |}.

(** [print(line)]: the line is recorded; a console that cannot encode
    it is not modelled. *)
Definition print (line : string) : M world unit :=
  modify (fun w =>
    {| w_gemini := w_gemini w; w_db := w_db w; w_open := w_open w;
       w_stdout := w_stdout w ++ [line]; w_executed := w_executed w |}).

(** [conn = sqlite3.connect(db_path)]: the connection is named by its
    path. *)
Definition sqlite3_connect (db_path : string) : M world string :=
  fun w =>
    let '(r, db) := sql_connect db_path (w_db w) in
    match r with
    | Ok _ =>
        (Ok db_path,
         {| w_gemini := w_gemini w; w_db := db; w_open := S (w_open w);
            w_stdout := w_stdout w; w_executed := w_executed w |})
    | Raise e =>
        (Raise e,
         {| w_gemini := w_gemini w; w_db := db; w_open := w_open w;
            w_stdout := w_stdout w; w_executed := w_executed w |})
    end.

(** [cursor = conn.cursor(); cursor.execute(sql)] *)
Definition cursor_execute (conn sql : string) : M world (list row) :=
  fun w =>
    let '(r, db) := sql_execute conn sql (w_db w) in
    (r, {| w_gemini := w_gemini w; w_db := db; w_open := w_open w;
           w_stdout := w_stdout w; w_executed := w_executed w ++ [sql] |}).

(** [cursor.fetchall()]: the rows [execute] selected; a failure while
    fetching is a failure of [sql_execute]. *)
Definition fetchall (cursor : list row) : M world (list row) := ret cursor.

(** [conn.close()]: [w_open] counts the connections opened whose
    [close()] has not been called. *)
Definition conn_close (conn : string) : M world unit :=
  modify (fun w =>
    {| w_gemini := w_gemini w; w_db := sql_close conn (w_db w);
       w_open := pred (w_open w);
       w_stdout := w_stdout w; w_executed := w_executed w |}).

(** ** [run_query] *)

Definition default_db_path : string := "database/ecommerce.db".

Definition nl : string := "
".

Definition fence : string := "```".

(** [[("Error:", msg)]] and the notice returned for an empty result. *)
Definition error_rows (msg : string) : pyval :=
  VList [VTuple [VStr "Error:"; VStr msg]].

Definition notice_rows : pyval :=
  VList [VTuple [VStr "Notice:"; VStr "Query executed but returned no results."]].

(** The block that removes a code fence: the text between the first two
    fences, without the letters [sql], stripped.  [None] stands for the
    return of the parse error. *)
Definition unfence (sql_query : string) : option string :=
  if Str.contains sql_query fence then
    let parts := Str.split sql_query fence in
    if 2 <=? length parts
    then Some (Str.strip (Str.replace (default EmptyString (parts !! 1)) "sql" EmptyString))
    else None
  else Some sql_query.

(** [results if results else [("Notice:", ...)]] *)
Definition rows_or_notice (results : list row) : pyval :=
  if bool_decide (results = []) then notice_rows else VList (VTuple <$> results).

Definition run_query (question : pyval) (db_path : string) : M world pyval :=
  try_except
    (do sql_query <- zoom w_gemini set_gemini (ask_gemini question) ;;
     exec print ("Raw SQL from Gemini:" +:+ nl +:+ sql_query +:+ nl) ;;
     if bool_decide (sql_query = EmptyString)
     then ret (error_rows "Empty SQL returned from Gemini")
     else
       match unfence sql_query with
       | None => ret (error_rows "Unable to parse SQL block")
       | Some sql_query =>
           let sql_query := Str.strip sql_query in
           exec print ("Cleaned SQL:" +:+ nl +:+ sql_query +:+ nl) ;;
           if bool_decide (sql_query = EmptyString)
           then ret (error_rows "Final SQL is empty after cleaning")
           else
             do conn <- sqlite3_connect db_path ;;
             do cursor <- cursor_execute conn sql_query ;;
             do results <- fetchall cursor ;;
             exec conn_close conn ;;
             ret (rows_or_notice results)
       end)
    (fun e => ret (error_rows (exn_str e))).

(** ** The reference pipeline *)

(** The statement handed to the store for what [ask_gemini] returned. *)
Definition cleaned (sql : string) : string :=
  Str.strip (default sql (unfence sql)).

(** The statement [run_query] derives from an outcome of the service. *)
Definition statement_of (r : result string) : string := cleaned (answer_of r).

(** Connection, execution and release, on the outcomes of the store. *)
Definition execute_ref (path sql : string) (w : world) : pyval * world :=
  let out := fun v db opened executed =>
    (v, {| w_gemini := w_gemini w; w_db := db; w_open := opened;
           w_stdout := w_stdout w; w_executed := executed |}) in
  match sql_connect path (w_db w) with
  | (Raise e, db) => out (error_rows (exn_str e)) db (w_open w) (w_executed w)
  | (Ok _, db) =>
      match sql_execute path sql db with
      | (Raise e, db') =>
          out (error_rows (exn_str e)) db' (S (w_open w)) (w_executed w ++ [sql])
      | (Ok rows, db') =>
          out (rows_or_notice rows) (sql_close path db') (w_open w)
            (w_executed w ++ [sql])
      end
  end.

(** The state after the service has answered [r] and both lines are
    printed. *)
Definition printed (q : pyval) (w : world) (r : result string) (svc : svc_state)
    : world :=
  {| w_gemini := {| g_service := svc;
                    g_prompts := g_prompts (w_gemini w) ++ [build_prompt q] |};
     w_db := w_db w; w_open := w_open w;
     w_stdout := w_stdout w ++
       ["Raw SQL from Gemini:" +:+ nl +:+ answer_of r +:+ nl;
        "Cleaned SQL:" +:+ nl +:+ statement_of r +:+ nl];
     w_executed := w_executed w |}.

(** [run_query] without the emptiness test on the raw statement and
    without the parse-error return, as a function of the outcomes. *)
Definition run_query_ref (q : pyval) (path : string) (w : world) : pyval * world :=
  let '(r, svc) := svc_generate (build_prompt q) (g_service (w_gemini w)) in
  if bool_decide (statement_of r = EmptyString)
  then (error_rows "Final SQL is empty after cleaning", printed q w r svc)
  else execute_ref path (statement_of r) (printed q w r svc).

(** A result of the shape the callers index: a non-empty list of tuples. *)
Definition is_rows (v : pyval) : Prop :=
  exists rows, v = VList (VTuple <$> rows) /\ rows <> [].

End pipeline.

(** ** A store for the witnesses *)

Definition demo_rows : list row :=
  [[VStr "2025-06-01"; VFloat "309.99"]; [VStr "2025-06-02"; VFloat "338.0"]].

(** Answers one known query with two rows, another with none and a
    third with a cell of bytes, accepts a [DROP TABLE], and rejects
    everything else as SQLite rejects an unknown column. *)
Definition demo_answer (sql : string) : result (list row) :=
  if bool_decide (sql = "SELECT date, total_sales FROM total_sales_metrics ORDER BY date;")
  then Ok demo_rows
  else if bool_decide (sql = "SELECT * FROM eligibility WHERE item_id = 0;")
  then Ok []
  else if bool_decide (sql = "SELECT CAST(message AS BLOB) FROM eligibility;")
  then Ok [[VBytes "n/a"]]
  else if Str.startswith sql "DROP TABLE" then Ok []
  else Raise (Exn OperationalError "no such column: foo").

(** The state lists the files that can be opened. *)
Definition demo_store : SqlStore := {|
  db_state := list string;
  sql_connect := fun path files =>
    if bool_decide (path ∈ files) then (Ok tt, files)
    else (Raise (Exn OperationalError "unable to open database file"), files);
  sql_execute := fun _ sql files => (demo_answer sql, files);
  sql_close := fun _ files => files;
|}.

Definition demo_world (script : list (result string)) (files : list string)
    : @world scripted_service demo_store :=
  {| w_gemini := scripted script; w_db := files : @db_state demo_store;
     w_open := 0; w_stdout := []; w_executed := [] |}.

Definition run_demo (script : list (result string)) (files : list string) :=
  run_query (model := scripted_service) (store := demo_store)
    (VStr "Show total sales trend over time") default_db_path
    (demo_world script files).

(** ** Facts about fence removal *)

Lemma fence_nonempty : fence <> EmptyString.
Proof. discriminate. Qed.

Lemma unfence_is_Some (sql : string) : is_Some (unfence sql).
Proof.
  unfold unfence. destruct (Str.contains sql fence) eqn:E; [| done].
  apply (Str.split_length_contains _ _ fence_nonempty) in E.
  by rewrite (proj2 (Nat.leb_le _ _) E).
Qed.

(** C12. Fence removal never reports a parse error: once the [in] test
    has found a fence, [split] has produced two pieces or more, so the
    branch that returns "Unable to parse SQL block" is dead code. *)
Theorem unfence_never_fails (sql : string) : unfence sql <> None.
Proof. apply not_eq_None_Some, unfence_is_Some. Qed.

Lemma unfence_no_fence sql : Str.contains sql fence = false -> unfence sql = Some sql.
Proof. unfold unfence. by intros ->. Qed.

Lemma unfence_fenced sql a b rest :
  Str.split sql fence = a :: b :: rest ->
  unfence sql = Some (Str.strip (Str.replace b "sql" EmptyString)).
Proof.
  intros H. unfold unfence.
  assert (Str.contains sql fence = true) as ->.
  { apply (Str.split_length_contains _ _ fence_nonempty). rewrite H. simpl. lia. }
  by rewrite H.
Qed.

Lemma cleaned_plain sql :
  Str.contains sql fence = false -> Str.strip sql = sql -> cleaned sql = sql.
Proof. intros H1 H2. unfold cleaned. by rewrite unfence_no_fence. Qed.

Lemma cleaned_fenced sql a b rest :
  Str.split sql fence = a :: b :: rest ->
  cleaned sql = Str.strip (Str.replace b "sql" EmptyString).
Proof.
  intros H. unfold cleaned. rewrite (unfence_fenced _ _ _ _ H). simpl.
  apply Str.strip_idemp.
Qed.

(** ** Facts about [run_query] *)

(** Case analysis on the outcomes of the store. *)
Ltac store_cases :=
  simpl;
  destruct (sql_connect _ _) as [[[]|?] ?];
    [destruct (sql_execute _ _ _) as [[?|?] ?] |]; simpl.

Section facts.
Context `{model : CompletionService} `{store : SqlStore}.
Implicit Types (q : pyval) (w : world) (sql path : string).

(** [run_query] unfolded on the outcomes of the service and the store. *)
Lemma run_query_ref_eq q path w :
  run_query q path w = (Ok (fst (run_query_ref q path w)), snd (run_query_ref q path w)).
Proof.
  unfold run_query, run_query_ref, printed, statement_of, cleaned.
  unfold try_except, bind, zoom, print, modify. rewrite ask_gemini_run.
  destruct (svc_generate _ _) as [r svc]. simpl.
  rewrite bool_decide_eq_false_2 by apply is_select_nonempty, answer_of_select.
  destruct (unfence_is_Some (answer_of r)) as [s ->]. simpl.
  rewrite <- app_assoc. simpl.
  case_bool_decide; [done |].
  unfold execute_ref, sqlite3_connect, cursor_execute, fetchall, conn_close, ret.
  by store_cases.
Qed.

(** C1. [run_query] computes the reference pipeline: the test
    [if not sql_query] on what [ask_gemini] returned and the parse-error
    return never fire, and every other path, exceptions included, ends in
    a returned value. *)
Theorem run_query_equiv q path w :
  returns (run_query q path) w (fst (run_query_ref q path w)) (snd (run_query_ref q path w)).
Proof. apply run_query_ref_eq. Qed.

Lemma run_query_ref_run q path w r svc :
  svc_generate (build_prompt q) (g_service (w_gemini w)) = (r, svc) ->
  run_query_ref q path w =
  if bool_decide (statement_of r = EmptyString)
  then (error_rows "Final SQL is empty after cleaning", printed q w r svc)
  else execute_ref path (statement_of r) (printed q w r svc).
Proof. intros H. unfold run_query_ref. by rewrite H. Qed.

(** With a statement to execute, [run_query] is [execute_ref] after the
    two prints. *)
Lemma run_query_executes q path w r svc :
  svc_generate (build_prompt q) (g_service (w_gemini w)) = (r, svc) ->
  statement_of r <> EmptyString ->
  run_query q path w =
  (Ok (fst (execute_ref path (statement_of r) (printed q w r svc))),
   snd (execute_ref path (statement_of r) (printed q w r svc))).
Proof.
  intros H Hne. rewrite run_query_ref_eq, (run_query_ref_run _ _ _ _ _ H).
  by rewrite bool_decide_eq_false_2.
Qed.

Lemma error_rows_is_rows msg : is_rows (error_rows msg).
Proof. by exists [[VStr "Error:"; VStr msg]]. Qed.

Lemma rows_or_notice_is_rows rows : is_rows (rows_or_notice rows).
Proof.
  unfold rows_or_notice. case_bool_decide; [| by exists rows].
  by exists [[VStr "Notice:"; VStr "Query executed but returned no results."]].
Qed.

Lemma execute_ref_is_rows path sql w : is_rows (fst (execute_ref path sql w)).
Proof.
  unfold execute_ref.
  store_cases; auto using error_rows_is_rows, rows_or_notice_is_rows.
Qed.

Lemma run_query_ref_is_rows q path w : is_rows (fst (run_query_ref q path w)).
Proof.
  unfold run_query_ref. destruct (svc_generate _ _) as [r svc].
  case_bool_decide; [apply error_rows_is_rows | apply execute_ref_is_rows].
Qed.

Lemma is_rows_not_dict v : is_rows v -> is_dict v = false.
Proof. by intros (rows & -> & _). Qed.

(** C3. [run_query] never raises, and its result is always a non-empty
    list of tuples, never a dict: failures are returned as a row
    [("Error:", message)] that a caller cannot tell from data by its
    type. *)
Theorem run_query_rows q path w :
  exists v w', run_query q path w = (Ok v, w') /\ is_rows v /\ is_dict v = false.
Proof.
  rewrite run_query_ref_eq. eexists _, _. split; [done |].
  eauto using run_query_ref_is_rows, is_rows_not_dict.
Qed.

(** No exception escapes [run_query]. *)
Theorem run_query_never_raises q path : never_raises (run_query q path).
Proof. intros w. by rewrite run_query_ref_eq. Qed.

(** C16. One call of [run_query] sends exactly one prompt to the
    completion service, on every path. *)
Theorem run_query_calls_once q path w :
  g_prompts (w_gemini (snd (run_query q path w))) =
  g_prompts (w_gemini w) ++ [build_prompt q].
Proof.
  rewrite run_query_ref_eq. cbn [snd]. unfold run_query_ref.
  destruct (svc_generate _ _) as [r svc].
  case_bool_decide; [done |]. unfold execute_ref. by store_cases.
Qed.

(** At most one statement reaches the store per call, and only the
    cleaned statement. *)
Theorem run_query_executes_at_most_once q path w r svc :
  svc_generate (build_prompt q) (g_service (w_gemini w)) = (r, svc) ->
  w_executed (snd (run_query q path w)) = w_executed w
  \/ w_executed (snd (run_query q path w)) = w_executed w ++ [statement_of r].
Proof.
  intros H. rewrite run_query_ref_eq, (run_query_ref_run _ _ _ _ _ H). cbn [snd].
  case_bool_decide; [by left |]. unfold execute_ref. store_cases; auto.
Qed.

(** *** Outcomes of the store *)

Section outcomes.
Context (q : pyval) (path : string) (w : world) (r : result string) (svc : svc_state).
Hypothesis Hsvc : svc_generate (build_prompt q) (g_service (w_gemini w)) = (r, svc).
Local Abbreviation w' := (snd (run_query q path w)).

(** When cleaning leaves nothing, [run_query] returns the error
    row "Final SQL is empty after cleaning" without opening a
    connection. *)
Theorem run_query_empty_statement :
  statement_of r = EmptyString ->
  fst (run_query q path w) = Ok (error_rows "Final SQL is empty after cleaning")
  /\ w_executed w' = w_executed w /\ w_open w' = w_open w /\ w_db w' = w_db w.
Proof.
  intros H. rewrite run_query_ref_eq, (run_query_ref_run _ _ _ _ _ Hsvc).
  by rewrite bool_decide_eq_true_2.
Qed.

(** When the connection cannot be opened, the message is returned
    as an error row; nothing was executed and no connection is counted
    open. *)
Theorem run_query_connect_error e db :
  statement_of r <> EmptyString ->
  sql_connect path (w_db w) = (Raise e, db) ->
  fst (run_query q path w) = Ok (error_rows (exn_str e))
  /\ w_executed w' = w_executed w /\ w_open w' = w_open w.
Proof.
  intros H Hc. rewrite (run_query_executes _ _ _ _ _ Hsvc H).
  unfold execute_ref. simpl. by rewrite Hc.
Qed.

(** C5. When execution raises, the store's message is returned as an
    error row and [conn.close()] is skipped: the connection stays
    open. *)
Theorem run_query_execute_error u e db db' :
  statement_of r <> EmptyString ->
  sql_connect path (w_db w) = (Ok u, db) ->
  sql_execute path (statement_of r) db = (Raise e, db') ->
  fst (run_query q path w) = Ok (error_rows (exn_str e))
  /\ w_executed w' = w_executed w ++ [statement_of r]
  /\ w_open w' = S (w_open w) /\ w_db w' = db'.
Proof.
  intros H Hc He. rewrite (run_query_executes _ _ _ _ _ Hsvc H).
  unfold execute_ref. simpl. by rewrite Hc, He.
Qed.

(** C6. When execution succeeds, the rows fetched are returned, or the
    notice row when there are none, and the connection is closed: as
    many connections are open as before. *)
Theorem run_query_success u rows db db' :
  statement_of r <> EmptyString ->
  sql_connect path (w_db w) = (Ok u, db) ->
  sql_execute path (statement_of r) db = (Ok rows, db') ->
  fst (run_query q path w) = Ok (rows_or_notice rows)
  /\ w_executed w' = w_executed w ++ [statement_of r]
  /\ w_open w' = w_open w /\ w_db w' = sql_close path db'.
Proof.
  intros H Hc He. rewrite (run_query_executes _ _ _ _ _ Hsvc H).
  unfold execute_ref. simpl. by rewrite Hc, He.
Qed.

End outcomes.

End facts.

(** *** The statement for each kind of completion *)

(** A completion that starts with [select] and holds no fence is
    executed as it is, stripped. *)
Theorem statement_of_plain text :
  is_select (Str.strip text) = true ->
  Str.contains (Str.strip text) fence = false ->
  statement_of (Ok text) = Str.strip text.
Proof.
  intros H1 H2. unfold statement_of, answer_of. rewrite H1.
  apply cleaned_plain; [done | apply Str.strip_idemp].
Qed.

(** C9. A completion that does not start with [select], a fenced block
    for instance, is never unfenced: the statement executed is the one
    that selects the error message. *)
Theorem statement_of_rejected text :
  is_select (Str.strip text) = false ->
  statement_of (Ok text) =
  "SELECT 'Error: Gemini response did not contain a valid SQL SELECT statement.' AS error_message;".
Proof.
  intros H. unfold statement_of, answer_of. rewrite H.
  apply cleaned_plain; vm_compute; reflexivity.
Qed.

(** C10. When a completion that starts with [select] holds a fence, the
    statement executed is the text between the first two fences with
    every occurrence of [sql] deleted, stripped; the text before the
    first fence, which passed the [select] check, is dropped. *)
Theorem statement_of_fenced text a b rest :
  is_select (Str.strip text) = true ->
  Str.split (Str.strip text) fence = a :: b :: rest ->
  statement_of (Ok text) = Str.strip (Str.replace b "sql" EmptyString).
Proof.
  intros H1 H2. unfold statement_of, answer_of. rewrite H1.
  apply (cleaned_fenced _ _ _ _ H2).
Qed.

Lemma is_select_app a b : is_select a = true -> is_select (a +:+ b) = true.
Proof. unfold is_select. rewrite Str.lower_app. apply Str.startswith_app_l. Qed.


(** C4. The [select] check does not cover what is executed: any
    stripped text without a backquote and without the letters [sql],
    placed between fences after a [SELECT], is the statement handed to
    the store. *)
Theorem fenced_payload_executed payload :
  Str.has_char "`"%char payload = false ->
  Str.contains payload "sql" = false ->
  Str.strip payload = payload ->
  statement_of (Ok ("SELECT 1 " +:+ fence +:+ payload +:+ fence)) = payload.
Proof.
  intros Hq Hs Hp.
  assert (Str.strip ("SELECT 1 " +:+ fence +:+ payload +:+ fence)
          = "SELECT 1 " +:+ fence +:+ payload +:+ fence) as Hstrip.
  { apply Str.strip_fixed; [done |].
    by rewrite <- !Str.app_assoc, Str.last_char_app. }
  unfold statement_of, answer_of. rewrite Hstrip, is_select_app by done.
  rewrite (cleaned_fenced _ "SELECT 1 " payload [EmptyString]).
  - by rewrite Str.replace_not_contains.
  - rewrite (Str.split_app_sep _ _ _ "`"%char) by done.
    rewrite <- (Str.app_nil_r fence) at 1.
    by rewrite (Str.split_app_sep _ _ _ "`"%char).
Qed.

(** ** Witnesses *)

Definition demo_question : pyval := VStr "Show total sales trend over time".

(** A completion that passes the [select] check and leaves nothing
    once unfenced. *)
Definition hollow_completion : string := "select ``` sql ```".

(** A completion with a fenced block after a leading [Select]. *)
Definition tagged_completion : string :=
  "Select the rows: ```sql" +:+ nl +:+
  "SELECT * FROM eligibility WHERE item_id = 0;" +:+ nl +:+ "```".

Definition unknown_column : string := "SELECT foo FROM ad_sales_metrics;".

(** Applies an outcome theorem to the demo world running [script] on
    [files]: the service has answered [r] and is left with no script. *)
Ltac demo_outcome thm script files r :=
  apply (thm scripted_service demo_store demo_question default_db_path
           (demo_world script files) r ([] : @svc_state scripted_service));
  try (vm_compute; reflexivity); try (vm_compute; discriminate).

Lemma run_query_executes_at_most_once_witness :
  w_executed (snd (run_demo [Ok plain_completion] [default_db_path])) = []
  \/ w_executed (snd (run_demo [Ok plain_completion] [default_db_path])) =
     [] ++ [statement_of (Ok plain_completion)].
Proof.
  demo_outcome @run_query_executes_at_most_once
    [Ok plain_completion] [default_db_path] (Ok plain_completion : result string).
Defined.

Lemma run_query_empty_statement_witness :
  fst (run_demo [Ok hollow_completion] [default_db_path]) =
    Ok (error_rows "Final SQL is empty after cleaning")
  /\ w_executed (snd (run_demo [Ok hollow_completion] [default_db_path])) = []
  /\ w_open (snd (run_demo [Ok hollow_completion] [default_db_path])) = 0
  /\ w_db (snd (run_demo [Ok hollow_completion] [default_db_path])) = [default_db_path].
Proof.
  demo_outcome @run_query_empty_statement
    [Ok hollow_completion] [default_db_path] (Ok hollow_completion : result string).
Defined.

Lemma run_query_connect_error_witness :
  fst (run_demo [Ok plain_completion] []) =
    Ok (error_rows "unable to open database file")
  /\ w_executed (snd (run_demo [Ok plain_completion] [])) = []
  /\ w_open (snd (run_demo [Ok plain_completion] [])) = 0.
Proof.
  eapply (run_query_connect_error (model := scripted_service) (store := demo_store)
            demo_question default_db_path (demo_world [Ok plain_completion] [])
            (Ok plain_completion) [] eq_refl
            (Exn OperationalError "unable to open database file") []);
    [vm_compute; discriminate | vm_compute; reflexivity].
Defined.

Lemma run_query_execute_error_witness :
  fst (run_demo [Ok unknown_column] [default_db_path]) =
    Ok (error_rows "no such column: foo")
  /\ w_executed (snd (run_demo [Ok unknown_column] [default_db_path])) =
     [] ++ [statement_of (Ok unknown_column)]
  /\ w_open (snd (run_demo [Ok unknown_column] [default_db_path])) = 1
  /\ w_db (snd (run_demo [Ok unknown_column] [default_db_path])) = [default_db_path].
Proof.
  eapply (run_query_execute_error (model := scripted_service) (store := demo_store)
            demo_question default_db_path
            (demo_world [Ok unknown_column] [default_db_path])
            (Ok unknown_column) [] eq_refl tt
            (Exn OperationalError "no such column: foo") [default_db_path]);
    [vm_compute; discriminate | vm_compute; reflexivity ..].
Defined.

Lemma run_query_success_witness :
  fst (run_demo [Ok plain_completion] [default_db_path]) =
    Ok (rows_or_notice demo_rows)
  /\ w_executed (snd (run_demo [Ok plain_completion] [default_db_path])) =
     [] ++ [statement_of (Ok plain_completion)]
  /\ w_open (snd (run_demo [Ok plain_completion] [default_db_path])) = 0
  /\ w_db (snd (run_demo [Ok plain_completion] [default_db_path])) = [default_db_path].
Proof.
  eapply (run_query_success (model := scripted_service) (store := demo_store)
            demo_question default_db_path
            (demo_world [Ok plain_completion] [default_db_path])
            (Ok plain_completion) [] eq_refl tt demo_rows [default_db_path]);
    [vm_compute; discriminate | vm_compute; reflexivity ..].
Defined.

Lemma statement_of_plain_witness :
  statement_of (Ok plain_completion) =
  "SELECT date, total_sales FROM total_sales_metrics ORDER BY date;".
Proof. apply (statement_of_plain plain_completion); vm_compute; reflexivity. Defined.

Lemma statement_of_rejected_witness :
  statement_of (Ok fenced_completion) =
  "SELECT 'Error: Gemini response did not contain a valid SQL SELECT statement.' AS error_message;".
Proof. apply (statement_of_rejected fenced_completion); vm_compute; reflexivity. Defined.

Lemma statement_of_fenced_witness :
  statement_of (Ok tagged_completion) = "SELECT * FROM eligibility WHERE item_id = 0;".
Proof.
  etrans;
    [apply (statement_of_fenced tagged_completion "Select the rows: "
              ("sql" +:+ nl +:+ "SELECT * FROM eligibility WHERE item_id = 0;" +:+ nl)
              [EmptyString]) |];
    vm_compute; reflexivity.
Defined.

Lemma fenced_payload_executed_witness :
  statement_of (Ok ("SELECT 1 " +:+ fence +:+ "DROP TABLE eligibility;" +:+ fence)) =
  "DROP TABLE eligibility;".
Proof.
  apply (fenced_payload_executed "DROP TABLE eligibility;"); vm_compute; reflexivity.
Defined.

End QueryEngine.
