(* ===== verification/Api.v ===== *)
(** * The HTTP entry points: [main.py] and [api.py]

    Both files define the handler [ask_question] of [POST /ask].  A
    request is what [request.json] evaluates to: a parsed JSON value, or
    the exception Flask raises for a body it cannot parse.  A response is
    the JSON value written and the status code.

    [MainPy.ask_question] wraps the whole handler in [try]; [ApiPy.ask_question]
    reads the body outside of it.  The state [server] adds to the
    pipeline's [world] the exceptions whose traceback was written to the
    error stream. *)

From stdpp Require Import base strings list.
From S2P Require Import Prelude PyString PyValue Gemini QueryEngine.
Import Gemini QueryEngine.

#[local] Open Scope py_scope.

(** ** Requests, responses and the state of the server *)

Module Http.

(** The outcome of evaluating [request.json]. *)
Record request : Type := { request_json : result pyval }.

Record response : Type := { body : pyval; status : nat }.

Section server.
Context `{model : CompletionService} `{store : SqlStore}.

Record server : Type := {
  srv_world : world;
  srv_traces : list exn;
}.

Definition set_world (w : world) (s : server) : server :=
  {| srv_world := w; srv_traces := srv_traces s |}.

(** [return jsonify(v), code] *)
Definition respond (v : pyval) (code : nat) : M server response :=
  do b <- lift (jsonify v) ;; ret {| body := b; status := code |}.

(** [traceback.print_exc()] while [e] is handled. *)
Definition traceback_print_exc (e : exn) : M server unit :=
  modify (fun s => {| srv_world := srv_world s; srv_traces := srv_traces s ++ [e] |}).

(** [print(a, e)]: both arguments separated by a space. *)
Definition print2 (a : string) (e : exn) : M server unit :=
  zoom srv_world set_world (print (a +:+ " " +:+ exn_str e)).

End server.
End Http.

Import Http.

(** ** [main.py] *)

Module MainPy.
Section handler.
Context `{model : CompletionService} `{store : SqlStore}.

Definition ask_question (request : request) : M server response :=
  try_except
    (do data <- lift (request_json request) ;;
     do question <- lift (py_get data "question") ;;
     if negb (truthy question)
     then respond (VDict [("error", VStr "No question provided")]) 400
     else
       do results <- zoom srv_world set_world (run_query question default_db_path) ;;
       if is_dict results && has_key results "error"
       then respond (VDict [("error", dict_item results "error")]) 500
       else respond (VDict [("question", question); ("results", results)]) 200)
    (fun e =>
       exec print2 "❌ Exception in /ask endpoint:" e ;;
       exec traceback_print_exc e ;;
       respond (VDict [("error", VStr "Internal Server Error")]) 500).

End handler.
End MainPy.

(** ** [api.py] *)

Module ApiPy.
Section handler.
Context `{model : CompletionService} `{store : SqlStore}.

Definition ask_question (request : request) : M server response :=
  do data <- lift (request_json request) ;;
  do question <- lift (py_get data "question") ;;
  if negb (truthy question)
  then respond (VDict [("error", VStr "No question provided")]) 400
  else
    try_except
      (do results <- zoom srv_world set_world (run_query question default_db_path) ;;
       respond (VDict [("question", question); ("results", results)]) 200)
      (fun e => respond (VDict [("error", VStr (exn_str e))]) 500).

End handler.
End ApiPy.

(** ** Reference answers *)

Module Api.
Section reference.
Context `{model : CompletionService} `{store : SqlStore}.
Implicit Types (req : request) (s : server) (q v data : pyval) (e : exn).

(** The question a request carries, when it carries one: the body is a
    dict and the value under [question] is truthy. *)
Definition question_of req : option pyval :=
  match request_json req with
  | Ok (VDict d) =>
      let q := default VNone (dict_lookup d "question") in
      if truthy q then Some q else None
  | _ => None
  end.

(** The exception raised while the body is read, if any. *)
Definition body_error req : option exn :=
  match request_json req with
  | Raise e => Some e
  | Ok data => match py_get data "question" with Raise e => Some e | Ok _ => None end
  end.

Definition missing : response :=
  {| body := VDict [("error", VStr "No question provided")]; status := 400 |}.

Definition internal_error : response :=
  {| body := VDict [("error", VStr "Internal Server Error")]; status := 500 |}.

Definition answer q v : response :=
  {| body := VDict [("question", to_json q); ("results", to_json v)]; status := 200 |}.

Definition failure e : response :=
  {| body := VDict [("error", VStr (exn_str e))]; status := 500 |}.

(** The state after [main.py]'s handler has reported [e]. *)
Definition reported e s : server :=
  {| srv_world :=
       {| w_gemini := w_gemini (srv_world s); w_db := w_db (srv_world s);
          w_open := w_open (srv_world s);
          w_stdout := w_stdout (srv_world s) ++
            ["❌ Exception in /ask endpoint:" +:+ " " +:+ exn_str e];
          w_executed := w_executed (srv_world s) |};
     srv_traces := srv_traces s ++ [e] |}.

Definition not_serializable : exn :=
  Exn TypeError "Object of type bytes is not JSON serializable".

(** The state after the pipeline has run on [q]. *)
Definition asked q s : server :=
  set_world (snd (run_query q default_db_path (srv_world s))) s.

(** The rows the pipeline returns for [q]. *)
Definition rows_for q s : pyval :=
  match fst (run_query q default_db_path (srv_world s)) with
  | Ok v => v
  | Raise _ => VNone
  end.

(** [main.py]'s handler as a function of the request: the test on a
    dict of the pipeline's result is absent. *)
Definition main_ref req s : response * server :=
  match body_error req, question_of req with
  | Some e, _ => (internal_error, reported e s)
  | None, None => (missing, s)
  | None, Some q =>
      if jsonable q && jsonable (rows_for q s)
      then (answer q (rows_for q s), asked q s)
      else (internal_error, reported not_serializable (asked q s))
  end.

(** [api.py]'s handler as a function of the request. *)
Definition api_ref req s : result response * server :=
  match body_error req, question_of req with
  | Some e, _ => (Raise e, s)
  | None, None => (Ok missing, s)
  | None, Some q =>
      if jsonable q && jsonable (rows_for q s)
      then (Ok (answer q (rows_for q s)), asked q s)
      else (Ok (failure not_serializable), asked q s)
  end.

End reference.
End Api.

Import Api.

(** ** Facts *)

Section facts.
Context `{model : CompletionService} `{store : SqlStore}.
Implicit Types (req : request) (s : server) (q v data : pyval) (e : exn).

Lemma respond_run v code s :
  respond v code s =
  match jsonify v with
  | Ok b => (Ok {| body := b; status := code |}, s)
  | Raise e => (Raise e, s)
  end.
Proof. unfold respond, bind, lift, ret. by destruct (jsonify v). Qed.

Lemma respond_const k msg code s :
  respond (VDict [(k, VStr msg)]) code s =
  (Ok {| body := VDict [(k, VStr msg)]; status := code |}, s).
Proof. by rewrite respond_run. Qed.

Lemma jsonify_answer q v :
  jsonify (VDict [("question", q); ("results", v)]) =
  if jsonable q && jsonable v
  then Ok (VDict [("question", to_json q); ("results", to_json v)])
  else Raise not_serializable.
Proof.
  unfold jsonify. cbn [jsonable forallb snd]. rewrite andb_true_r.
  by destruct (jsonable q), (jsonable v).
Qed.

(** The pipeline, run from a handler. *)
Lemma run_query_zoom q s :
  zoom srv_world set_world (run_query q default_db_path) s = (Ok (rows_for q s), asked q s).
Proof.
  unfold zoom, rows_for, asked. by rewrite run_query_ref_eq.
Qed.

Lemma rows_for_not_dict q s : is_dict (rows_for q s) = false.
Proof.
  unfold rows_for. rewrite run_query_ref_eq.
  apply is_rows_not_dict, run_query_ref_is_rows.
Qed.

(** How a body is read: it holds a question, or none, or reading it
    raises. *)
Lemma body_cases req :
  (exists data q, request_json req = Ok data /\ py_get data "question" = Ok q
                  /\ truthy q = true /\ question_of req = Some q
                  /\ body_error req = None)
  \/ (exists data q, request_json req = Ok data /\ py_get data "question" = Ok q
                     /\ truthy q = false /\ question_of req = None
                     /\ body_error req = None)
  \/ (exists e, body_error req = Some e /\ question_of req = None
                /\ (request_json req = Raise e
                    \/ exists data, request_json req = Ok data
                                    /\ py_get data "question" = Raise e)).
Proof.
  unfold question_of, body_error.
  destruct (request_json req) as [data | e]; [| right; right; eauto 10].
  destruct data; simpl; try (right; right; by eauto 10).
  destruct (truthy _) eqn:E; [left | right; left]; eauto 10.
Qed.

(** Rewrites a handler with what [body_cases] found. *)
Ltac read_body req :=
  let Hq := fresh "Hq" in
  let Hb := fresh "Hb" in
  destruct (body_cases req) as
    [(data & q & Hj & Hg & Ht & Hq & Hb)
    |[(data & q & Hj & Hg & Ht & Hq & Hb)
     |(e & Hb & Hq & [Hj | (data & Hj & Hg)])]];
  rewrite Hb, ?Hq; unfold bind, lift; rewrite Hj; cbn beta iota;
  rewrite ?Hg; cbn beta iota; rewrite ?Ht; cbn [negb].

(** [main.py]'s handler unfolded on the request. *)
Lemma main_ask_question_run req s :
  MainPy.ask_question req s = (Ok (fst (main_ref req s)), snd (main_ref req s)).
Proof.
  unfold MainPy.ask_question, main_ref, try_except. read_body req; try done.
  rewrite run_query_zoom, rows_for_not_dict. cbn [andb].
  rewrite respond_run, jsonify_answer. by destruct (_ && _).
Qed.

(** [api.py]'s handler unfolded on the request. *)
Lemma api_ask_question_run req s : ApiPy.ask_question req s = api_ref req s.
Proof.
  unfold ApiPy.ask_question, api_ref, try_except. read_body req; try done.
  rewrite run_query_zoom, respond_run, jsonify_answer. by destruct (_ && _).
Qed.

Lemma question_of_Some req q :
  question_of req = Some q -> body_error req = None /\ truthy q = true.
Proof.
  destruct (body_cases req) as
    [(? & ? & _ & _ & ? & -> & ?) | [(? & ? & _ & _ & _ & -> & _) | (? & _ & -> & _)]];
    naive_solver.
Qed.

Lemma main_ref_question req s q :
  question_of req = Some q ->
  main_ref req s =
  if jsonable q && jsonable (rows_for q s)
  then (answer q (rows_for q s), asked q s)
  else (internal_error, reported not_serializable (asked q s)).
Proof.
  intros H. unfold main_ref. by rewrite (proj1 (question_of_Some _ _ H)), H.
Qed.

(** *** [main.py] *)

(** C7. [main.py]'s handler computes the reference answer, in which the
    test [isinstance(results, dict) and "error" in results] is absent:
    [run_query] never returns a dict, so the branch that answers 500
    with the pipeline's error is dead code.  The handler always returns
    a response. *)
Theorem main_ask_question_equiv req s :
  returns (MainPy.ask_question req) s (fst (main_ref req s)) (snd (main_ref req s)).
Proof. apply main_ask_question_run. Qed.

(** C8. A failure of the pipeline is answered with status 200: the
    error row travels in [results] like data. *)
Theorem main_pipeline_failure_200 req s q msg :
  question_of req = Some q -> jsonable q = true ->
  rows_for q s = error_rows msg ->
  fst (MainPy.ask_question req s) =
  Ok {| body := VDict [("question", to_json q);
                       ("results", VList [VList [VStr "Error:"; VStr msg]])];
        status := 200 |}.
Proof.
  intros Hq Hj Hr. rewrite main_ask_question_run, (main_ref_question _ _ _ Hq).
  by rewrite Hr, Hj.
Qed.

(** Status 500 is answered only when reading the body or writing
    the answer raised, and then with the fixed body
    [{"error": "Internal Server Error"}]. *)
Theorem main_status_500 req s resp s' :
  MainPy.ask_question req s = (Ok resp, s') -> status resp = 500 ->
  resp = internal_error
  /\ (is_Some (body_error req)
      \/ exists q, question_of req = Some q
                   /\ jsonable q && jsonable (rows_for q s) = false).
Proof.
  rewrite main_ask_question_run. unfold main_ref.
  destruct (body_error req) as [e |]; [intros [= <- _]; eauto |].
  destruct (question_of req) as [q |] eqn:Hq; [| by intros [= <- _]].
  destruct (_ && _) eqn:E; intros [= <- _]; [done | eauto].
Qed.

(** A body that cannot be read, or that is not a JSON object, is
    answered 500 after the exception is printed and traced; neither the
    completion service nor the store is called. *)
Theorem main_bad_body req s e :
  body_error req = Some e ->
  MainPy.ask_question req s = (Ok internal_error, reported e s).
Proof. intros H. rewrite main_ask_question_run. unfold main_ref. by rewrite H. Qed.

(** C18. A body without a question, or with a falsy one, is answered
    400 and nothing else happens. *)
Theorem main_missing_question req s :
  body_error req = None -> question_of req = None ->
  MainPy.ask_question req s = (Ok missing, s).
Proof.
  intros H1 H2. rewrite main_ask_question_run. unfold main_ref. by rewrite H1, H2.
Qed.

(** *** [api.py] *)

(** C19. In [api.py] the body is read outside the [try]: an exception
    of [request.json] or of [data.get] escapes the handler. *)
Theorem api_body_error_escapes req s e :
  body_error req = Some e -> ApiPy.ask_question req s = (Raise e, s).
Proof. intros H. rewrite api_ask_question_run. unfold api_ref. by rewrite H. Qed.

(** C20. On a body that can be read, and when the answer can be
    written, both entry points give the same response and leave the
    same state. *)
Theorem handlers_agree req s :
  body_error req = None ->
  (forall q, question_of req = Some q ->
             jsonable q && jsonable (rows_for q s) = true) ->
  ApiPy.ask_question req s = MainPy.ask_question req s.
Proof.
  intros Hb Hs. rewrite api_ask_question_run, main_ask_question_run.
  unfold api_ref, main_ref. rewrite Hb.
  destruct (question_of req) as [q |]; [| done]. by rewrite Hs.
Qed.

(** A cell of type [bytes] cannot be written: [api.py] answers 500
    with the message of the [TypeError], after the statement has been
    executed. *)
Theorem api_unserializable req s q :
  question_of req = Some q -> jsonable (rows_for q s) = false ->
  ApiPy.ask_question req s = (Ok (failure not_serializable), asked q s).
Proof.
  intros Hq Hr. rewrite api_ask_question_run. unfold api_ref.
  by rewrite (proj1 (question_of_Some _ _ Hq)), Hq, Hr, andb_false_r.
Qed.

End facts.

(** ** Witnesses *)

Definition json_request (v : pyval) : request := {| request_json := Ok v |}.

Definition demo_server (script : list (result string)) (files : list string)
    : @server scripted_service demo_store :=
  {| srv_world := demo_world script files; srv_traces := [] |}.

Definition no_get : exn := Exn AttributeError "'list' object has no attribute 'get'".

Definition sales_request : request :=
  json_request (VDict [("question", VStr "Show total sales trend over time")]).

Lemma main_pipeline_failure_200_witness :
  fst (MainPy.ask_question sales_request (demo_server [Ok plain_completion] [])) =
  Ok {| body := VDict [("question", VStr "Show total sales trend over time");
                       ("results", VList [VList [VStr "Error:";
                                                 VStr "unable to open database file"]])];
        status := 200 |}.
Proof.
  apply (main_pipeline_failure_200 (model := scripted_service) (store := demo_store)
           sales_request (demo_server [Ok plain_completion] [])
           (VStr "Show total sales trend over time") "unable to open database file");
    vm_compute; reflexivity.
Defined.

Lemma main_status_500_witness :
  internal_error = internal_error
  /\ (is_Some (body_error (json_request (VList [])))
      \/ exists q, question_of (json_request (VList [])) = Some q
                   /\ jsonable q && jsonable (rows_for q (demo_server [] [])) = false).
Proof.
  apply (main_status_500 (model := scripted_service) (store := demo_store)
           (json_request (VList [])) (demo_server [] []) internal_error
           (reported no_get (demo_server [] [])));
    vm_compute; reflexivity.
Defined.

Lemma main_bad_body_witness :
  MainPy.ask_question (json_request (VList [])) (demo_server [] []) =
  (Ok internal_error, reported no_get (demo_server [] [])).
Proof.
  apply (main_bad_body (model := scripted_service) (store := demo_store)
           (json_request (VList [])) (demo_server [] []) no_get).
  vm_compute; reflexivity.
Defined.

Lemma main_missing_question_witness :
  MainPy.ask_question (json_request (VDict [("question", VStr EmptyString)]))
    (demo_server [] []) =
  (Ok missing, demo_server [] []).
Proof.
  apply (main_missing_question (model := scripted_service) (store := demo_store)
           (json_request (VDict [("question", VStr EmptyString)])) (demo_server [] []));
    vm_compute; reflexivity.
Defined.

Lemma api_body_error_escapes_witness :
  ApiPy.ask_question (json_request (VList [])) (demo_server [] []) =
  (Raise no_get, demo_server [] []).
Proof.
  apply (api_body_error_escapes (model := scripted_service) (store := demo_store)
           (json_request (VList [])) (demo_server [] []) no_get).
  vm_compute; reflexivity.
Defined.

Lemma handlers_agree_witness :
  ApiPy.ask_question sales_request (demo_server [Ok plain_completion] [default_db_path]) =
  MainPy.ask_question sales_request (demo_server [Ok plain_completion] [default_db_path]).
Proof.
  apply (handlers_agree (model := scripted_service) (store := demo_store)
           sales_request (demo_server [Ok plain_completion] [default_db_path]));
    [vm_compute; reflexivity |].
  intros q [= <-]. vm_compute; reflexivity.
Defined.

Definition blob_completion : string := "SELECT CAST(message AS BLOB) FROM eligibility;".

Lemma api_unserializable_witness :
  fst (ApiPy.ask_question sales_request
         (demo_server [Ok blob_completion] [default_db_path])) =
  Ok (failure not_serializable).
Proof.
  refine (f_equal fst
    (api_unserializable (model := scripted_service) (store := demo_store)
       sales_request (demo_server [Ok blob_completion] [default_db_path])
       (VStr "Show total sales trend over time") _ _));
    vm_compute; reflexivity.
Defined.
