(* ===== verification/UserStore.v ===== *)
(** * Credential stores: [user_store.py] and [auth_utils.py]

    Two implementations of the same service, registering a user and
    checking a password.  [user_store.py] keeps a JSON object in the
    file [users.json]; [auth_utils.py] keeps a table [users] in the
    SQLite file [users.db].

    The interface [CredentialStore] is what the user interface imports:
    [add_user] and a validation function over a state, with the accounts
    the state represents.  [CredentialLaws] states what the interface
    promises as a refinement of the finite map of accounts; both modules
    are shown to provide it, and the theorems on the user interface are
    proved from the laws alone.  The round trip of each module, from
    start-up to a validated password, is proved on the module's own
    operations.

    The file [users.json] is taken to hold what [save_users] writes, an
    object from user names to passwords.  In [users.db] the table is
    either absent or a map keyed by [username], its primary key; an
    [INSERT] is visible to its connection at once and to the file at
    [commit]. *)

From stdpp Require Import base strings gmap.
From S2P Require Import Prelude.

#[local] Open Scope py_scope.

(** The accounts: passwords by user name. *)
Abbreviation accounts := (gmap string string).

(** ** The interface and its specification *)

Class CredentialStore : Type := {
  cs_state : Type;
  cs_add_user : string -> string -> M cs_state bool;
  cs_validate_user : string -> string -> M cs_state bool;
  (** the accounts a state holds; [None] when it holds no store *)
  cs_accounts : cs_state -> option accounts;
}.

(** Registration on the map of accounts: refused for a name in use. *)
Definition spec_add_user (username password : string) (a : accounts)
    : bool * accounts :=
  if bool_decide (is_Some (a !! username)) then (false, a)
  else (true, <[username := password]> a).

(** Validation on the map of accounts. *)
Definition spec_validate_user (username password : string) (a : accounts) : bool :=
  bool_decide (a !! username = Some password).

(** The state [s] holds the accounts [a]. *)
Definition holds `{C : CredentialStore} (s : cs_state) (a : accounts) : Prop :=
  cs_accounts s = Some a.

(** An operation [c] implements the function [f] on accounts: from a
    state that holds [a] it returns the value of [f a] in a state that
    holds the accounts of [f a]. *)
Definition implements `{C : CredentialStore} {A}
    (c : M cs_state A) (f : accounts -> A * accounts) : Prop :=
  forall s a, holds s a ->
    exists s', c s = (Ok (fst (f a)), s') /\ holds s' (snd (f a)).

Class CredentialLaws (C : CredentialStore) : Prop := {
  cs_add_user_spec username password :
    implements (cs_add_user username password) (spec_add_user username password);
  cs_validate_user_spec username password :
    implements (cs_validate_user username password)
      (fun a => (spec_validate_user username password a, a));
}.

(** ** [user_store.py] *)

Module UserStore.

Definition USER_DATA_FILE : string := "users.json".

(** The object stored in [users.json]; [None] when the file does not
    exist. *)
Definition fs : Type := option accounts.

Definition no_such_file : exn :=
  Exn FileNotFoundError "[Errno 2] No such file or directory: 'users.json'".

(** [os.path.exists(USER_DATA_FILE)] *)
Definition os_path_exists : M fs bool :=
  fun f => (Ok (bool_decide (is_Some f)), f).

(** [with open(USER_DATA_FILE, "w") as f: json.dump(users, f)] *)
Definition json_dump (users : accounts) : M fs unit :=
  fun _ => (Ok tt, Some users).

(** [with open(USER_DATA_FILE, "r") as f: json.load(f)] *)
Definition json_load : M fs accounts :=
  fun f => match f with
           | Some users => (Ok users, f)
           | None => (Raise no_such_file, f)
           end.

(** The statements run when the module is imported. *)
Definition import_user_store : M fs unit :=
  do found <- os_path_exists ;;
  if negb found then json_dump ∅ else ret tt.

Definition load_users : M fs accounts := json_load.

Definition save_users (users : accounts) : M fs unit := json_dump users.

Definition add_user (username password : string) : M fs bool :=
  do users <- load_users ;;
  if bool_decide (is_Some (users !! username)) then ret false
  else
    let users := <[username := password]> users in
    exec save_users users ;;
    ret true.

Definition validate_user (username password : string) : M fs bool :=
  do users <- load_users ;;
  ret (bool_decide (users !! username = Some password)).

End UserStore.

#[export] Instance user_store : CredentialStore := {|
  cs_state := UserStore.fs;
  cs_add_user := UserStore.add_user;
  cs_validate_user := UserStore.validate_user;
  cs_accounts := fun f => f;
|}.

(** ** [auth_utils.py] *)

Module AuthUtils.

Definition DB_NAME : string := "users.db".

(** The file [users.db] and the connections to it: the table [users] as
    committed ([None] when there is no table), the table as the open
    transaction sees it ([None] when no transaction is open), and the
    number of connections opened and not yet closed. *)
Record db : Type := {
  committed : option accounts;
  pending : option accounts;
  open_conns : nat;
}.

Definition no_such_table : exn := Exn OperationalError "no such table: users".

Definition unique_failed : exn :=
  Exn IntegrityError "UNIQUE constraint failed: users.username".

(** The table a statement sees. *)
Definition view (d : db) : option accounts :=
  match pending d with
  | Some t => Some t
  | None => committed d
  end.

(** [conn = sqlite3.connect(DB_NAME); c = conn.cursor()] *)
Definition sqlite3_connect : M db unit :=
  modify (fun d => {| committed := committed d; pending := pending d;
                      open_conns := S (open_conns d) |}).

(** [c.execute("CREATE TABLE IF NOT EXISTS users (...)")] *)
Definition execute_create_table : M db unit :=
  modify (fun d =>
    match pending d with
    | Some _ => d
    | None => {| committed := Some (default ∅ (committed d)); pending := None;
                 open_conns := open_conns d |}
    end).

(** [c.execute("INSERT INTO users (username, password) VALUES (?, ?)",
    (username, password))] *)
Definition execute_insert (username password : string) : M db unit :=
  fun d =>
    match view d with
    | None => (Raise no_such_table, d)
    | Some t =>
        if bool_decide (is_Some (t !! username)) then (Raise unique_failed, d)
        else (Ok tt, {| committed := committed d;
                        pending := Some (<[username := password]> t);
                        open_conns := open_conns d |})
    end.

(** [c.execute("SELECT * FROM users WHERE username = ? AND password = ?",
    (username, password))], with the rows selected. *)
Definition execute_select (username password : string)
    : M db (list (string * string)) :=
  fun d =>
    match view d with
    | None => (Raise no_such_table, d)
    | Some t =>
        (Ok (if bool_decide (t !! username = Some password)
             then [(username, password)] else []), d)
    end.

(** [c.fetchone()] *)
Definition fetchone (rows : list (string * string)) : option (string * string) :=
  head rows.

(** [conn.commit()] *)
Definition conn_commit : M db unit :=
  modify (fun d => {| committed := view d; pending := None;
                      open_conns := open_conns d |}).

(** [conn.close()]: an open transaction is rolled back. *)
Definition conn_close : M db unit :=
  modify (fun d => {| committed := committed d; pending := None;
                      open_conns := pred (open_conns d) |}).

Definition create_user_table : M db unit :=
  exec sqlite3_connect ;;
  exec execute_create_table ;;
  exec conn_commit ;;
  conn_close.

Definition add_user (username password : string) : M db bool :=
  exec sqlite3_connect ;;
  try_finally
    (try_except_if (fun e => bool_decide (exn_cls e = IntegrityError))
       (exec execute_insert username password ;;
        exec conn_commit ;;
        ret true)
       (fun _ => ret false))
    conn_close.

Definition verify_user (username password : string) : M db bool :=
  exec sqlite3_connect ;;
  do rows <- execute_select username password ;;
  let result := fetchone rows in
  exec conn_close ;;
  ret (bool_decide (result <> None)).

(** Between two calls no transaction is open. *)
Definition idle (d : db) : Prop := pending d = None.

End AuthUtils.

#[export] Instance auth_utils : CredentialStore := {|
  cs_state := AuthUtils.db;
  cs_add_user := AuthUtils.add_user;
  cs_validate_user := AuthUtils.verify_user;
  cs_accounts := fun d =>
    match AuthUtils.pending d with
    | None => AuthUtils.committed d
    | Some _ => None
    end;
|}.

(** ** Facts about the specification *)

Lemma spec_add_user_fresh username password a :
  a !! username = None ->
  spec_add_user username password a = (true, <[username := password]> a).
Proof.
  intros H. unfold spec_add_user. rewrite bool_decide_eq_false_2; [done |].
  rewrite H. by intros [? ?].
Qed.

(** ** Facts about [user_store.py] *)

Section user_store_facts.
Implicit Types (f : UserStore.fs) (a : accounts) (username password : string).

Lemma user_store_add_user_run username password a :
  UserStore.add_user username password (Some a) =
  (Ok (fst (spec_add_user username password a)),
   Some (snd (spec_add_user username password a))).
Proof.
  unfold UserStore.add_user, spec_add_user, bind. simpl. by case_bool_decide.
Qed.

Lemma user_store_validate_user_run username password a :
  UserStore.validate_user username password (Some a) =
  (Ok (spec_validate_user username password a), Some a).
Proof. reflexivity. Qed.

Lemma user_store_laws_proof : CredentialLaws user_store.
Proof.
  split; intros username password s a Hs; change (s = Some a) in Hs; subst s;
    eexists; split;
    first [apply user_store_add_user_run | apply user_store_validate_user_run | done].
Qed.

(** C21. [user_store.py] implements the specification: on a file that
    exists, [add_user] refuses a name in use and otherwise stores the
    password under the name, and [validate_user] answers whether the
    password stored under the name is the one given. *)
Theorem user_store_refines username password :
  implements (C := user_store) (UserStore.add_user username password)
    (spec_add_user username password)
  /\ implements (C := user_store) (UserStore.validate_user username password)
       (fun a => (spec_validate_user username password a, a)).
Proof. split; apply user_store_laws_proof. Qed.

(** Importing the module leaves an existing file alone and creates
    a missing one holding the empty object. *)
Theorem import_user_store_creates f :
  UserStore.import_user_store f = (Ok tt, Some (default ∅ f)).
Proof. by destruct f. Qed.

(** When the file has been removed after the import, both
    operations raise [FileNotFoundError] and create nothing. *)
Theorem user_store_missing_file username password :
  UserStore.add_user username password None = (Raise UserStore.no_such_file, None)
  /\ UserStore.validate_user username password None =
     (Raise UserStore.no_such_file, None).
Proof. done. Qed.

End user_store_facts.

#[export] Instance user_store_laws : CredentialLaws user_store :=
  user_store_laws_proof.

(** ** Facts about [auth_utils.py] *)

Section auth_utils_facts.
Import AuthUtils.
Implicit Types (d : db) (a : accounts) (username password : string).

(** An idle database with its table. *)
Definition at_rest (a : accounts) (n : nat) : db :=
  {| committed := Some a; pending := None; open_conns := n |}.

Lemma cs_accounts_at_rest d a :
  cs_accounts (CredentialStore := auth_utils) d = Some a ->
  d = at_rest a (open_conns d).
Proof. destruct d as [c [t |] n]; simpl; [done | by intros ->]. Qed.

Lemma auth_add_user_run username password a n :
  add_user username password (at_rest a n) =
  (Ok (fst (spec_add_user username password a)),
   at_rest (snd (spec_add_user username password a)) n).
Proof.
  unfold add_user, spec_add_user, try_finally, try_except_if, bind, execute_insert.
  simpl. by case_bool_decide.
Qed.

Lemma auth_verify_user_run username password a n :
  verify_user username password (at_rest a n) =
  (Ok (spec_validate_user username password a), at_rest a n).
Proof.
  unfold verify_user, spec_validate_user, bind, execute_select. simpl.
  by destruct (bool_decide (_ = Some password)).
Qed.

Lemma auth_utils_laws_proof : CredentialLaws auth_utils.
Proof.
  split; intros username password d a ->%cs_accounts_at_rest; eexists; split;
    first [apply auth_add_user_run | apply auth_verify_user_run | done].
Qed.

(** C22. [auth_utils.py] implements the specification: on a database
    at rest that has the table, [add_user] refuses a name in use, the
    primary key, and otherwise commits the row, and [verify_user]
    answers whether a row holds the name with the password. *)
Theorem auth_utils_refines username password :
  implements (C := auth_utils) (add_user username password)
    (spec_add_user username password)
  /\ implements (C := auth_utils) (verify_user username password)
       (fun a => (spec_validate_user username password a, a)).
Proof. split; apply auth_utils_laws_proof. Qed.

(** C23. [add_user] closes its connection on every path, the
    [IntegrityError] it catches and the exceptions it lets through
    included, and leaves no transaction open. *)
Theorem auth_add_user_closes username password d :
  open_conns (snd (add_user username password d)) = open_conns d
  /\ idle (snd (add_user username password d)).
Proof.
  unfold add_user, try_finally, try_except_if, bind, execute_insert, idle. simpl.
  destruct (view _); [case_bool_decide |]; done.
Qed.

(** Without the table, which only [create_user_table] makes,
    [add_user] lets the [OperationalError] through: [except] names
    [IntegrityError] alone. *)
Theorem auth_add_user_no_table username password d :
  view d = None ->
  fst (add_user username password d) = Raise no_such_table.
Proof.
  destruct d as [c [t |] n]; [done |]. unfold view. simpl. by intros ->.
Qed.

(** C24. Without the table, [verify_user] raises before it reaches
    [conn.close()]: the connection stays open. *)
Theorem auth_verify_user_leaks username password d :
  view d = None ->
  fst (verify_user username password d) = Raise no_such_table
  /\ open_conns (snd (verify_user username password d)) = S (open_conns d).
Proof.
  destruct d as [c [t |] n]; [done |]. unfold view. simpl. by intros ->.
Qed.

(** [create_user_table] makes the table when there is none and
    keeps the rows of one that exists; afterwards the database is at
    rest with its connection closed. *)
Theorem create_user_table_ready d :
  idle d ->
  create_user_table d = (Ok tt, at_rest (default ∅ (committed d)) (open_conns d)).
Proof. destruct d as [c t n]. unfold idle. simpl. by intros ->. Qed.

End auth_utils_facts.

#[export] Instance auth_utils_laws : CredentialLaws auth_utils :=
  auth_utils_laws_proof.

(** ** Registration, then validation

    The operations of each module in sequence, from the state its
    start-up finds: the file or the table is made when it is missing,
    the account is registered, and a password is checked against it by
    a call of its own, which opens the file or the database again. *)

(** C25. [user_store.py], round trip: whatever the file holds, and when
    there is none, once the module is imported [add_user] accepts a
    name that is free and writes the file, and [validate_user] then
    accepts that name with that password and with no other. *)
Theorem user_store_signup_then_login f username password guess :
  default ∅ f !! username = None ->
  (exec UserStore.import_user_store ;;
   do added <- UserStore.add_user username password ;;
   do valid <- UserStore.validate_user username guess ;;
   ret (added, valid)) f
  = (Ok (true, bool_decide (guess = password)),
     Some (<[username := password]> (default ∅ f))).
Proof.
  intros Hf. rewrite (bind_run _ _ _ _ _ (import_user_store_creates f)). cbn beta.
  rewrite (bind_run _ _ _ _ _ (user_store_add_user_run username password _)).
  rewrite spec_add_user_fresh by done. cbn beta iota.
  rewrite (bind_run _ _ _ _ _ (user_store_validate_user_run username guess _)).
  cbn [fst snd]. unfold ret, spec_validate_user. rewrite lookup_insert_eq.
  do 3 f_equal. apply bool_decide_ext. naive_solver.
Qed.

(** C26. [auth_utils.py], round trip: on a database at rest, with the
    table or without it, once [create_user_table] has run [add_user]
    accepts a name that is free and commits the row, and [verify_user],
    on a connection of its own, then accepts that name with that
    password and with no other; every connection is closed again. *)
Theorem auth_signup_then_login d username password guess :
  AuthUtils.idle d ->
  default ∅ (AuthUtils.committed d) !! username = None ->
  (exec AuthUtils.create_user_table ;;
   do added <- AuthUtils.add_user username password ;;
   do valid <- AuthUtils.verify_user username guess ;;
   ret (added, valid)) d
  = (Ok (true, bool_decide (guess = password)),
     at_rest (<[username := password]> (default ∅ (AuthUtils.committed d)))
       (AuthUtils.open_conns d)).
Proof.
  intros Hd Hf. rewrite (bind_run _ _ _ _ _ (create_user_table_ready d Hd)). cbn beta.
  rewrite (bind_run _ _ _ _ _ (auth_add_user_run username password _ _)).
  rewrite spec_add_user_fresh by done. cbn beta iota.
  rewrite (bind_run _ _ _ _ _ (auth_verify_user_run username guess _ _)).
  cbn [fst snd]. unfold ret, spec_validate_user. rewrite lookup_insert_eq.
  do 3 f_equal. apply bool_decide_ext. naive_solver.
Qed.

(** ** Witnesses *)

Definition one_account : accounts := {[ "alice" := "s3cret" ]}.

Definition no_table : AuthUtils.db :=
  {| AuthUtils.committed := None; AuthUtils.pending := None;
     AuthUtils.open_conns := 0 |}.

Lemma auth_add_user_no_table_witness :
  fst (AuthUtils.add_user "alice" "s3cret" no_table) = Raise AuthUtils.no_such_table.
Proof. apply (auth_add_user_no_table "alice" "s3cret" no_table). reflexivity. Defined.

Lemma auth_verify_user_leaks_witness :
  fst (AuthUtils.verify_user "alice" "s3cret" no_table) = Raise AuthUtils.no_such_table
  /\ AuthUtils.open_conns (snd (AuthUtils.verify_user "alice" "s3cret" no_table)) = 1.
Proof. apply (auth_verify_user_leaks "alice" "s3cret" no_table). reflexivity. Defined.

Lemma create_user_table_ready_witness :
  AuthUtils.create_user_table no_table = (Ok tt, at_rest ∅ 0).
Proof. apply (create_user_table_ready no_table). reflexivity. Defined.

(** Alice registers on a machine that has neither file nor table,
    then logs in with her password; a wrong guess is refused. *)
Lemma user_store_signup_then_login_witness :
  (exec UserStore.import_user_store ;;
   do added <- UserStore.add_user "alice" "s3cret" ;;
   do valid <- UserStore.validate_user "alice" "s3cret" ;;
   ret (added, valid)) None
  = (Ok (true, true), Some (<["alice" := "s3cret"]> ∅)).
Proof.
  apply (user_store_signup_then_login None "alice" "s3cret" "s3cret").
  apply lookup_empty.
Defined.

Lemma auth_signup_then_login_witness :
  (exec AuthUtils.create_user_table ;;
   do added <- AuthUtils.add_user "alice" "s3cret" ;;
   do valid <- AuthUtils.verify_user "alice" "s3cret" ;;
   ret (added, valid)) no_table
  = (Ok (true, true), at_rest (<["alice" := "s3cret"]> ∅) 0)
  /\ (exec AuthUtils.create_user_table ;;
      do added <- AuthUtils.add_user "alice" "s3cret" ;;
      do valid <- AuthUtils.verify_user "alice" "guess" ;;
      ret (added, valid)) no_table
     = (Ok (true, false), at_rest (<["alice" := "s3cret"]> ∅) 0).
Proof.
  split;
    [apply (auth_signup_then_login no_table "alice" "s3cret" "s3cret")
    |apply (auth_signup_then_login no_table "alice" "s3cret" "guess")];
    first [reflexivity | apply lookup_empty].
Defined.
