(* ===== verification/App.v ===== *)
(** * The user interface: sign-up, login and routing of [app.py]

    Streamlit runs the script from top to bottom each time the user acts
    on a widget.  A run reads the widgets' values, the user's input
    [widgets], reads and writes [st.session_state], which lives across
    runs, and renders elements.  [st.rerun()] ends the run with
    [RerunException].

    This file holds [signup], [login] and the routing statements at the
    end of the script; they use the credential store through the
    interface [CredentialStore].  [main_app], the page shown to an
    authenticated user, is a parameter of the routing here and is
    defined in [Dashboard].

    The browser is the relation [step]: any input, one run.  The
    invariant of the reachable states is that an authenticated session
    names a registered user. *)

From stdpp Require Import base strings gmap relations.
From S2P Require Import Prelude PyString PyValue UserStore.

#[local] Open Scope py_scope.

Module App.

(** ** Widgets and elements *)

(** The input of one run: the text of each text field and whether each
    button was pressed, by widget key (by label for a widget without a
    key), the entry selected in the navigation menu, and the position
    picked in each radio group or select box, if the user picked one. *)
Record widgets : Type := {
  text_value : string -> string;
  pressed : string -> bool;
  selected : string;
  picked : string -> option nat;
}.

(** The elements a run renders.  A table or a chart is shown by its
    position among the objects displayed, which the main page keeps. *)
Inductive element : Type :=
| PageConfig (page_title layout : string)
| Title (body : string)
| Subheader (body : string)
| Markdown (body : string) (unsafe_allow_html : bool)
| Code (body language : string)
| Write (body : string)
| TextInput (label key : string) (password : bool)
| Button (label key : string)
| Radio (label : string) (options : list string)
| Selectbox (label : string) (options : list pyval)
| Success (body : string)
| Info (body : string)
| Warning (body : string)
| Error (body : string)
| ExceptionBox (e : exn)
| Spinner (text : string)
| Lottie (animation : pyval) (height : nat)
| Dataframe (handle : nat)
| PlotlyChart (handle : nat)
| OptionMenu (title : string) (options : list string)
| InSidebar (e : element).

Section app.
Context {C : CredentialStore} {E : Type}.

(** The state of the application: the session, which lives across the
    runs of the script, the credential store, the world outside that the
    main page acts on, and the elements rendered by the current run. *)
Record app : Type := {
  session_state : gmap string pyval;
  users : cs_state;
  outside : E;
  rendered : list element;
}.

Definition set_users (u : cs_state) (s : app) : app :=
  {| session_state := session_state s; users := u; outside := outside s;
     rendered := rendered s |}.

Definition render (e : element) : M app unit :=
  modify (fun s => {| session_state := session_state s; users := users s;
                      outside := outside s; rendered := rendered s ++ [e] |}).

(** [st.subheader(body)] *)
Definition st_subheader (body : string) : M app unit := render (Subheader body).

(** [st.text_input(label, key=key)] and, with [type="password"], its
    masked form. *)
Definition st_text_input (w : widgets) (label : string) (password : bool)
    (key : string) : M app string :=
  exec render (TextInput label key password) ;; ret (text_value w key).

(** [st.button(label, key=key)] *)
Definition st_button (w : widgets) (label key : string) : M app bool :=
  exec render (Button label key) ;; ret (pressed w key).

(** [st.success(body)] and [st.error(body)] *)
Definition st_success (body : string) : M app unit := render (Success body).
Definition st_error (body : string) : M app unit := render (Error body).

(** [option_menu(title, options, ...)] inside [with st.sidebar]. *)
Definition option_menu (w : widgets) (title : string) (options : list string)
    : M app string :=
  exec render (InSidebar (OptionMenu title options)) ;; ret (selected w).

(** [st.rerun()] *)
Definition st_rerun {A} : M app A := raise (Exn RerunException EmptyString).

(** [key in st.session_state] *)
Definition session_contains (key : string) : M app bool :=
  fun s => (Ok (bool_decide (is_Some (session_state s !! key))), s).

(** [st.session_state[key] = v] *)
Definition session_set (key : string) (v : pyval) : M app unit :=
  modify (fun s => {| session_state := <[key := v]> (session_state s);
                      users := users s; outside := outside s;
                      rendered := rendered s |}).

(** [st.session_state[key]]; the [KeyError] carries the key. *)
Definition session_get (key : string) : M app pyval :=
  fun s => match session_state s !! key with
           | Some v => (Ok v, s)
           | None => (Raise (Exn KeyError key), s)
           end.

(** ** [signup] and [login] *)

Definition signup (w : widgets) : M app unit :=
  exec st_subheader "🔐 Create Account" ;;
  do username <- st_text_input w "Choose a Username" false "signup_username" ;;
  do password <- st_text_input w "Choose a Password" true "signup_password" ;;
  do clicked <- st_button w "Sign Up" "signup_button" ;;
  if clicked then
    do added <- zoom users set_users (cs_add_user username password) ;;
    if added then st_success "✅ Account created! Please log in."
    else st_error "❌ Username already exists."
  else ret tt.

Definition login (w : widgets) : M app unit :=
  exec st_subheader "🔐 Login" ;;
  do username <- st_text_input w "Username" false "login_username" ;;
  do password <- st_text_input w "Password" true "login_password" ;;
  do clicked <- st_button w "Login" "login_button" ;;
  if clicked then
    do valid <- zoom users set_users (cs_validate_user username password) ;;
    if valid then
      exec session_set "authenticated" (VBool true) ;;
      exec session_set "username" (VStr username) ;;
      st_rerun
    else st_error "❌ Invalid credentials."
  else ret tt.

(** ** Routing *)

Section routing.
Variable main_app : widgets -> M app unit.

Definition routing (w : widgets) : M app unit :=
  exec (do known <- session_contains "authenticated" ;;
        if negb known then session_set "authenticated" (VBool false) else ret tt) ;;
  do page <- option_menu w "Navigation" ["Login"; "Sign Up"] ;;
  do authenticated <- session_get "authenticated" ;;
  if truthy authenticated then main_app w
  else if bool_decide (page = "Login") then login w
  else if bool_decide (page = "Sign Up") then signup w
  else ret tt.

(** One run of the script on a cleared page. *)
Definition run (w : widgets) (s : app) : result unit * app :=
  routing w {| session_state := session_state s; users := users s;
               outside := outside s; rendered := [] |}.

(** The browser: the user acts, the script runs once. *)
Inductive step : app -> app -> Prop :=
| step_run w s : step s (snd (run w s)).

End routing.

(** ** The invariant *)

(** The session is authenticated. *)
Definition authenticated (s : app) : bool :=
  match session_state s !! "authenticated" with
  | Some v => truthy v
  | None => false
  end.

(** The session names a user that has an account. *)
Definition names_account (s : app) : Prop :=
  exists a username password,
    cs_accounts (users s) = Some a
    /\ session_state s !! "username" = Some (VStr username)
    /\ a !! username = Some password.

(** The store is there, and an authenticated session names an account. *)
Definition inv (s : app) : Prop :=
  is_Some (cs_accounts (users s)) /\ (authenticated s = true -> names_account s).

(** A state before the first run: no session, a store with accounts. *)
Definition fresh (u : cs_state) (e : E) : app :=
  {| session_state := ∅; users := u; outside := e; rendered := [] |}.

End app.
End App.

Import App.

(** ** Facts *)

(** What [st.rerun()] raises. *)
Definition rerun : exn := Exn RerunException EmptyString.

Section facts.
Context {C : CredentialStore} {L : CredentialLaws C} {E : Type}.
Implicit Types (s : @app C E) (w : widgets) (a : accounts).

Ltac ui_cbn := cbn [fst snd session_state users outside rendered].

(** Unfolds the widgets of a page and computes on the records. *)
Ltac ui_run :=
  unfold st_subheader, st_text_input, st_button, st_success,
    st_error, option_menu, st_rerun, session_contains, session_set, session_get,
    render, bind, ret, raise, modify, zoom, set_users;
  ui_cbn.

Lemma login_idle w s :
  pressed w "login_button" = false ->
  fst (login w s) = Ok tt /\ session_state (snd (login w s)) = session_state s
  /\ users (snd (login w s)) = users s.
Proof. intros H. unfold login, signup. ui_run. by rewrite H. Qed.

Lemma login_pressed w s a :
  pressed w "login_button" = true ->
  cs_accounts (users s) = Some a ->
  fst (login w s) =
    (if spec_validate_user (text_value w "login_username")
          (text_value w "login_password") a
     then Raise rerun else Ok tt)
  /\ session_state (snd (login w s)) =
     (if spec_validate_user (text_value w "login_username")
           (text_value w "login_password") a
      then <["username" := VStr (text_value w "login_username")]>
             (<["authenticated" := VBool true]> (session_state s))
      else session_state s)
  /\ cs_accounts (users (snd (login w s))) = Some a.
Proof.
  intros Hp Ha. unfold login, signup. ui_run. rewrite Hp. ui_cbn.
  destruct (cs_validate_user_spec (text_value w "login_username")
              (text_value w "login_password") _ _ Ha) as (u' & -> & Hu).
  cbn [fst snd] in *. by destruct (spec_validate_user _ _ _).
Qed.

Lemma signup_idle w s :
  pressed w "signup_button" = false ->
  fst (signup w s) = Ok tt /\ session_state (snd (signup w s)) = session_state s
  /\ users (snd (signup w s)) = users s.
Proof. intros H. unfold login, signup. ui_run. by rewrite H. Qed.

Lemma signup_pressed w s a :
  pressed w "signup_button" = true ->
  cs_accounts (users s) = Some a ->
  fst (signup w s) = Ok tt
  /\ session_state (snd (signup w s)) = session_state s
  /\ cs_accounts (users (snd (signup w s))) =
     Some (snd (spec_add_user (text_value w "signup_username")
                  (text_value w "signup_password") a)).
Proof.
  intros Hp Ha. unfold login, signup. ui_run. rewrite Hp. ui_cbn.
  destruct (cs_add_user_spec (text_value w "signup_username")
              (text_value w "signup_password") _ _ Ha) as (u' & -> & Hu).
  cbn [fst snd] in *. by destruct (fst (spec_add_user _ _ _)).
Qed.


(** *** The invariant *)

Lemma inv_ext s s' a :
  cs_accounts (users s) = Some a ->
  session_state s' = session_state s ->
  (exists a', cs_accounts (users s') = Some a' /\ a ⊆ a') ->
  inv s -> inv s'.
Proof.
  intros Ha Hs (a' & Ha' & Hsub) [_ Hn]. split; [by rewrite Ha' |].
  unfold authenticated, names_account. rewrite Hs. intros Hauth.
  destruct (Hn Hauth) as (a0 & u & p & Ha0 & Hu & Hp).
  rewrite Ha in Ha0. injection Ha0 as <-.
  exists a', u, p. eauto using lookup_weaken.
Qed.

Lemma spec_add_user_subseteq username password a :
  a ⊆ snd (spec_add_user username password a).
Proof.
  unfold spec_add_user. case_bool_decide as Hin; [done |]. cbn [snd].
  apply insert_subseteq. by apply eq_None_not_Some.
Qed.

Lemma signup_inv w s : inv s -> inv (snd (signup w s)).
Proof.
  intros Hi. destruct (Hi) as [[a Ha] _].
  destruct (pressed w "signup_button") eqn:Hp.
  - destruct (signup_pressed w s a Hp Ha) as (_ & Hs & Hu).
    apply (inv_ext s _ a Ha Hs); [| done].
    eauto using spec_add_user_subseteq.
  - destruct (signup_idle w s Hp) as (_ & Hs & Hu).
    apply (inv_ext s _ a Ha Hs); [| done]. rewrite Hu. eauto.
Qed.

Lemma login_inv w s : inv s -> inv (snd (login w s)).
Proof.
  intros Hi. destruct (Hi) as [[a Ha] _].
  destruct (pressed w "login_button") eqn:Hp.
  - destruct (login_pressed w s a Hp Ha) as (_ & Hs & Hu).
    destruct (spec_validate_user _ _ a) eqn:Hv; [| apply (inv_ext s _ a Ha Hs); eauto].
    split; [by rewrite Hu |]. intros _.
    exists a, (text_value w "login_username"), (text_value w "login_password").
    rewrite Hs, lookup_insert_eq. by apply bool_decide_eq_true in Hv.
  - destruct (login_idle w s Hp) as (_ & Hs & Hu).
    apply (inv_ext s _ a Ha Hs); [| done]. rewrite Hu. eauto.
Qed.

(** *** Routing *)

(** The state when the script reaches its last [if]: the session
    initialised, the menu rendered. *)
Definition opened s : app :=
  {| session_state :=
       if bool_decide (is_Some (session_state s !! "authenticated"))
       then session_state s
       else <["authenticated" := VBool false]> (session_state s);
     users := users s;
     outside := outside s;
     rendered :=
       rendered s ++ [InSidebar (OptionMenu "Navigation" ["Login"; "Sign Up"])] |}.

Lemma authenticated_opened s : authenticated (opened s) = authenticated s.
Proof.
  unfold authenticated, opened. cbn [session_state].
  case_bool_decide as H; [done |].
  apply eq_None_not_Some in H. by rewrite H, lookup_insert_eq.
Qed.

Lemma opened_inv s : inv s -> inv (opened s).
Proof.
  intros [Hs Hn]. split; [done |]. rewrite authenticated_opened. intros Ha.
  destruct (Hn Ha) as (a & u & p & ? & Hu & ?). exists a, u, p.
  split_and!; [done | | done]. unfold opened. cbn [session_state].
  case_bool_decide; [done |]. by rewrite lookup_insert_ne.
Qed.

Section routing_facts.
Variable main_app : widgets -> M (@app C E) unit.

(** The routing on its three cases. *)
Lemma routing_run w s :
  routing main_app w s =
  if authenticated s then main_app w (opened s)
  else if bool_decide (selected w = "Login") then login w (opened s)
  else if bool_decide (selected w = "Sign Up") then signup w (opened s)
  else (Ok tt, opened s).
Proof.
  rewrite <- authenticated_opened.
  unfold routing, authenticated, opened. ui_run.
  destruct (session_state s !! "authenticated") as [v |] eqn:Hk.
  - rewrite !bool_decide_eq_true_2 by eauto. cbn [negb]. ui_cbn. rewrite Hk.
    by repeat case_match.
  - rewrite !bool_decide_eq_false_2 by (by intros [? ?]). cbn [negb]. ui_cbn.
    rewrite lookup_insert_eq. by repeat case_match.
Qed.

Hypothesis main_app_inv : forall w s, inv s -> inv (snd (main_app w s)).

Lemma routing_inv w s : inv s -> inv (snd (routing main_app w s)).
Proof.
  intros H%opened_inv. rewrite routing_run.
  repeat case_match; auto using login_inv, signup_inv.
Qed.

Lemma step_inv s s' : step main_app s s' -> inv s -> inv s'.
Proof.
  intros [w s0] [Hs Hn]. apply routing_inv. split; [done |]. exact Hn.
Qed.

Lemma steps_inv s s' : rtc (step main_app) s s' -> inv s -> inv s'.
Proof. induction 1; eauto using step_inv. Qed.

(** In every state the browser can reach from a fresh session over
    a store that is there, an authenticated session names a user that
    has an account, provided the main page keeps that property. *)
Theorem reachable_inv u e s :
  is_Some (cs_accounts u) -> rtc (step main_app) (fresh u e) s -> inv s.
Proof.
  intros Hu Hr. apply (steps_inv _ _ Hr). split; [done |].
  unfold authenticated, fresh. cbn [session_state]. by rewrite lookup_empty.
Qed.

End routing_facts.

(** C30. A run of an unauthenticated session does not depend on the
    main page: [main_app] is not called. *)
Theorem routing_guards_main_app (m1 m2 : widgets -> M (@app C E) unit) w s :
  authenticated s = false -> routing m1 w s = routing m2 w s.
Proof. intros H. rewrite !routing_run. by rewrite H. Qed.

(** C31. Pressing Login authenticates the session exactly when the
    store holds the password typed under the name typed; the run then
    ends with a rerun and the session holds the flag and the name, and
    otherwise it ends normally with the session as it was. *)
Theorem login_authenticates w s a :
  pressed w "login_button" = true ->
  cs_accounts (users s) = Some a ->
  let valid := spec_validate_user (text_value w "login_username")
                 (text_value w "login_password") a in
  fst (login w s) = (if valid then Raise rerun else Ok tt)
  /\ authenticated (snd (login w s)) = valid || authenticated s
  /\ session_state (snd (login w s)) =
     (if valid
      then <["username" := VStr (text_value w "login_username")]>
             (<["authenticated" := VBool true]> (session_state s))
      else session_state s).
Proof.
  intros Hp Ha valid. destruct (login_pressed w s a Hp Ha) as (Hr & Hs & _).
  split_and!; [done | | done]. unfold authenticated. rewrite Hs. fold valid.
  destruct valid; [| done].
  by rewrite lookup_insert_ne, lookup_insert_eq.
Qed.

(** C32. Pressing Sign Up registers the name typed with the password
    typed when the name is free, whatever they are, the empty strings
    of untouched fields included, and renders the confirmation. *)
Theorem signup_registers w s a :
  pressed w "signup_button" = true ->
  cs_accounts (users s) = Some a ->
  a !! text_value w "signup_username" = None ->
  cs_accounts (users (snd (signup w s))) =
    Some (<[text_value w "signup_username" := text_value w "signup_password"]> a)
  /\ last (rendered (snd (signup w s))) =
     Some (Success "✅ Account created! Please log in.").
Proof.
  intros Hp Ha Hf. split.
  - destruct (signup_pressed w s a Hp Ha) as (_ & _ & ->).
    by rewrite spec_add_user_fresh.
  - unfold signup. ui_run. rewrite Hp. ui_cbn.
    destruct (cs_add_user_spec (text_value w "signup_username")
                (text_value w "signup_password") _ _ Ha) as (u' & -> & _).
    rewrite spec_add_user_fresh by done. ui_cbn. apply last_snoc.
Qed.

End facts.

(** ** Witnesses *)

(** The input of a run: the fields typed, the buttons pressed, the
    page selected. *)
Definition typed (fields : list (string * string)) (buttons : list string)
    (page : string) : widgets :=
  {| text_value := fun key => default EmptyString (list_to_map (M := gmap string string) fields !! key);
     pressed := fun key => bool_decide (key ∈ buttons);
     selected := page;
     picked := fun _ => None |}.

(** A main page that renders nothing. *)
Definition blank_page : widgets -> M (@app user_store unit) unit := fun _ => ret tt.

Definition alice_login : widgets :=
  typed [("login_username", "alice"); ("login_password", "s3cret")]
    ["login_button"] "Login".

Definition untouched_signup : widgets := typed [] ["signup_button"] "Sign Up".

Definition alice_session : @app user_store unit :=
  fresh (C := user_store) (Some one_account) tt.

Definition empty_session : @app user_store unit := fresh (C := user_store) (Some ∅) tt.

Lemma reachable_inv_witness :
  inv (snd (run blank_page alice_login alice_session)).
Proof.
  apply (reachable_inv (C := user_store) blank_page (fun _ _ H => H)
           (Some one_account) tt);
    [by eexists | apply rtc_once, step_run].
Defined.

Lemma routing_guards_main_app_witness :
  routing blank_page alice_login alice_session =
  routing (C := user_store) (fun _ => st_error "main page") alice_login alice_session.
Proof.
  apply (routing_guards_main_app (C := user_store) blank_page
           (fun _ => st_error "main page") alice_login alice_session).
  reflexivity.
Defined.

Lemma login_authenticates_witness :
  let valid := spec_validate_user (text_value alice_login "login_username")
                 (text_value alice_login "login_password") one_account in
  fst (login alice_login alice_session) =
    (if valid then Raise rerun else Ok tt)
  /\ authenticated (snd (login alice_login alice_session)) =
     valid || authenticated alice_session
  /\ session_state (snd (login alice_login alice_session)) =
     (if valid
      then <["username" := VStr (text_value alice_login "login_username")]>
             (<["authenticated" := VBool true]> (session_state alice_session))
      else session_state alice_session).
Proof.
  apply (login_authenticates (C := user_store) alice_login
           alice_session one_account);
    vm_compute; reflexivity.
Defined.

Lemma signup_registers_witness :
  cs_accounts (users (snd (signup untouched_signup empty_session))) =
    Some (<[text_value untouched_signup "signup_username" :=
            text_value untouched_signup "signup_password"]> ∅)
  /\ last (rendered (snd (signup untouched_signup empty_session))) =
     Some (Success "✅ Account created! Please log in.").
Proof.
  apply (signup_registers (C := user_store) untouched_signup empty_session ∅);
    vm_compute; reflexivity.
Defined.
