(* ===== verification/Visualizer.v ===== *)
(** * Choice of a chart: [visualizer.py]

    [generate_chart] picks a chart for a table from the names of its
    columns: a line of [total_sales] over [date], else a bar of
    [total_units_ordered] per [item_id], else nothing.  A figure is the
    call made to Plotly Express: the kind, the table, the two columns
    and the title. *)

From stdpp Require Import base strings list.
From S2P Require Import Prelude PyValue.

Module Visualizer.

(** A [pd.DataFrame]: the names of the columns and the rows. *)
Record dataframe : Type := {
  columns : list string;
  rows : list (list pyval);
}.

Inductive chart_kind : Type := Line | Bar.

Record figure : Type := {
  fig_kind : chart_kind;
  fig_data : dataframe;
  fig_x : string;
  fig_y : string;
  fig_title : string;
}.

(** [px.line(df, x=x, y=y, title=title)] *)
Definition px_line (df : dataframe) (x y title : string) : figure :=
  {| fig_kind := Line; fig_data := df; fig_x := x; fig_y := y; fig_title := title |}.

(** [px.bar(df, x=x, y=y, title=title)] *)
Definition px_bar (df : dataframe) (x y title : string) : figure :=
  {| fig_kind := Bar; fig_data := df; fig_x := x; fig_y := y; fig_title := title |}.

(** [name in df.columns] *)
Definition in_columns (name : string) (df : dataframe) : bool :=
  bool_decide (name ∈ columns df).

Definition generate_chart (df : dataframe) : option figure :=
  if in_columns "date" df && in_columns "total_sales" df
  then Some (px_line df "date" "total_sales" "Sales Over Time")
  else if in_columns "item_id" df && in_columns "total_units_ordered" df
  then Some (px_bar df "item_id" "total_units_ordered" "Units Ordered by Item")
  else None.

(** ** Facts *)

Lemma in_columns_spec name df : in_columns name df = true <-> name ∈ columns df.
Proof. apply bool_decide_eq_true. Qed.

(** C40. A figure is drawn from the table given and over two of its
    columns: Plotly is never asked for a column the table lacks. *)
Theorem generate_chart_axes df fig :
  generate_chart df = Some fig ->
  fig_data fig = df /\ fig_x fig ∈ columns df /\ fig_y fig ∈ columns df.
Proof.
  unfold generate_chart. intros H.
  repeat case_match; simplify_eq; cbn [fig_data fig_x fig_y px_line px_bar];
    (split; [done |]); rewrite <- !in_columns_spec; by apply andb_prop.
Qed.

(** No figure is made exactly when the table lacks one column of
    each pair; when it has both pairs, the line of sales over time
    wins. *)
Theorem generate_chart_kind df :
  let sales := in_columns "date" df && in_columns "total_sales" df in
  let units := in_columns "item_id" df && in_columns "total_units_ordered" df in
  fig_kind <$> generate_chart df =
  if sales then Some Line else if units then Some Bar else None.
Proof. unfold generate_chart. by repeat case_match. Qed.

(** ** Witnesses *)

Definition sales_table : dataframe :=
  {| columns := ["date"; "item_id"; "total_sales"; "total_units_ordered"];
     rows := [[VStr "2025-06-01"; VInt 29; VFloat "309.99"; VInt 2]] |}.

Lemma generate_chart_axes_witness :
  fig_data (px_line sales_table "date" "total_sales" "Sales Over Time") = sales_table
  /\ "date" ∈ columns sales_table /\ "total_sales" ∈ columns sales_table.
Proof.
  apply (generate_chart_axes sales_table
           (px_line sales_table "date" "total_sales" "Sales Over Time")).
  vm_compute; reflexivity.
Defined.

End Visualizer.
