(* ===== verification/Dashboard.v ===== *)
(** * The main page: [main_app] of [app.py]

    The page an authenticated user sees: a title, an animation fetched
    over HTTP, suggested questions, a side bar with a theme and two
    filters, and a question field.  Pressing Ask posts the question to
    the back end, builds a pandas table from the rows returned, filters
    it, shows it and draws a chart over a time column when there is one.

    The network is the interface [Network] and pandas the interface
    [Pandas]: the sources only call them.  What the page owns is
    modelled in full: the order of the widgets, the guards, the three
    [except] clauses of the request and the two of the filters.

    [script] is the whole of [app.py] as Streamlit runs it: the page
    configuration, the style sheet, then the routing of [App] with
    [main_app] as the main page. *)

From stdpp Require Import base strings gmap pretty relations.
From S2P Require Import Prelude PyString PyValue UserStore App.
Import App.

#[local] Open Scope py_scope.

Module Dashboard.

(** ** The network *)

(** A [requests.Response]: the status line and what [r.json()]
    evaluates to. *)
Record http_response : Type := {
  status_code : nat;
  reason : string;
  json : result pyval;
}.

Class Network : Type := {
  net_state : Type;
  (** [requests.get(url)] *)
  requests_get : string -> M net_state http_response;
  (** [requests.post(url, json=body)] *)
  requests_post : string -> pyval -> M net_state http_response;
}.

(** The classes [except requests.exceptions.RequestException] catches. *)
Definition is_request_exception (e : exn) : bool :=
  bool_decide (exn_cls e ∈ [RequestException; ConnectionError; HTTPError; JSONDecodeError]).

(** ** pandas *)

Class Pandas : Type := {
  df : Type;
  (** [pd.DataFrame(results)] *)
  pd_DataFrame : pyval -> result df;
  (** [df.columns] *)
  df_columns : df -> list pyval;
  (** [df.empty] *)
  df_empty : df -> bool;
  (** [df[c] = df[c].astype(str).replace('nan', '')] *)
  df_astype_str : string -> df -> result df;
  (** [df[df[c].str.contains(pattern, case=False, na=False)]] *)
  df_filter_contains : string -> string -> df -> result df;
  (** [df.select_dtypes(include='number').columns.tolist()] *)
  df_number_columns : df -> list pyval;
  (** [df[c] = pd.to_datetime(df[c], errors='coerce')] *)
  df_to_datetime : pyval -> df -> result df;
  (** [df.dropna(subset=[c])] *)
  df_dropna : pyval -> df -> result df;
  (** [df.sort_values(by=c)] *)
  df_sort_values : pyval -> df -> result df;
}.

Section page.
Context {C : CredentialStore} {N : Network} {P : Pandas}.

(** ** Plotly Express *)

Inductive chart_kind : Type := Line | Bar | Area.

Record figure : Type := {
  fig_kind : chart_kind;
  fig_data : df;
  fig_x : pyval;
  fig_y : pyval;
  fig_title : string;
}.

(** An object displayed on the page. *)
Inductive displayed : Type :=
| Table (data : df)
| Chart (fig : figure).

(** ** The world outside the session *)

Record ambient : Type := {
  net : net_state;
  files : gmap string string;
  objects : list displayed;
  traces : list exn;
}.

Definition page : Type := @app C ambient.

Definition set_outside (o : ambient) (s : page) : page :=
  {| session_state := session_state s; users := users s; outside := o;
     rendered := rendered s |}.

Definition set_net (n : net_state) (o : ambient) : ambient :=
  {| net := n; files := files o; objects := objects o; traces := traces o |}.

(** A call of [requests]. *)
Definition on_net {A} (c : M net_state A) : M page A :=
  zoom outside set_outside (zoom net set_net c).

(** ** Streamlit elements of the page *)

Definition st_title (body : string) : M page unit := render (Title body).

Definition st_markdown (body : string) (unsafe_allow_html : bool) : M page unit :=
  render (Markdown body unsafe_allow_html).

Definition st_warning (body : string) : M page unit := render (Warning body).
Definition st_info (body : string) : M page unit := render (Info body).
Definition st_write (body : string) : M page unit := render (Write body).
Definition st_code (body language : string) : M page unit := render (Code body language).
Definition st_exception (e : exn) : M page unit := render (ExceptionBox e).
Definition st_spinner (text : string) : M page unit := render (Spinner text).

(** [st_lottie(animation, height=height)] *)
Definition st_lottie (animation : pyval) (height : nat) : M page unit :=
  render (Lottie animation height).

Definition st_sidebar_title (body : string) : M page unit :=
  render (InSidebar (Title body)).

(** The option a radio group or a select box returns: the one picked,
    the one at [index] when none was picked. *)
Definition option_at {A} (w : widgets) (label : string) (options : list A)
    (index : nat) : option A :=
  match picked w label ≫= (options !!.) with
  | Some x => Some x
  | None => options !! index
  end.

(** [st.sidebar.radio(label, options)] *)
Definition st_sidebar_radio (w : widgets) (label : string) (options : list string)
    : M page (option string) :=
  exec render (InSidebar (Radio label options)) ;; ret (option_at w label options 0).

(** [st.sidebar.text_input(label)] *)
Definition st_sidebar_text_input (w : widgets) (label : string) : M page string :=
  exec render (InSidebar (TextInput label label false)) ;; ret (text_value w label).

(** [st.sidebar.selectbox(label, options)] *)
Definition st_sidebar_selectbox (w : widgets) (label : string) (options : list string)
    : M page (option string) :=
  exec render (InSidebar (Selectbox label (VStr <$> options))) ;;
  ret (option_at w label options 0).

(** [st.selectbox(label, options, index=index)]; without options it
    returns [None]. *)
Definition st_selectbox (w : widgets) (label : string) (options : list pyval)
    (index : nat) : M page pyval :=
  exec render (Selectbox label options) ;;
  ret (default VNone (option_at w label options index)).

Definition display (d : displayed) (o : ambient) : ambient :=
  {| net := net o; files := files o; objects := objects o ++ [d]; traces := traces o |}.

(** [st.dataframe(data, use_container_width=True)] *)
Definition st_dataframe (data : df) : M page unit :=
  do o <- (fun s => (Ok (outside s), s)) ;;
  exec modify (set_outside (display (Table data) o)) ;;
  render (Dataframe (length (objects o))).

(** [st.plotly_chart(fig, use_container_width=True)] *)
Definition st_plotly_chart (fig : figure) : M page unit :=
  do o <- (fun s => (Ok (outside s), s)) ;;
  exec modify (set_outside (display (Chart fig) o)) ;;
  render (PlotlyChart (length (objects o))).

(** [traceback.print_exc()] while [e] is handled. *)
Definition traceback_print_exc (e : exn) : M page unit :=
  modify (fun s => set_outside
    {| net := net (outside s); files := files (outside s);
       objects := objects (outside s); traces := traces (outside s) ++ [e] |} s).

(** ** The style sheet, the animation and the theme *)

Definition local_css (file_path : string) : M page unit :=
  do found <- (fun s => (Ok (files (outside s) !! file_path), s)) ;;
  match found with
  | Some text => st_markdown ("<style>" +:+ text +:+ "</style>") true
  | None => st_warning ("⚠ CSS file not found: " +:+ file_path)
  end.

Definition load_lottieurl (url : string) : M page pyval :=
  do r <- on_net (requests_get url) ;;
  if negb (status_code r =? 200) then ret VNone
  else lift (json r).

Definition lottie_url : string :=
  "https://lottie.host/1a9342fa-35e1-4720-b66c-2ef8c6805ae0/2X4XZnDGBg.json".

Definition show_lottie : M page unit :=
  do lottie <- load_lottieurl lottie_url ;;
  if truthy lottie then st_lottie lottie 200 else ret tt.

Definition BACKEND_URL : string := "http://127.0.0.1:5000/ask".

Definition dark_style : string := "
        <style>
        body, .stApp { background-color: #1e1e1e; color: white; }
        .stTextInput > div > div > input, .stDataFrame { background-color: #2b2b2b; color: white; border: 1px solid #444; }
        .stSelectbox > div > div, .stButton > button { background-color: #3a3a3a; color: white; border: 1px solid #555; }
        h1, h2, h3, h4, h5, h6 { color: #f0f0f0; }
        .stMarkdown { color: #d0d0d0; }
        .stSidebar { background-color: #2a2a2a; }
        .css-1cpxqw2.e1tzin5v2 { background-color: #007bff; color: white; }
        </style>
        ".

Definition light_style : string := "
        <style>
        body, .stApp { background-color: white; color: black; }
        .stTextInput > div > div > input, .stDataFrame { background-color: white; color: black; border: 1px solid #ccc; }
        .stSelectbox > div > div, .stButton > button { background-color: #f0f0f0; color: black; border: 1px solid #ccc; }
        .stSidebar { background-color: #f8f8f8; }
        </style>
        ".

Definition apply_theme (theme_choice : option string) : M page unit :=
  if bool_decide (theme_choice = Some "Dark") then st_markdown dark_style true
  else st_markdown light_style true.

(** ** The answer shown *)

(** [name in df.columns] for a string [name]. *)
Definition has_column (name : string) (data : df) : bool :=
  existsb (fun c => match c with
                    | VStr col => bool_decide (col = name)
                    | _ => false
                    end) (df_columns data).

(** [bool(l)] for a list. *)
Definition nonempty {A} (l : list A) : bool :=
  match l with [] => false | _ => true end.

(** The test of the comprehension that collects the time columns:
    [isinstance(col, str) and ('date' in col.lower() or 'time' in
    col.lower())]. *)
Definition is_time_column (c : pyval) : option string :=
  match c with
  | VStr col =>
      if Str.contains (Str.lower col) "date" || Str.contains (Str.lower col) "time"
      then Some col else None
  | _ => None
  end.

(** [l.index(x)], when [x in l]. *)
Definition list_index (x : string) (l : list string) : option nat :=
  fst <$> list_find (fun y => y = x) l.

Definition px (kind : chart_kind) (data : df) (x y : pyval) (title : string) : figure :=
  {| fig_kind := kind; fig_data := data; fig_x := x; fig_y := y; fig_title := title |}.

Definition unbound_fig : exn :=
  Exn UnboundLocalError
    "cannot access local variable 'fig' where it is not associated with a value".

(** The chart drawn over the first time column, when the table has a
    time column, a numeric column and a row.  The position of
    [numeric_cols[0]] in [numeric_cols] is 0. *)
Definition auto_chart (w : widgets) (chart_type : option string)
    (df_for_charting : df) : M page unit :=
  let time_cols := omap is_time_column (df_columns df_for_charting) in
  let numeric_cols := df_number_columns df_for_charting in
  if nonempty time_cols && nonempty numeric_cols && negb (df_empty df_for_charting)
  then
    exec st_markdown "### 📈 Auto Chart" false ;;
    let default_x := head time_cols in
    let x_axis_index := default 0 (default_x ≫= fun x => list_index x time_cols) in
    let y_axis_index := 0 in
    do x_axis <- st_selectbox w "🗂 Select X-axis" (VStr <$> time_cols) x_axis_index ;;
    do y_axis <- st_selectbox w "📐 Select Y-axis" numeric_cols y_axis_index ;;
    do df_for_charting <- lift (df_to_datetime x_axis df_for_charting) ;;
    do df_chart_final <- lift (df_dropna x_axis df_for_charting) ;;
    if negb (df_empty df_chart_final) then
      do df_chart_final <- lift (df_sort_values x_axis df_chart_final) ;;
      do fig <-
        (if bool_decide (chart_type = Some "Line")
         then ret (px Line df_chart_final x_axis y_axis
                     (py_str y_axis +:+ " over " +:+ py_str x_axis))
         else if bool_decide (chart_type = Some "Bar")
         then ret (px Bar df_chart_final x_axis y_axis
                     (py_str y_axis +:+ " by " +:+ py_str x_axis))
         else if bool_decide (chart_type = Some "Area")
         then ret (px Area df_chart_final x_axis y_axis
                     (py_str y_axis +:+ " Area Chart over " +:+ py_str x_axis))
         else raise unbound_fig) ;;
      st_plotly_chart fig
    else st_info "ℹ No valid data points for charting after date conversion or filtering."
  else st_info "ℹ Not enough valid time and numeric columns or data to plot a chart.".

(** One of the two guarded filters: [try: if pattern and column in
    filtered_df.columns: ... except Exception as e: st.error(...)]. *)
Definition apply_filter (notice failure column pattern : string) (filtered_df : df)
    : M page df :=
  try_except
    (if negb (bool_decide (pattern = EmptyString)) && has_column column filtered_df
     then
       exec st_write notice ;;
       lift (df_filter_contains column (Str.lower pattern) filtered_df)
     else ret filtered_df)
    (fun e => exec st_error (failure +:+ exn_str e) ;; ret filtered_df).

(** The branch [if results:] of the request. *)
Definition show_results (w : widgets) (item_id_filter eligibility_filter : string)
    (chart_type : option string) (results : pyval) : M page unit :=
  do data <- lift (pd_DataFrame results) ;;
  do data <- (if has_column "item_id" data
              then lift (df_astype_str "item_id" data) else ret data) ;;
  do data <- (if has_column "message" data
              then lift (df_astype_str "message" data) else ret data) ;;
  let filtered_df := data in
  do filtered_df <-
    apply_filter "🛠 Applying Item ID filter..." "❌ Error applying Item ID filter: "
      "item_id" item_id_filter filtered_df ;;
  do filtered_df <-
    apply_filter "🛠 Applying Eligibility Message filter..."
      "❌ Error applying Message filter: " "message" eligibility_filter filtered_df ;;
  exec st_markdown "### 📋 Results Table" false ;;
  exec (if negb (df_empty filtered_df) then st_dataframe filtered_df
        else st_info "No results found after applying filters.") ;;
  let df_for_charting := filtered_df in
  auto_chart w chart_type df_for_charting.

(** ** The request *)

(** [res.raise_for_status()] *)
Definition raise_for_status (url : string) (res : http_response) : M page unit :=
  if (400 <=? status_code res) && (status_code res <? 500)
  then raise (Exn HTTPError (pretty (status_code res) +:+ " Client Error: " +:+
                reason res +:+ " for url: " +:+ url))
  else if (500 <=? status_code res) && (status_code res <? 600)
  then raise (Exn HTTPError (pretty (status_code res) +:+ " Server Error: " +:+
                reason res +:+ " for url: " +:+ url))
  else ret tt.

(** The three [except] clauses of the request. *)
Definition ask_failed (e : exn) : M page unit :=
  if bool_decide (exn_cls e = ConnectionError)
  then st_error "❌ Connection Error: Could not connect to the backend API. Please ensure it's running."
  else if is_request_exception e
  then st_error ("❌ API Request Error: " +:+ exn_str e)
  else
    exec st_error ("❌ An unexpected error occurred: " +:+ exn_str e) ;;
    exec st_exception e ;;
    traceback_print_exc e.

(** The block under [with st.spinner("Thinking...")]. *)
Definition ask (w : widgets) (item_id_filter eligibility_filter : string)
    (chart_type : option string) (query : string) : M page unit :=
  try_except
    (do res <- on_net (requests_post BACKEND_URL (VDict [("question", VStr query)])) ;;
     exec raise_for_status BACKEND_URL res ;;
     do data <- lift (json res) ;;
     do sql <- lift (py_get_default data "sql_query" (VStr EmptyString)) ;;
     do results <- lift (py_get_default data "results" (VList [])) ;;
     exec (if truthy sql
           then exec st_markdown "### 🧮 Generated SQL" false ;;
                st_code (py_str sql) "sql"
           else ret tt) ;;
     if truthy results
     then show_results w item_id_filter eligibility_filter chart_type results
     else st_warning "No results found for your query.")
    ask_failed.

(** ** [main_app] *)

Definition suggested_questions : list string :=
  ["🔹 Show total sales trend over time";
   "🔹 Compare ad sales vs ad spend by date";
   "🔹 Plot top 5 items by impressions";
   "🔹 What are the trends of clicks over time?";
   "🔹 Which items have the highest click-through rate (CTR)?";
   "🔹 How does conversion rate vary by weekday?";
   "🔹 Show return rate by product category";
   "🔹 Compare cost per click (CPC) across campaigns";
   "🔹 What are the top 5 products by revenue last month?";
   "🔹 How has customer acquisition changed over time?";
   "🔹 Which regions have the best performing ads?"].

Definition main_app (w : widgets) : M page unit :=
  exec st_title "🛒 E-commerce Data Agent" ;;
  exec show_lottie ;;
  exec st_markdown "### 📌 Suggested Questions" false ;;
  exec for_each suggested_questions (fun q => st_markdown q false) ;;
  exec st_sidebar_title "🌃 Theme & Filters" ;;
  do theme <- st_sidebar_radio w "🌃 Select Theme" ["Light"; "Dark"] ;;
  exec apply_theme theme ;;
  do item_id_filter <- st_sidebar_text_input w "🔍 Filter by Item ID (e.g., 29)" ;;
  do eligibility_filter <-
    st_sidebar_text_input w "🔍 Eligibility Message Contains (e.g., cost)" ;;
  do chart_type <- st_sidebar_selectbox w "📊 Chart Type" ["Line"; "Bar"; "Area"] ;;
  do query <- st_text_input w "### 💬 Enter your question" false
                "### 💬 Enter your question" ;;
  do clicked <- st_button w "Ask" "Ask" ;;
  if clicked then
    if bool_decide (query = EmptyString) then st_warning "Please enter a question."
    else
      exec st_spinner "Thinking..." ;;
      ask w item_id_filter eligibility_filter chart_type query
  else ret tt.

(** ** The script *)

(** [st.set_page_config(page_title=..., layout=...)] *)
Definition st_set_page_config (page_title layout : string) : M page unit :=
  render (PageConfig page_title layout).

(** [app.py] as Streamlit runs it: the page configuration (line 3),
    the style sheet (line 23) and the routing (lines 220 to 233),
    function definitions apart.  The imports have no effect on a run but
    the first one of [user_store], which creates [users.json]: the
    theorems take the store to be there. *)
Definition script (w : widgets) : M page unit :=
  exec st_set_page_config "E-commerce AI Agent" "wide" ;;
  exec local_css "style.css" ;;
  routing main_app w.

End page.
End Dashboard.

Import Dashboard.

(** ** Facts *)

Section facts.
Context {C : CredentialStore} {L : CredentialLaws C} {N : Network} {P : Pandas}.
Implicit Types (s : page) (w : widgets).

(** What the main page must leave alone: the session and the store. *)
Definition kept (s : page) : gmap string pyval * cs_state :=
  (session_state s, users s).

(** The state of the network. *)
Definition wire (s : page) : net_state := net (outside s).

(** Unfolds the elements of the page down to [render] and [modify]. *)
Ltac page_unfold :=
  unfold st_title, st_markdown, st_warning, st_info, st_write, st_code,
    st_exception, st_spinner, st_lottie, st_sidebar_title, st_sidebar_radio,
    st_sidebar_text_input, st_sidebar_selectbox, st_selectbox, st_dataframe,
    st_plotly_chart, traceback_print_exc, st_set_page_config, st_text_input,
    st_button, st_error, st_success, st_subheader, render.

(** Solves [preserves g c] for an observation [g] that the leaves of
    [c] do not touch. *)
Ltac frame :=
  page_unfold; cbv zeta;
  repeat first
    [ progress cbn beta iota
    | rewrite bool_decide_eq_true_2 by done
    | preserves_step
    | solve [auto with py nocore]
    | apply preserves_modify; intros ?; reflexivity
    | intros ?; reflexivity ].

Lemma on_net_kept {A} (c : M net_state A) : preserves kept (on_net c).
Proof. by apply zoom_preserves. Qed.
#[local] Hint Resolve on_net_kept : py.

Lemma load_lottieurl_kept url : preserves kept (load_lottieurl url).
Proof. unfold load_lottieurl. frame. Qed.
#[local] Hint Resolve load_lottieurl_kept : py.

Lemma show_lottie_kept : preserves kept show_lottie.
Proof. unfold show_lottie. frame. Qed.

Lemma apply_theme_kept theme : preserves kept (apply_theme theme).
Proof. unfold apply_theme. frame. Qed.

Lemma local_css_kept path : preserves kept (local_css path).
Proof. unfold local_css. frame. Qed.

Lemma auto_chart_kept w chart_type data : preserves kept (auto_chart w chart_type data).
Proof. unfold auto_chart. frame. Qed.

Lemma apply_filter_kept notice failure column pattern data :
  preserves kept (apply_filter notice failure column pattern data).
Proof. unfold apply_filter. frame. Qed.
#[local] Hint Resolve show_lottie_kept apply_theme_kept local_css_kept
  auto_chart_kept apply_filter_kept : py.

Lemma show_results_kept w f1 f2 chart_type results :
  preserves kept (show_results w f1 f2 chart_type results).
Proof. unfold show_results. frame. Qed.

Lemma raise_for_status_kept url res : preserves kept (raise_for_status url res).
Proof. unfold raise_for_status. frame. Qed.
#[local] Hint Resolve show_results_kept raise_for_status_kept : py.

Lemma ask_kept w f1 f2 chart_type query : preserves kept (ask w f1 f2 chart_type query).
Proof. unfold ask, ask_failed. frame. Qed.
#[local] Hint Resolve ask_kept : py.

(** The main page leaves the session and the credential store as they
    are. *)
Lemma main_app_kept w : preserves kept (main_app w).
Proof. unfold main_app. frame. Qed.


(** *** The invariant of the script *)

Lemma kept_inv s s' : kept s' = kept s -> inv s -> inv s'.
Proof.
  intros [= Hs Hu]. unfold inv, authenticated, names_account.
  by rewrite Hs, Hu.
Qed.

Lemma main_app_inv w s : inv s -> inv (snd (main_app w s)).
Proof. apply kept_inv, main_app_kept. Qed.

(** The style sheet is rendered, or a warning in its place. *)
Lemma local_css_ok path s :
  exists s', local_css path s = (Ok tt, s') /\ kept s' = kept s.
Proof.
  unfold local_css, bind. cbn beta iota.
  destruct (files (outside s) !! path); by eexists.
Qed.

(** The script is the routing, run after the page configuration and the
    style sheet. *)
Lemma script_run w s :
  exists s1, script w s = routing main_app w s1 /\ kept s1 = kept s.
Proof.
  unfold script, st_set_page_config, render, modify, bind at 1 2. cbn beta iota.
  destruct (local_css_ok "style.css"
              {| session_state := session_state s; users := users s;
                 outside := outside s;
                 rendered := rendered s ++ [PageConfig "E-commerce AI Agent" "wide"] |})
    as (s1 & -> & Hk).
  by exists s1.
Qed.

Lemma script_inv w s : inv s -> inv (snd (script w s)).
Proof.
  intros H. destruct (script_run w s) as (s1 & -> & Hk).
  by apply (routing_inv main_app main_app_inv), (kept_inv s).
Qed.

(** The page as a run of the script finds it: what the last run
    rendered is gone. *)
Definition cleared s : page :=
  {| session_state := session_state s; users := users s; outside := outside s;
     rendered := [] |}.

(** The browser: the user acts, [app.py] runs once. *)
Inductive browse : page -> page -> Prop :=
| browse_run w s : browse s (snd (script w (cleared s))).

Lemma browse_inv s s' : browse s s' -> inv s -> inv s'.
Proof. intros [w s0] H. by apply script_inv, (kept_inv s0). Qed.

(** C13. In every state the browser reaches from a fresh session over a
    store that is there, an authenticated session names a user that has
    an account: nobody reaches the main page without a validated
    login. *)
Theorem script_reachable_inv u e s :
  is_Some (cs_accounts u) -> rtc browse (fresh u e) s -> inv s.
Proof.
  intros Hu Hr. assert (inv (fresh u e)) as Hi.
  { split; [done |]. unfold authenticated, fresh. cbn [session_state].
    by rewrite lookup_empty. }
  induction Hr; eauto using browse_inv.
Qed.


(** *** The request *)

Lemma render_run e s :
  render e s = (Ok tt, {| session_state := session_state s; users := users s;
                          outside := outside s; rendered := rendered s ++ [e] |}).
Proof. reflexivity. Qed.

(** Each [except] clause renders an error and returns. *)
Lemma ask_failed_never_raises e : never_raises (ask_failed e).
Proof. intros s. unfold ask_failed. by repeat case_match. Qed.

(** C28. No exception escapes the request: whatever the network, the
    back end or pandas raise, the block under the spinner returns. *)
Theorem ask_never_raises w f1 f2 chart_type query :
  never_raises (ask w f1 f2 chart_type query).
Proof. apply try_except_never_raises, ask_failed_never_raises. Qed.


(** The page once the network has moved to [n]. *)
Definition with_net (n : net_state) s : page := set_outside (set_net n (outside s)) s.

(** The page with one more element. *)
Definition showing (e : element) s : page :=
  {| session_state := session_state s; users := users s; outside := outside s;
     rendered := rendered s ++ [e] |}.

(** The request the page posts for a question. *)
Definition post_question (query : string) : M net_state http_response :=
  requests_post BACKEND_URL (VDict [("question", VStr query)]).

Lemma ask_post_raises w f1 f2 chart_type query s e n :
  post_question query (wire s) = (Raise e, n) ->
  ask w f1 f2 chart_type query s = ask_failed e (with_net n s).
Proof.
  intros H. unfold ask, try_except, bind at 1, on_net, zoom.
  unfold post_question, wire in H. by rewrite H.
Qed.

(** The message of the [HTTPError] for a status. *)
Definition status_error (res : http_response) : exn :=
  Exn HTTPError
    (pretty (status_code res) +:+
     (if status_code res <? 500 then " Client Error: " else " Server Error: ") +:+
     reason res +:+ " for url: " +:+ BACKEND_URL).

Lemma raise_for_status_error res s :
  400 <= status_code res < 600 ->
  raise_for_status BACKEND_URL res s = (Raise (status_error res), s).
Proof.
  intros [H1 H2]. unfold raise_for_status, status_error.
  apply Nat.leb_le in H1 as ->. cbn [andb].
  destruct (status_code res <? 500) eqn:E; [done |].
  apply Nat.ltb_ge, Nat.leb_le in E as ->. by apply Nat.ltb_lt in H2 as ->.
Qed.

Lemma ask_post_status w f1 f2 chart_type query s res n :
  post_question query (wire s) = (Ok res, n) ->
  400 <= status_code res < 600 ->
  ask w f1 f2 chart_type query s = ask_failed (status_error res) (with_net n s).
Proof.
  intros H Hs. unfold ask, try_except, bind at 1, on_net, zoom.
  unfold post_question, wire in H. rewrite H. cbn beta iota.
  unfold bind at 1. by rewrite raise_for_status_error.
Qed.

(** When the back end cannot be reached, the page shows the
    connection error and nothing else. *)
Theorem ask_connection_error w f1 f2 chart_type query s e n :
  post_question query (wire s) = (Raise e, n) ->
  exn_cls e = ConnectionError ->
  ask w f1 f2 chart_type query s =
  (Ok tt, showing (Error "❌ Connection Error: Could not connect to the backend API. Please ensure it's running.")
            (with_net n s)).
Proof.
  intros H He. rewrite (ask_post_raises _ _ _ _ _ _ _ _ H). unfold ask_failed.
  by rewrite bool_decide_eq_true_2.
Qed.

(** An answer with a status from 400 to 599 is shown as a request
    error with the status line; the body of the answer is not read. *)
Theorem ask_http_error w f1 f2 chart_type query s res n :
  post_question query (wire s) = (Ok res, n) ->
  400 <= status_code res < 600 ->
  ask w f1 f2 chart_type query s =
  (Ok tt, showing (Error ("❌ API Request Error: " +:+ exn_str (status_error res)))
            (with_net n s)).
Proof.
  intros H Hs. by rewrite (ask_post_status _ _ _ _ _ _ _ _ H Hs).
Qed.

(** *** The main page *)

Lemma show_lottie_raises s e n :
  requests_get lottie_url (wire s) = (Raise e, n) ->
  show_lottie s = (Raise e, with_net n s).
Proof.
  intros H. unfold show_lottie, load_lottieurl, bind, on_net, zoom.
  unfold wire in H. by rewrite H.
Qed.

Lemma show_lottie_wire s :
  wire (snd (show_lottie s)) = snd (requests_get lottie_url (wire s)).
Proof.
  unfold show_lottie, load_lottieurl, bind, on_net, zoom, wire, lift, ret.
  destruct (requests_get _ _) as [[r | e] n]; [| done]. cbn beta iota.
  destruct (negb _); cbn beta iota; [done |].
  destruct (json r) as [v | e]; cbn beta iota; [by destruct (truthy v) | done].
Qed.

(** C27. Without a question the page posts nothing: when Ask was not
    pressed, or the question field is empty, the only request of the run
    is the one for the animation. *)
Theorem main_app_posts_nothing w s :
  pressed w "Ask" = false \/ text_value w "### 💬 Enter your question" = EmptyString ->
  wire (snd (main_app w s)) = snd (requests_get lottie_url (wire s)).
Proof.
  intros H. unfold main_app, st_title.
  rewrite (bind_run _ _ _ _ _ (render_run _ s)). cbn beta.
  rewrite (bind_preserved wire); [by rewrite show_lottie_wire |].
  intros _. page_unfold. unfold apply_theme.
  destruct H as [-> | ->]; frame.
Qed.

(** C29. The animation is fetched outside of any [try]: when the
    request for it raises, the main page raises after its title, and
    nothing else of the page is rendered. *)
Theorem main_app_lottie_escapes w s e n :
  requests_get lottie_url (wire s) = (Raise e, n) ->
  main_app w s =
  (Raise e, with_net n (showing (Title "🛒 E-commerce Data Agent") s)).
Proof.
  intros H. unfold main_app, st_title.
  rewrite (bind_run _ _ _ _ _ (render_run _ s)). cbn beta.
  by rewrite (bind_run_raise _ _ _ _ _
                (show_lottie_raises (showing (Title "🛒 E-commerce Data Agent") s) _ _ H)).
Qed.

End facts.

(** *** Rows without column names *)

Section unnamed.
Context {C : CredentialStore} {N : Network} {P : Pandas}.
Implicit Types (s : page) (w : widgets) (data : df).

(** No column of the table is named by a string: the labels are the
    positions pandas gives to rows that come without names. *)
Definition unnamed data : Prop :=
  Forall (fun c => forall name, c <> VStr name) (df_columns data).

Lemma has_column_unnamed name data : unnamed data -> has_column name data = false.
Proof.
  unfold unnamed, has_column. induction 1 as [| c l Hc _ IH]; [done |].
  cbn [existsb]. rewrite IH, orb_false_r. destruct c; try done.
  by destruct (Hc s).
Qed.

Lemma time_columns_unnamed data :
  unnamed data -> omap is_time_column (df_columns data) = [].
Proof.
  unfold unnamed. induction 1 as [| c l Hc _ IH]; [done |].
  cbn [omap list_omap]. rewrite IH. destruct c; try done. by destruct (Hc s).
Qed.

Lemma apply_filter_unnamed notice failure column pattern data s :
  unnamed data ->
  apply_filter notice failure column pattern data s = (Ok data, s).
Proof.
  intros H. unfold apply_filter, try_except.
  by rewrite has_column_unnamed, andb_false_r.
Qed.

Lemma auto_chart_unnamed w chart_type data s :
  unnamed data ->
  auto_chart w chart_type data s =
  (Ok tt, showing (Info "ℹ Not enough valid time and numeric columns or data to plot a chart.") s).
Proof. intros H. unfold auto_chart. by rewrite time_columns_unnamed. Qed.

(** The page after the table, or the notice that it is empty, is
    shown under its heading. *)
Definition tabled data s : page :=
  snd ((if negb (df_empty data) then st_dataframe data
        else st_info "No results found after applying filters.")
         (showing (Markdown "### 📋 Results Table" false) s)).

(** Rows that come without column names are shown as a table and
    nothing more: no filter is applied, whatever the user typed, and no
    chart is drawn. *)
Theorem show_results_unnamed w f1 f2 chart_type results data s :
  pd_DataFrame results = Ok data -> unnamed data ->
  show_results w f1 f2 chart_type results s =
  (Ok tt, showing (Info "ℹ Not enough valid time and numeric columns or data to plot a chart.")
            (tabled data s)).
Proof.
  intros Hd Hu. unfold show_results. rewrite Hd, lift_Ok, bind_ret_l.
  rewrite (has_column_unnamed _ _ Hu), bind_ret_l.
  rewrite (has_column_unnamed _ _ Hu), bind_ret_l. cbv zeta.
  rewrite (bind_run _ _ _ _ _ (apply_filter_unnamed _ _ _ _ _ _ Hu)). cbn beta.
  rewrite (bind_run _ _ _ _ _ (apply_filter_unnamed _ _ _ _ _ _ Hu)). cbn beta.
  unfold st_markdown at 1.
  rewrite (bind_run _ _ _ _ _ (render_run (Markdown "### 📋 Results Table" false) s)).
  cbn beta.
  unfold tabled.
  match goal with |- bind ?c _ ?s1 = _ =>
    assert (exists s2, c s1 = (Ok tt, s2)) as [s2 E]
      by (destruct (negb _); by eexists)
  end.
  rewrite (bind_run _ _ _ _ _ E). unfold showing at 2. rewrite E.
  by rewrite auto_chart_unnamed.
Qed.


Lemma on_net_run {A} (c : M net_state A) s r n :
  c (wire s) = (r, n) -> on_net c s = (r, with_net n s).
Proof. intros H. unfold on_net, zoom. unfold wire in H. by rewrite H. Qed.

Lemma raise_for_status_ok url res s :
  status_code res < 400 -> raise_for_status url res s = (Ok tt, s).
Proof.
  intros H. unfold raise_for_status.
  assert ((400 <=? status_code res) = false) as -> by (apply Nat.leb_gt; lia).
  assert ((500 <=? status_code res) = false) as -> by (apply Nat.leb_gt; lia). done.
Qed.

(** An answer whose rows come without column names, and without
    the key [sql_query], is shown as a table and nothing more: the
    section for the generated SQL, the filters and the chart stay
    out. *)
Theorem ask_shows_table w f1 f2 chart_type query s res n body sql results data :
  post_question query (wire s) = (Ok res, n) ->
  status_code res < 400 -> json res = Ok body ->
  py_get_default body "sql_query" (VStr EmptyString) = Ok sql -> truthy sql = false ->
  py_get_default body "results" (VList []) = Ok results -> truthy results = true ->
  pd_DataFrame results = Ok data -> unnamed data ->
  ask w f1 f2 chart_type query s =
  (Ok tt, showing (Info "ℹ Not enough valid time and numeric columns or data to plot a chart.")
            (tabled data (with_net n s))).
Proof.
  intros Hp Hs Hj Hq Hq' Hr Hr' Hd Hu. unfold ask. apply try_except_run.
  rewrite (bind_run _ _ _ _ _ (on_net_run _ _ _ _ Hp)). cbn beta.
  rewrite (bind_run _ _ _ _ _ (raise_for_status_ok _ _ _ Hs)). cbn beta.
  rewrite Hj, lift_Ok, bind_ret_l, Hq, lift_Ok, bind_ret_l, Hr, lift_Ok, bind_ret_l.
  rewrite Hq', bind_ret_l, Hr'.
  by apply show_results_unnamed.
Qed.

End unnamed.
