(* ===== verification/System.v ===== *)
(** * The whole system: the page in front of the back end

    The page of [app.py] posts its question to the handler of [main.py].
    This file wires the two: [local_backend] is the network as the page
    finds it when the back end runs on the same machine, Flask turning a
    response of the handler into an HTTP response.  [PandasLaws] states
    the one fact about pandas the system depends on: a table built from
    rows that carry no names has positions for column labels.

    The theorems follow a question from the press of Ask to what is
    rendered, through every component of the development. *)

From stdpp Require Import base strings gmap pretty relations.
From S2P Require Import Prelude PyString PyValue Gemini QueryEngine Api UserStore App Dashboard.
Import Gemini QueryEngine Http Api App Dashboard.

#[local] Open Scope py_scope.

Module System.

(** ** Flask and [requests] between the page and the handler *)

Section wiring.
Context {model : CompletionService} {store : SqlStore}.

(** The reason phrase of a status the handler answers with. *)
Definition reason_phrase (code : nat) : string :=
  if code =? 200 then "OK"
  else if code =? 400 then "BAD REQUEST"
  else if code =? 500 then "INTERNAL SERVER ERROR"
  else EmptyString.

(** The response [requests] sees for a response of the handler. *)
Definition delivered (r : response) : http_response :=
  {| status_code := status r; reason := reason_phrase (status r);
     json := Ok (body r) |}.

(** What Flask answers when a handler raises: status 500 with a page
    that is not JSON. *)
Definition crashed : http_response :=
  {| status_code := 500; reason := reason_phrase 500;
     json := Raise (Exn JSONDecodeError "Expecting value: line 1 column 1 (char 0)") |}.

Definition refused : exn :=
  Exn ConnectionError "HTTPConnectionPool: Max retries exceeded".

(** A POST of a JSON body to the back end, served by [handler]. *)
Definition serve (handler : request -> M server response) (body : pyval)
    : M server http_response :=
  fun s => match handler {| request_json := Ok body |} s with
           | (Ok r, s') => (Ok (delivered r), s')
           | (Raise _, s') => (Ok crashed, s')
           end.

(** The network as the page finds it when [main.py] is running on the
    same machine and nothing else is reachable. *)
#[export] Instance local_backend : Network := {|
  net_state := server;
  requests_get := fun _ => raise refused;
  requests_post := fun url body =>
    if bool_decide (url = BACKEND_URL) then serve MainPy.ask_question body
    else raise refused;
|}.

End wiring.

(** pandas builds a table from a list of lists with the positions as
    column labels. *)
Class PandasLaws (P : Pandas) : Prop := {
  frame_of_rows (rows : list (list pyval)) :
    exists data, pd_DataFrame (VList (VList <$> rows)) = Ok data
                 /\ unnamed data;
}.

Section system.
Context {model : CompletionService} {store : SqlStore} {C : CredentialStore}
  {P : Pandas} {PL : PandasLaws P}.
Implicit Types (s : @page C local_backend P) (w : widgets) (query : string).

(** The rows of a JSON answer are lists. *)
Lemma to_json_rows (rows : list row) :
  to_json (VList (VTuple <$> rows)) = VList (VList <$> (map to_json <$> rows)).
Proof.
  cbn [to_json]. f_equal. induction rows as [| r rows IH]; [done |].
  cbn [fmap list_fmap map to_json]. by f_equal.
Qed.

Lemma rows_for_is_rows q (b : server) : is_rows (rows_for q b).
Proof. unfold rows_for. rewrite run_query_ref_eq. apply run_query_ref_is_rows. Qed.

(** What the back end answers to the page's request. *)
Lemma post_question_run query (b : server) :
  query <> EmptyString -> jsonable (rows_for (VStr query) b) = true ->
  post_question query b =
  (Ok (delivered (answer (VStr query) (rows_for (VStr query) b))), asked (VStr query) b).
Proof.
  intros Hq Hj. unfold post_question, requests_post, local_backend.
  rewrite (bool_decide_eq_true_2 (BACKEND_URL = BACKEND_URL)) by done. unfold serve.
  rewrite main_ask_question_run, (main_ref_question _ _ (VStr query)).
  - by rewrite Hj.
  - unfold question_of. cbn [request_json]. rewrite dict_lookup_cons_eq.
    cbn [default from_option id truthy]. by rewrite bool_decide_eq_false_2.
Qed.

(** C17. The back end never sends the key [sql_query] the page looks
    for: whatever the body posted, the answer is a JSON object without
    it, so the section that shows the generated SQL is never
    rendered. *)
Theorem backend_never_sends_sql (posted : pyval) (b : server) :
  exists res b',
    requests_post (Network := local_backend) BACKEND_URL posted b = (Ok res, b')
    /\ exists data,
         json res = Ok data
         /\ py_get_default data "sql_query" (VStr EmptyString) = Ok (VStr EmptyString).
Proof.
  unfold requests_post, local_backend.
  rewrite (bool_decide_eq_true_2 (BACKEND_URL = BACKEND_URL)) by done. unfold serve.
  rewrite main_ask_question_run. eexists _, _. split; [done |].
  unfold main_ref, delivered. cbn [json]. repeat case_match; by eexists.
Qed.

(** C11. The whole system on a question: the page posts it, the back
    end runs the pipeline, and the user is shown the rows as a table,
    be they data or the row of an error, and the notice that no chart
    can be drawn.  The rows come without column names, so neither a
    filter nor a chart ever applies. *)
Theorem dashboard_answer w f1 f2 chart_type query s :
  query <> EmptyString ->
  jsonable (rows_for (VStr query) (wire s)) = true ->
  exists data,
    pd_DataFrame (to_json (rows_for (VStr query) (wire s))) = Ok data
    /\ ask (N := local_backend) w f1 f2 chart_type query s =
       (Ok tt, showing (Info "ℹ Not enough valid time and numeric columns or data to plot a chart.")
                 (tabled data (with_net (asked (VStr query) (wire s)) s))).
Proof.
  intros Hq Hj.
  destruct (rows_for_is_rows (VStr query) (wire s)) as (rows & Hr & Hne).
  destruct (frame_of_rows (map to_json <$> rows)) as (data & Hd & Hu).
  rewrite <- to_json_rows, <- Hr in Hd. exists data. split; [done |].
  apply (ask_shows_table w f1 f2 chart_type query s
           (delivered (answer (VStr query) (rows_for (VStr query) (wire s))))
           (asked (VStr query) (wire s))
           (body (answer (VStr query) (rows_for (VStr query) (wire s))))
           (VStr EmptyString) (to_json (rows_for (VStr query) (wire s))) data);
    try done.
  - by apply post_question_run.
  - cbn. lia.
  - rewrite Hr, to_json_rows. by destruct rows.
Qed.

End system.

(** ** Witnesses *)

(** A table is its rows; the columns are numbered up to the width of
    the widest row. *)
Definition row_width (r : pyval) : nat :=
  match r with VList cells => length cells | _ => 1 end.

Definition demo_columns (rows : list pyval) : list pyval :=
  (fun i => VInt (Z.of_nat i)) <$> seq 0 (foldr Nat.max 0 (row_width <$> rows)).

Definition demo_pandas : Pandas := {|
  df := list pyval;
  pd_DataFrame := fun v =>
    match v with
    | VList rows => Ok rows
    | _ => Raise (Exn ValueError "DataFrame constructor not properly called!")
    end;
  df_columns := demo_columns;
  df_empty := fun rows => match rows with [] => true | _ => false end;
  df_astype_str := fun _ rows => Ok rows;
  df_filter_contains := fun _ _ rows => Ok rows;
  df_number_columns := fun _ => [];
  df_to_datetime := fun _ rows => Ok rows;
  df_dropna := fun _ rows => Ok rows;
  df_sort_values := fun _ rows => Ok rows;
|}.

Lemma demo_pandas_laws : PandasLaws demo_pandas.
Proof.
  split. intros rows. eexists. split; [done |].
  apply Forall_fmap, Forall_forall. by intros i _ name.
Qed.

(** The back end of the witnesses: the scripted service and the demo
    store behind [main.py]. *)
Definition demo_backend : Network :=
  local_backend (model := scripted_service) (store := demo_store).

Definition demo_page (script : list (result string)) (db_files : list string)
    : @page user_store demo_backend demo_pandas :=
  fresh (C := user_store) (Some ∅)
    (Build_ambient (N := demo_backend) (P := demo_pandas)
       (demo_server script db_files) ∅ [] []).

Definition asking : widgets :=
  typed [("### 💬 Enter your question", "Show total sales trend over time")] ["Ask"] "Login".

Definition sales_page : @page user_store demo_backend demo_pandas :=
  demo_page [Ok plain_completion] [default_db_path].

Definition sales_question : string := "Show total sales trend over time".

Lemma dashboard_answer_witness :
  exists data,
    pd_DataFrame (Pandas := demo_pandas)
      (to_json (rows_for (VStr sales_question) (wire sales_page))) = Ok data
    /\ ask asking EmptyString EmptyString (Some "Line") sales_question sales_page =
       (Ok tt, showing (Info "ℹ Not enough valid time and numeric columns or data to plot a chart.")
                 (tabled data
                    (with_net (C := user_store) (N := demo_backend) (P := demo_pandas)
                       (asked (VStr sales_question) (wire sales_page))
                       sales_page))).
Proof.
  apply (dashboard_answer (PL := demo_pandas_laws) asking EmptyString EmptyString
           (Some "Line") sales_question sales_page);
    [discriminate | vm_compute; reflexivity].
Defined.

(** The animation as its host serves it. *)
Definition animation : http_response :=
  {| status_code := 200; reason := reason_phrase 200;
     json := Ok (VDict [("v", VStr "5.5.7"); ("layers", VList [])]) |}.

(** The network of a machine that reaches the host of the animation as
    well as the back end. *)
Definition online_backend : Network := {|
  net_state := @net_state demo_backend;
  requests_get := fun url =>
    if bool_decide (url = lottie_url) then ret animation else raise refused;
  requests_post := @requests_post demo_backend;
|}.

Definition online_page : @page user_store online_backend demo_pandas :=
  fresh (C := user_store) (Some one_account)
    (Build_ambient (N := online_backend) (P := demo_pandas)
       (demo_server [Ok plain_completion] [default_db_path]) ∅ [] []).

(** Ask is pressed on an empty question field. *)
Definition empty_question : widgets := typed [] ["Ask"] "Login".

(** The run goes past the animation to the Ask button, renders the
    warning and ends; the back end has seen nothing. *)
Lemma main_app_posts_nothing_witness :
  fst (main_app empty_question online_page) = Ok tt
  /\ last (rendered (snd (main_app empty_question online_page))) =
     Some (Warning "Please enter a question.")
  /\ wire (snd (main_app empty_question online_page)) =
     snd (requests_get lottie_url (wire online_page)).
Proof.
  split_and!; [vm_compute; reflexivity | vm_compute; reflexivity |].
  apply (main_app_posts_nothing (C := user_store) (N := online_backend) (P := demo_pandas)
           empty_question online_page).
  right. reflexivity.
Defined.

Lemma main_app_lottie_escapes_witness :
  main_app asking sales_page =
  (Raise refused,
   with_net (C := user_store) (N := demo_backend) (P := demo_pandas)
     (wire sales_page) (showing (Title "🛒 E-commerce Data Agent") sales_page)).
Proof.
  apply (main_app_lottie_escapes (C := user_store) (N := demo_backend) (P := demo_pandas)
           asking sales_page refused (wire sales_page)).
  reflexivity.
Defined.

(** Alice has an account and logs in: the session the run leaves is
    authenticated and names her; the next run shows her the main
    page. *)
Definition member_page : @page user_store demo_backend demo_pandas :=
  fresh (C := user_store) (Some one_account) (outside sales_page).

Definition logged_in : @page user_store demo_backend demo_pandas :=
  snd (script alice_login (cleared member_page)).

Lemma script_reachable_inv_witness :
  authenticated logged_in = true
  /\ inv logged_in
  /\ inv (snd (script asking (cleared logged_in))).
Proof.
  split_and!; [vm_compute; reflexivity | |];
    apply (script_reachable_inv (C := user_store) (N := demo_backend) (P := demo_pandas)
             (Some one_account) (outside sales_page));
    try (by eexists).
  - apply rtc_once, (browse_run alice_login member_page).
  - eapply rtc_l; [apply (browse_run alice_login member_page) |].
    apply rtc_once, (browse_run asking logged_in).
Defined.

End System.
