(* ===== verification/DbLoader.v ===== *)
(** * Ingestion of the CSV files: [db_loader.py]

    [load_and_store_csv] reads a CSV file into a table, cleans it,
    converts the date columns and stores the table in the database,
    replacing the one of the same name.  [clean_dataframe] normalises
    the column names, drops the columns and then the rows that hold no
    value, and fills what is still missing with the empty string.

    A table is its column names and its rows; a cell is a value or
    missing (pandas' NaN).  The three pandas operations of
    [clean_dataframe] are defined on that table.  Reading a file,
    parsing a date and writing a table belong to pandas and SQLAlchemy:
    the files parsed and the tables stored are the state [disk], and the
    parsing of a date is the interface [Dates].  Column names are taken
    to be distinct where a column is assigned by name, and file names to
    be relative.

    The theorems: [clean_dataframe] returns a well-formed, complete
    table with names in normal form and is idempotent; what
    [load_and_store_csv] does on both of its paths; the script keeps the
    database sound and creates the schema the prompt of [Gemini]
    describes. *)

From Stdlib Require Import Ascii.
From stdpp Require Import base strings gmap pretty.
From S2P Require Import Prelude PyString PyValue Gemini.

#[local] Open Scope py_scope.

Module DbLoader.

(** ** Tables *)

(** A cell: [None] is a missing value. *)
Abbreviation cell := (option pyval).

Record dataframe : Type := {
  columns : list string;
  rows : list (list cell);
}.

(** [pd.isna(c)] *)
Definition isna (c : cell) : bool :=
  match c with None => true | Some _ => false end.

(** The elements of [l] at the positions [mask] keeps. *)
Fixpoint select {A} (mask : list bool) (l : list A) : list A :=
  match mask, l with
  | keep :: mask', x :: l' => if keep then x :: select mask' l' else select mask' l'
  | _, _ => []
  end.

(** Whether column [j] holds a value in some row. *)
Definition has_value (table : list (list cell)) (j : nat) : bool :=
  existsb (fun r => negb (isna (default None (r !! j)))) table.

(** [df.dropna(axis=1, how='all', inplace=True)] *)
Definition dropna_columns (df : dataframe) : dataframe :=
  let mask := has_value (rows df) <$> seq 0 (length (columns df)) in
  {| columns := select mask (columns df); rows := select mask <$> rows df |}.

(** [df.dropna(axis=0, how='all', inplace=True)] *)
Definition dropna_rows (df : dataframe) : dataframe :=
  {| columns := columns df;
     rows := List.filter (fun r => negb (forallb isna r)) (rows df) |}.

(** [df.fillna(value=v, inplace=True)] *)
Definition fillna (v : pyval) (df : dataframe) : dataframe :=
  {| columns := columns df;
     rows := (fun r : list cell => (fun c => Some (default v c)) <$> r) <$> rows df |}.

(** [name.strip().lower().replace(" ", "_")], what the chain of [.str]
    accessors does to each column name. *)
Definition normalize (name : string) : string :=
  Str.replace (Str.lower (Str.strip name)) " " "_".

Definition clean_dataframe (df : dataframe) : dataframe :=
  let df := {| columns := normalize <$> columns df; rows := rows df |} in
  let df := dropna_columns df in
  let df := dropna_rows df in
  let df := fillna (VStr EmptyString) df in
  df.

(** ** Files, dates and the database *)

Class Dates : Type := {
  (** [pd.to_datetime(c, format=f, errors='coerce').date()] on one cell:
      missing when the text does not parse *)
  to_date : string -> cell -> cell;
}.

(** The directory [data] as [read_csv] parses it, the directory
    [database], the tables of [ecommerce.db] and the lines printed. *)
Record disk : Type := {
  data_files : gmap string dataframe;
  database_dir : bool;
  tables : gmap string dataframe;
  stdout : list string;
}.

Section loader.
Context {D : Dates}.

(** [os.makedirs("database", exist_ok=True)] and [create_engine], run
    when the module is imported. *)
Definition import_db_loader : M disk unit :=
  modify (fun d => {| data_files := data_files d; database_dir := true;
                      tables := tables d; stdout := stdout d |}).

(** [print(line)]: the line is recorded. *)
Definition print (line : string) : M disk unit :=
  modify (fun d => {| data_files := data_files d; database_dir := database_dir d;
                      tables := tables d; stdout := stdout d ++ [line] |}).

(** [os.path.join("data", filename)] *)
Definition os_path_join (dir filename : string) : string :=
  dir +:+ "/" +:+ filename.

(** [pd.read_csv(filepath, encoding="ISO-8859-1")]: the table of the
    file, or [FileNotFoundError]; a file that does not parse is not
    modelled. *)
Definition read_csv (filepath : string) : M disk dataframe :=
  fun d => match data_files d !! filepath with
           | Some df => (Ok df, d)
           | None =>
               (Raise (Exn FileNotFoundError
                         ("[Errno 2] No such file or directory: '" +:+ filepath +:+ "'")), d)
           end.

(** [df[col] = f(df[col])], cell by cell. *)
Definition assign_column (col : string) (f : cell -> cell) (df : dataframe) : dataframe :=
  {| columns := columns df;
     rows := (fun r => (fun '(name, c) => if bool_decide (name = col) then f c else c)
                       <$> zip (columns df) r) <$> rows df |}.

(** [df.to_sql(table_name, engine, index=False, if_exists="replace")]:
    the table replaces the one of that name.  Every table is accepted;
    SQLAlchemy's refusal of two columns of one name is not modelled. *)
Definition to_sql (table_name : string) (df : dataframe) : M disk unit :=
  modify (fun d => {| data_files := data_files d; database_dir := database_dir d;
                      tables := <[table_name := df]> (tables d); stdout := stdout d |}).

(** The loop [for col in date_columns: if col in df.columns: ...]. *)
Fixpoint convert_dates (date_columns : list string) (date_format : string)
    (df : dataframe) : dataframe :=
  match date_columns with
  | [] => df
  | col :: rest =>
      convert_dates rest date_format
        (if bool_decide (col ∈ columns df)
         then assign_column col (to_date date_format) df else df)
  end.

(** [if date_columns and date_format: ...]: the conversion runs when a
    list that is not empty and a format that is not empty are given. *)
Definition convert_if_given (date_columns : option (list string))
    (date_format : option string) (df : dataframe) : dataframe :=
  match date_columns, date_format with
  | Some (col :: cols), Some (String c f) =>
      convert_dates (col :: cols) (String c f) df
  | _, _ => df
  end.

(** The two lines [load_and_store_csv] prints. *)
Definition processing_line (filepath table_name : string) : string :=
  "Processing " +:+ filepath +:+ " → table `" +:+ table_name +:+ "`...".

Definition loaded_line (table_name : string) (df : dataframe) : string :=
  "✅ Loaded `" +:+ table_name +:+ "` (" +:+ pretty (length (rows df)) +:+ " rows)".

Definition load_and_store_csv (filename table_name : string)
    (date_columns : option (list string)) (date_format : option string)
    : M disk unit :=
  let filepath := os_path_join "data" filename in
  exec print (processing_line filepath table_name) ;;
  do df <- read_csv filepath ;;
  let df := clean_dataframe df in
  let df := convert_if_given date_columns date_format df in
  exec to_sql table_name df ;;
  print (loaded_line table_name df).

(** The statements under [if __name__ == "__main__"]. *)
Definition main : M disk unit :=
  exec load_and_store_csv "Product-Level Eligibility Table.csv" "eligibility"
         (Some ["eligibility_datetime_utc"]) (Some "%m/%d/%y") ;;
  exec load_and_store_csv "Product-Level Ad Sales and Metrics.csv" "ad_sales_metrics"
         (Some ["date"]) (Some "%m/%d/%y") ;;
  exec load_and_store_csv "Product-Level Total Sales and Metrics.csv" "total_sales_metrics"
         (Some ["date"]) (Some "%m/%d/%y") ;;
  print (String (Ascii.ascii_of_nat 10) "✅ All datasets have been loaded into ecommerce.db").

(** ** What a load leaves *)

(** The table [load_and_store_csv] stores for the file's table [df]. *)
Definition stored (date_columns : option (list string)) (date_format : option string)
    (df : dataframe) : dataframe :=
  convert_if_given date_columns date_format (clean_dataframe df).

(** The disk after the load of [filename], whose table is [df]. *)
Definition loaded (filename table_name : string) (df : dataframe) (d : disk) : disk :=
  {| data_files := data_files d; database_dir := database_dir d;
     tables := <[table_name := df]> (tables d);
     stdout := stdout d ++ [processing_line (os_path_join "data" filename) table_name;
                            loaded_line table_name df] |}.

(** The disk after the script: the three tables and the last line. *)
Definition finished (e a t : dataframe) (d : disk) : disk :=
  let dates := Some ["date"] in
  let d := loaded "Product-Level Eligibility Table.csv" "eligibility"
             (stored (Some ["eligibility_datetime_utc"]) (Some "%m/%d/%y") e) d in
  let d := loaded "Product-Level Ad Sales and Metrics.csv" "ad_sales_metrics"
             (stored dates (Some "%m/%d/%y") a) d in
  let d := loaded "Product-Level Total Sales and Metrics.csv" "total_sales_metrics"
             (stored dates (Some "%m/%d/%y") t) d in
  {| data_files := data_files d; database_dir := database_dir d; tables := tables d;
     stdout := stdout d ++
       [String (Ascii.ascii_of_nat 10) "✅ All datasets have been loaded into ecommerce.db"] |}.

(** The disk after a load that did not find its file. *)
Definition announced (filename table_name : string) (d : disk) : disk :=
  {| data_files := data_files d; database_dir := database_dir d;
     tables := tables d;
     stdout := stdout d ++ [processing_line (os_path_join "data" filename) table_name] |}.

End loader.

(** ** Well-formed tables *)

(** Every row has a cell for every column. *)
Definition wf (df : dataframe) : Prop :=
  Forall (fun r => length r = length (columns df)) (rows df).

(** Every column holds a value in some row, and the names in normal
    form are [names]: the file's table [df] gives a table of these
    columns. *)
Definition full (df : dataframe) : bool :=
  forallb (has_value (rows df)) (seq 0 (length (columns df))).

Definition describes (df : dataframe) (names : list string) : Prop :=
  normalize <$> columns df = names /\ full df = true.

(** No cell is missing. *)
Definition complete (df : dataframe) : Prop :=
  Forall (Forall (fun c => isna c = false)) (rows df).

(** Every column name is in normal form. *)
Definition normalized (df : dataframe) : Prop :=
  Forall (fun name => normalize name = name) (columns df).

(** A table without rows has no columns, and one without columns has no
    rows: what dropping the empty columns and rows leaves. *)
Definition trimmed (df : dataframe) : Prop :=
  rows df = [] <-> columns df = [].

(** ** Column names *)

(** What [normalize] does to one character of the stripped name. *)
Definition normal_char (c : Ascii.ascii) : Ascii.ascii :=
  Str.swap_char " " "_" (Str.lower_char c).

Lemma normalize_chars name :
  normalize name = Str.map_chars normal_char (Str.strip name).
Proof.
  unfold normalize. by rewrite Str.replace_char, Str.lower_map_chars, Str.map_chars_compose.
Qed.

Lemma normal_char_swap c : Str.swap_char " " "_" (normal_char c) = normal_char c.
Proof. by destruct c as [[] [] [] [] [] [] [] []]. Qed.

Lemma normal_char_lower c : Str.lower_char (normal_char c) = normal_char c.
Proof. by destruct c as [[] [] [] [] [] [] [] []]. Qed.

Lemma normal_char_no_space c : normal_char c <> " "%char.
Proof. by destruct c as [[] [] [] [] [] [] [] []]. Qed.

Lemma normal_char_isspace c : Str.isspace c = false -> Str.isspace (normal_char c) = false.
Proof. by destruct c as [[] [] [] [] [] [] [] []]. Qed.

Lemma not_space_normal o :
  Str.not_space o = true -> Str.not_space (normal_char <$> o) = true.
Proof.
  destruct o as [c|]; [| done]. simpl.
  rewrite !negb_true_iff. apply normal_char_isspace.
Qed.

Lemma normalize_no_space name : Str.has_char " " (normalize name) = false.
Proof. rewrite normalize_chars. apply Str.has_char_map_chars, normal_char_no_space. Qed.

Lemma normalize_lower name : Str.lower (normalize name) = normalize name.
Proof.
  rewrite normalize_chars, Str.lower_map_chars, Str.map_chars_compose.
  apply Str.map_chars_ext, normal_char_lower.
Qed.

Lemma normalize_strip name : Str.strip (normalize name) = normalize name.
Proof.
  rewrite normalize_chars. destruct (Str.strip_clean name).
  apply Str.strip_fixed;
    rewrite ?Str.first_char_map_chars, ?Str.last_char_map_chars;
    by apply not_space_normal.
Qed.

Lemma normalize_idemp name : normalize (normalize name) = normalize name.
Proof.
  unfold normalize at 1. rewrite normalize_strip, normalize_lower.
  rewrite normalize_chars, Str.replace_char, Str.map_chars_compose.
  apply Str.map_chars_ext, normal_char_swap.
Qed.

(** ** Selections *)

Lemma select_nil_r {A} mask : select mask (@nil A) = [].
Proof. by destruct mask as [|[] ?]. Qed.

Lemma length_select {A B} mask (l : list A) (k : list B) :
  length l = length k -> length (select mask l) = length (select mask k).
Proof.
  revert l k. induction mask as [|keep mask IH]; intros [|x l] [|y k] H;
    try done.
  simpl in *. destruct keep; simpl; auto.
Qed.

Lemma Forall_select {A} (P : A -> Prop) mask l : Forall P l -> Forall P (select mask l).
Proof.
  intros H. revert mask. induction H as [|x l Hx H IH]; intros [|[] mask];
    simpl; auto.
Qed.

(** A selection that keeps every position is the identity. *)
Lemma select_all {A} mask (l : list A) :
  length mask = length l -> Forall (fun keep => keep = true) mask -> select mask l = l.
Proof.
  revert l. induction mask as [|keep mask IH]; intros [|x l] H Hm; try done.
  apply Forall_cons in Hm as [-> Hm]. simpl. f_equal. auto.
Qed.

(** A selection that keeps nothing is empty. *)
Lemma select_none {A} mask (l : list A) :
  Forall (fun keep => keep = false) mask -> select mask l = [].
Proof.
  intros Hm. revert l. induction Hm as [|keep mask -> Hm IH]; intros [|x l];
    simpl; auto.
Qed.

Lemma select_eq_nil {A} mask (l : list A) :
  length mask = length l -> select mask l = [] -> Forall (fun keep => keep = false) mask.
Proof.
  revert l. induction mask as [|keep mask IH]; intros [|x l] H Hs; try done.
  simpl in *. destruct keep; [done |]. constructor; eauto.
Qed.

(** A cell at a position the selection keeps is in the selection. *)
Lemma elem_of_select {A} mask (l : list A) j x :
  mask !! j = Some true -> l !! j = Some x -> x ∈ select mask l.
Proof.
  revert mask l. induction j as [|j IH]; intros [|keep mask] [|y l] Hm Hl;
    simplify_eq/=.
  - left.
  - destruct keep; [right |]; eauto.
Qed.

(** ** The steps of [clean_dataframe] *)

Lemma Forall_list_filter {A} (P : A -> Prop) f l : Forall P l -> Forall P (List.filter f l).
Proof. induction 1 as [|x l Hx H IH]; simpl; [done |]. destruct (f x); auto. Qed.

Lemma list_filter_all {A} (f : A -> bool) l :
  Forall (fun x => f x = true) l -> List.filter f l = l.
Proof. induction 1 as [|x l Hx H IH]; simpl; [done |]. by rewrite Hx, IH. Qed.

Lemma list_filter_none {A} (f : A -> bool) l :
  Forall (fun x => f x = false) l -> List.filter f l = [].
Proof. induction 1 as [|x l Hx H IH]; simpl; [done |]. by rewrite Hx. Qed.

Lemma list_filter_eq_nil {A} (f : A -> bool) l :
  List.filter f l = [] -> Forall (fun x => f x = false) l.
Proof.
  induction l as [|x l IH]; simpl; [done |].
  destruct (f x) eqn:E; [done | auto].
Qed.

Lemma fmap_fixed {A} (f : A -> A) l : Forall (fun x => f x = x) l -> f <$> l = l.
Proof. induction 1 as [|x l Hx H IH]; [done |]. by rewrite fmap_cons, Hx, IH. Qed.

(** The positions [dropna_columns] keeps. *)
Definition mask (df : dataframe) : list bool :=
  has_value (rows df) <$> seq 0 (length (columns df)).

Lemma length_mask df : length (mask df) = length (columns df).
Proof. unfold mask. by rewrite length_fmap, length_seq. Qed.

Lemma mask_lookup df j keep :
  mask df !! j = Some keep -> keep = has_value (rows df) j.
Proof.
  unfold mask. rewrite list_lookup_fmap.
  intros (i & Hi & ->)%fmap_Some. by apply lookup_seq in Hi as [-> _].
Qed.

(** A column that holds a value holds it in some row. *)
Lemma has_value_row table j :
  has_value table j = true -> exists r v, r ∈ table /\ r !! j = Some (Some v).
Proof.
  unfold has_value. intros (r & Hr & Hv)%existsb_exists.
  exists r. destruct (r !! j) as [[v|]|]; try done.
  exists v. by rewrite list_elem_of_In.
Qed.

Lemma wf_dropna_columns df : wf df -> wf (dropna_columns df).
Proof.
  unfold wf. simpl. intros H. apply Forall_fmap.
  eapply Forall_impl; [exact H |]. intros r Hr. simpl. by apply length_select.
Qed.

Lemma wf_dropna_rows df : wf df -> wf (dropna_rows df).
Proof. apply Forall_list_filter. Qed.

Lemma wf_fillna v df : wf df -> wf (fillna v df).
Proof.
  unfold wf. simpl. intros H. apply Forall_fmap.
  eapply Forall_impl; [exact H |]. intros r Hr. simpl. by rewrite length_fmap.
Qed.

Lemma complete_fillna v df : complete (fillna v df).
Proof. unfold complete. simpl. apply Forall_fmap, Forall_true. intros r. by apply Forall_fmap, Forall_true. Qed.

(** Filling a table that misses nothing changes nothing. *)
Lemma fillna_complete v df : complete df -> fillna v df = df.
Proof.
  destruct df as [cols table]. unfold complete, fillna. simpl. intros H. f_equal.
  apply fmap_fixed. eapply Forall_impl; [exact H |]. intros r Hr. simpl.
  apply fmap_fixed. eapply Forall_impl; [exact Hr |]. by intros [c|].
Qed.

(** ** What [clean_dataframe] returns *)

Lemma clean_dataframe_wf_proof df : wf df -> wf (clean_dataframe df).
Proof.
  intros H. apply wf_fillna, wf_dropna_rows, wf_dropna_columns.
  unfold wf in *. simpl. by rewrite length_fmap.
Qed.

Lemma clean_dataframe_complete df : complete (clean_dataframe df).
Proof. apply complete_fillna. Qed.

Lemma clean_dataframe_normalized df : normalized (clean_dataframe df).
Proof.
  unfold normalized. simpl. apply Forall_select, Forall_fmap, Forall_true.
  intros name. apply normalize_idemp.
Qed.

(** The rows of the cleaned table, before the filling. *)
Lemma clean_dataframe_rows df :
  let renamed := {| columns := normalize <$> columns df; rows := rows df |} in
  rows (clean_dataframe df) =
    (fun r : list cell => (fun c => Some (default (VStr EmptyString) c)) <$> r) <$>
      List.filter (fun r => negb (forallb isna r)) (select (mask renamed) <$> rows df).
Proof. done. Qed.

Lemma clean_dataframe_columns df :
  let renamed := {| columns := normalize <$> columns df; rows := rows df |} in
  columns (clean_dataframe df) = select (mask renamed) (normalize <$> columns df).
Proof. done. Qed.

(** When every row left is empty of values, no column was kept. *)
Lemma mask_none df :
  Forall (fun r => negb (forallb isna (select (mask df) r)) = false) (rows df) ->
  Forall (fun keep => keep = false) (mask df).
Proof.
  intros H. apply Forall_lookup. intros j keep Hj.
  destruct keep eqn:E; [| done]. exfalso.
  pose proof (mask_lookup _ _ _ Hj) as Hv. symmetry in Hv.
  apply has_value_row in Hv as (r & v & Hr & Hc).
  rewrite Forall_forall in H. specialize (H r Hr).
  apply negb_false_iff in H. rewrite forallb_forall in H.
  specialize (H (Some v)). rewrite <- list_elem_of_In in H.
  by specialize (H (elem_of_select _ _ _ _ Hj Hc)).
Qed.

Lemma clean_dataframe_trimmed df : trimmed (clean_dataframe df).
Proof.
  unfold trimmed. rewrite clean_dataframe_rows, clean_dataframe_columns. cbv zeta.
  set (renamed := {| columns := normalize <$> columns df; rows := rows df |}).
  split.
  - intros H%fmap_nil_inv%list_filter_eq_nil. apply select_none.
    apply (mask_none renamed). by apply Forall_fmap in H.
  - intros H%select_eq_nil; [| apply (length_mask renamed)].
    rewrite list_filter_none; [done |]. apply Forall_fmap, Forall_true.
    intros r. simpl. by rewrite select_none.
Qed.

(** ** Tables that cleaning leaves alone *)

(** In a table that misses nothing, every column of a row holds a
    value. *)
Lemma has_value_complete r table j :
  Forall (fun c => isna c = false) r -> j < length r -> has_value (r :: table) j = true.
Proof.
  intros Hr [c Hc]%lookup_lt_is_Some. unfold has_value. cbn [existsb].
  rewrite Hc. cbn [default from_option id].
  by rewrite (proj1 (Forall_lookup _ _) Hr j c Hc).
Qed.

Lemma mask_complete df :
  wf df -> complete df -> rows df <> [] -> Forall (fun keep => keep = true) (mask df).
Proof.
  destruct df as [cols [|r table]]; [done |]. unfold wf, complete, mask. simpl.
  intros [Hl _]%Forall_cons [Hr _]%Forall_cons _.
  apply Forall_fmap, Forall_seq. intros j [_ Hj]. simpl.
  apply has_value_complete; [done | lia].
Qed.

Lemma dropna_columns_complete df :
  wf df -> complete df -> trimmed df -> dropna_columns df = df.
Proof.
  intros Hw Hc Ht. destruct (decide (rows df = [])) as [E|E].
  - destruct df as [cols table]. simpl in E. subst table.
    pose proof (proj1 Ht eq_refl) as Hcols. simpl in Hcols. by subst cols.
  - pose proof (mask_complete _ Hw Hc E) as Hm. pose proof (length_mask df) as Hl.
    destruct df as [cols table]. unfold dropna_columns. fold (mask (Build_dataframe cols table)).
    simpl in *. f_equal; [by apply select_all |].
    apply fmap_fixed. eapply Forall_impl; [exact Hw |]. intros r Hr. simpl in Hr.
    apply select_all; [congruence | done].
Qed.

Lemma dropna_rows_complete df :
  wf df -> complete df -> trimmed df -> dropna_rows df = df.
Proof.
  intros Hw Hc Ht. destruct df as [cols table]. unfold dropna_rows. simpl. f_equal.
  apply list_filter_all, Forall_forall. intros r Hr.
  assert (cols <> []) as Hcols.
  { intros E. apply Ht in E. simpl in E. subst table. by apply elem_of_nil in Hr. }
  pose proof (proj1 (Forall_forall _ _) Hw r Hr) as Hl.
  pose proof (proj1 (Forall_forall _ _) Hc r Hr) as Hv. simpl in Hl.
  destruct r as [|c r]; [by destruct cols |].
  apply Forall_cons in Hv as [Hv _]. simpl. by rewrite Hv.
Qed.

(** A table that is well formed, complete, trimmed and whose names are
    in normal form is returned as it is. *)
Lemma clean_dataframe_fixed df :
  wf df -> complete df -> normalized df -> trimmed df -> clean_dataframe df = df.
Proof.
  intros Hw Hc Hn Ht. unfold clean_dataframe. cbv zeta.
  rewrite (fmap_fixed _ _ Hn).
  replace {| columns := columns df; rows := rows df |} with df by by destruct df.
  rewrite dropna_columns_complete, dropna_rows_complete by done.
  by apply fillna_complete.
Qed.

Lemma clean_dataframe_idemp df :
  wf df -> clean_dataframe (clean_dataframe df) = clean_dataframe df.
Proof.
  intros H. apply clean_dataframe_fixed;
    auto using clean_dataframe_wf_proof, clean_dataframe_complete,
      clean_dataframe_normalized, clean_dataframe_trimmed.
Qed.

(** ** [load_and_store_csv] *)

Section loads.
Context {D : Dates}.

Lemma load_and_store_csv_run filename table_name date_columns date_format d df :
  data_files d !! os_path_join "data" filename = Some df ->
  load_and_store_csv filename table_name date_columns date_format d =
    (Ok tt, loaded filename table_name (stored date_columns date_format df) d).
Proof.
  intros H. unfold load_and_store_csv, loaded, stored, read_csv, to_sql, print.
  mrun. rewrite H. simpl. by rewrite <- app_assoc.
Qed.

Lemma load_and_store_csv_raise filename table_name date_columns date_format d :
  data_files d !! os_path_join "data" filename = None ->
  exists e,
    load_and_store_csv filename table_name date_columns date_format d =
      (Raise e, announced filename table_name d)
    /\ exn_cls e = FileNotFoundError.
Proof.
  intros H. unfold load_and_store_csv, announced, read_csv, to_sql, print.
  mrun. rewrite H. simpl. eauto.
Qed.

Lemma wf_assign_column col f df : wf df -> wf (assign_column col f df).
Proof.
  unfold wf. simpl. intros H. apply Forall_fmap.
  eapply Forall_impl; [exact H |]. intros r Hr. simpl.
  rewrite length_fmap, length_zip, Hr. apply Nat.min_id.
Qed.

Lemma wf_convert_dates date_columns date_format df :
  wf df -> wf (convert_dates date_columns date_format df).
Proof.
  revert df. induction date_columns as [|col cols IH]; intros df H; [done |].
  simpl. apply IH. case_bool_decide; auto using wf_assign_column.
Qed.

Lemma columns_assign_column col f df : columns (assign_column col f df) = columns df.
Proof. done. Qed.

Lemma columns_convert_dates date_columns date_format df :
  columns (convert_dates date_columns date_format df) = columns df.
Proof.
  revert df. induction date_columns as [|col cols IH]; intros df; [done |].
  simpl. rewrite IH. by case_bool_decide.
Qed.

Lemma length_rows_convert_dates date_columns date_format df :
  length (rows (convert_dates date_columns date_format df)) = length (rows df).
Proof.
  revert df. induction date_columns as [|col cols IH]; intros df; [done |].
  simpl. rewrite IH. case_bool_decide; [| done]. simpl. by rewrite length_fmap.
Qed.

Lemma wf_stored date_columns date_format df :
  wf df -> wf (stored date_columns date_format df).
Proof.
  intros H%clean_dataframe_wf_proof. unfold stored, convert_if_given.
  repeat case_match; auto using wf_convert_dates.
Qed.

Lemma normalized_stored date_columns date_format df :
  normalized (stored date_columns date_format df).
Proof.
  pose proof (clean_dataframe_normalized df) as H.
  unfold stored, convert_if_given, normalized in *.
  repeat case_match; by rewrite ?columns_convert_dates.
Qed.

(** The columns stored are the columns of the file that hold a value,
    under their names in normal form. *)
Lemma columns_stored date_columns date_format df :
  columns (stored date_columns date_format df) =
    select (mask {| columns := normalize <$> columns df; rows := rows df |})
      (normalize <$> columns df).
Proof.
  unfold stored, convert_if_given.
  repeat case_match; by rewrite ?columns_convert_dates.
Qed.

Lemma columns_stored_full date_columns date_format df names :
  describes df names -> columns (stored date_columns date_format df) = names.
Proof.
  intros [<- Hf]. rewrite columns_stored. apply select_all.
  - by rewrite length_mask.
  - unfold mask, full in *. simpl. rewrite length_fmap.
    apply Forall_fmap, Forall_forall. intros j Hj. simpl.
    rewrite forallb_forall in Hf. by apply Hf, list_elem_of_In.
Qed.

(** ** The script *)

Lemma main_run d e a t :
  data_files d !! "data/Product-Level Eligibility Table.csv" = Some e ->
  data_files d !! "data/Product-Level Ad Sales and Metrics.csv" = Some a ->
  data_files d !! "data/Product-Level Total Sales and Metrics.csv" = Some t ->
  main d = (Ok tt, finished e a t d).
Proof.
  intros He Ha Ht. unfold main.
  do 3 (erewrite bind_run by (apply load_and_store_csv_run; eassumption);
        cbn beta).
  done.
Qed.

Lemma tables_finished e a t d :
  tables (finished e a t d) =
    <["total_sales_metrics" := stored (Some ["date"]) (Some "%m/%d/%y") t]>
      (<["ad_sales_metrics" := stored (Some ["date"]) (Some "%m/%d/%y") a]>
         (<["eligibility" :=
              stored (Some ["eligibility_datetime_utc"]) (Some "%m/%d/%y") e]> (tables d))).
Proof. done. Qed.

(** ** Well-formed databases *)

(** Every table of the database is well formed and has its column names
    in normal form. *)
Definition sound (d : disk) : Prop :=
  map_Forall (fun _ df => wf df /\ normalized df) (tables d).

(** Every file parses to a well-formed table, as [read_csv] makes
    them. *)
Definition parsed (d : disk) : Prop :=
  map_Forall (fun _ df => wf df) (data_files d).

Lemma load_and_store_csv_sound filename table_name date_columns date_format d :
  parsed d -> sound d ->
  sound (snd (load_and_store_csv filename table_name date_columns date_format d)).
Proof.
  intros Hp Hs. destruct (data_files d !! os_path_join "data" filename) as [df|] eqn:E.
  - rewrite (load_and_store_csv_run _ _ _ _ _ _ E). apply map_Forall_insert_2; [| done].
    split; [apply wf_stored, (Hp _ _ E) | apply normalized_stored].
  - by destruct (load_and_store_csv_raise _ table_name date_columns date_format _ E)
      as (e & -> & _).
Qed.

Lemma load_and_store_csv_files filename table_name date_columns date_format :
  preserves data_files (load_and_store_csv filename table_name date_columns date_format).
Proof.
  intros d. destruct (data_files d !! os_path_join "data" filename) as [df|] eqn:E.
  - by rewrite (load_and_store_csv_run _ _ _ _ _ _ E).
  - by destruct (load_and_store_csv_raise _ table_name date_columns date_format _ E)
      as (e & -> & _).
Qed.

Lemma print_sound line d : sound d -> sound (snd (print line d)).
Proof. done. Qed.

Lemma print_parsed line d : parsed d -> parsed (snd (print line d)).
Proof. done. Qed.

Lemma load_and_store_csv_parsed filename table_name date_columns date_format d :
  parsed d ->
  parsed (snd (load_and_store_csv filename table_name date_columns date_format d)).
Proof. unfold parsed. by rewrite load_and_store_csv_files. Qed.

Lemma load_and_store_csv_inv filename table_name date_columns date_format d :
  parsed d /\ sound d ->
  let d' := snd (load_and_store_csv filename table_name date_columns date_format d) in
  parsed d' /\ sound d'.
Proof.
  intros [Hp Hs]. split;
    auto using load_and_store_csv_parsed, load_and_store_csv_sound.
Qed.

(** C38. The script has no transaction around its three loads: when
    the first file is there and the second is not, [FileNotFoundError]
    escapes and the database keeps the first table replaced and every
    other table as it was. *)
Theorem main_stops d e :
  data_files d !! "data/Product-Level Eligibility Table.csv" = Some e ->
  data_files d !! "data/Product-Level Ad Sales and Metrics.csv" = None ->
  exists x d',
    main d = (Raise x, d') /\ exn_cls x = FileNotFoundError
    /\ tables d' =
       <["eligibility" :=
           stored (Some ["eligibility_datetime_utc"]) (Some "%m/%d/%y") e]> (tables d).
Proof.
  intros He Ha. unfold main.
  erewrite bind_run by (apply load_and_store_csv_run; eassumption). cbn beta.
  edestruct (load_and_store_csv_raise "Product-Level Ad Sales and Metrics.csv")
    as (x & E & Hx); [| erewrite bind_run_raise by exact E; eauto]. done.
Qed.

(** ** The contract of the loader *)

(** C33. [clean_dataframe] returns a well-formed table that misses no
    value, whose column names are in normal form, and that has a row
    exactly when it has a column. *)
Theorem clean_dataframe_sound df :
  wf df ->
  let df' := clean_dataframe df in
  wf df' /\ complete df' /\ normalized df' /\ trimmed df'.
Proof.
  intros H. repeat split;
    auto using clean_dataframe_wf_proof, clean_dataframe_complete,
      clean_dataframe_normalized; by apply clean_dataframe_trimmed.
Qed.

(** C36. Cleaning is idempotent: a table that has been cleaned is
    returned as it is, names, columns, rows and cells. *)
Theorem clean_dataframe_idempotent df :
  wf df -> clean_dataframe (clean_dataframe df) = clean_dataframe df.
Proof. apply clean_dataframe_idemp. Qed.

(** C34. [load_and_store_csv] on both of its paths.  When the file is
    there, its table is cleaned, its date columns are converted, the
    result replaces the table of that name and two lines are printed.
    When it is not, [FileNotFoundError] escapes after the first line and
    the database is as it was. *)
Theorem load_and_store_csv_spec filename table_name date_columns date_format d :
  exists x,
    exn_cls x = FileNotFoundError /\
    load_and_store_csv filename table_name date_columns date_format d =
      match data_files d !! os_path_join "data" filename with
      | Some df => (Ok tt, loaded filename table_name (stored date_columns date_format df) d)
      | None => (Raise x, announced filename table_name d)
      end.
Proof.
  destruct (data_files d !! os_path_join "data" filename) as [df|] eqn:E.
  - exists (Exn FileNotFoundError EmptyString). split; [done |].
    by apply load_and_store_csv_run.
  - destruct (load_and_store_csv_raise filename table_name date_columns date_format d E)
      as (x & -> & Hx). eauto.
Qed.

(** C35. The script creates the schema the prompt describes: when the
    headers of the three files, in normal form, are the columns of the
    schema and no column is empty, the script ends and every table of
    the schema is in the database with these columns. *)
Theorem main_creates_schema d e a t :
  data_files d !! "data/Product-Level Eligibility Table.csv" = Some e ->
  data_files d !! "data/Product-Level Ad Sales and Metrics.csv" = Some a ->
  data_files d !! "data/Product-Level Total Sales and Metrics.csv" = Some t ->
  Forall2 describes [e; a; t] (snd <$> Gemini.schema) ->
  returns main d tt (finished e a t d)
  /\ Forall (fun '(name, names) => columns <$> tables (finished e a t d) !! name = Some names)
       Gemini.schema.
Proof.
  intros He Ha Ht H. split; [by apply main_run |].
  apply Forall2_cons_1 in H as [H1 H]. apply Forall2_cons_1 in H as [H2 H].
  apply Forall2_cons_1 in H as [H3 _]. rewrite tables_finished.
  unfold Gemini.schema. rewrite !Forall_cons, Forall_nil.
  split_and!; [..| done];
    rewrite ?lookup_insert_eq, ?lookup_insert_ne, ?lookup_insert_eq by done;
    cbn [fmap option_fmap option_map]; f_equal; by apply columns_stored_full.
Qed.

(** C37. The script keeps the database sound, whether it ends or stops
    at a file that is missing: every table is well formed and has its
    column names in normal form. *)
Theorem main_sound d :
  parsed d -> sound d -> sound (snd (main d)).
Proof.
  intros Hp Hs. unfold main.
  apply (bind_invariant (fun d => parsed d /\ sound d)); [done | ..].
  - intros d' H. by apply load_and_store_csv_inv.
  - intros _ d1 H1. apply (bind_invariant (fun d => parsed d /\ sound d)); [done | ..].
    + intros d' H. by apply load_and_store_csv_inv.
    + intros _ d2 H2. apply (bind_invariant (fun d => parsed d /\ sound d)); [done | ..].
      * intros d' H. by apply load_and_store_csv_inv.
      * by intros _ d3 [? ?].
Qed.

End loads.

(** ** A small directory *)

(** A parser of dates that takes a text with a [/] as it is and
    nothing else. *)
Definition demo_dates : Dates :=
  {| to_date _ c :=
       match c with
       | Some (VStr s) => if Str.contains s "/" then c else None
       | _ => None
       end |}.

(** A file with a header to strip, an empty column and an empty row. *)
Definition raw_eligibility : dataframe :=
  {| columns := [" Eligibility Datetime UTC"; "Item ID"; "Eligibility"; "Message";
                 "Unnamed: 4"];
     rows := [ [Some (VStr "1/2/24"); Some (VInt 101); Some (VBool true); None; None];
               [None; None; None; None; None];
               [Some (VStr "soon"); Some (VInt 102); Some (VBool false);
                Some (VStr "Out of stock"); None] ] |}.

Definition demo_eligibility : dataframe :=
  {| columns := ["Eligibility Datetime UTC"; "Item ID"; "Eligibility"; "Message"];
     rows := [ [Some (VStr "1/2/24"); Some (VInt 101); Some (VBool true);
                Some (VStr "ok")] ] |}.

Definition demo_ad_sales : dataframe :=
  {| columns := ["Date"; "Item ID"; "Ad Sales"; "Impressions"; "Ad Spend"; "Clicks";
                 "Units Sold"];
     rows := [ [Some (VStr "1/2/24"); Some (VInt 101); Some (VFloat "12.5");
                Some (VInt 400); Some (VFloat "3.1"); Some (VInt 9); Some (VInt 2)] ] |}.

Definition demo_total_sales : dataframe :=
  {| columns := ["Date"; "Item ID"; "Total Sales"; "Total Units Ordered"];
     rows := [ [Some (VStr "1/2/24"); Some (VInt 101); Some (VFloat "40.0");
                Some (VInt 3)] ] |}.

Definition demo_disk : disk :=
  {| data_files :=
       <["data/Product-Level Eligibility Table.csv" := demo_eligibility]>
         (<["data/Product-Level Ad Sales and Metrics.csv" := demo_ad_sales]>
            (<["data/Product-Level Total Sales and Metrics.csv" := demo_total_sales]> ∅));
     database_dir := false;
     tables := ∅;
     stdout := [] |}.

Lemma wf_raw_eligibility : wf raw_eligibility.
Proof. repeat constructor. Qed.

Lemma parsed_demo_disk : parsed demo_disk.
Proof.
  unfold parsed, demo_disk. cbn [data_files].
  repeat (apply map_Forall_insert_2; [repeat constructor |]).
  apply map_Forall_empty.
Qed.

(** The cleaned table of [raw_eligibility]: the names in normal form,
    the empty column and the empty row gone, the missing message
    filled. *)
Example clean_dataframe_raw :
  clean_dataframe raw_eligibility =
    {| columns := ["eligibility_datetime_utc"; "item_id"; "eligibility"; "message"];
       rows := [ [Some (VStr "1/2/24"); Some (VInt 101); Some (VBool true);
                  Some (VStr EmptyString)];
                 [Some (VStr "soon"); Some (VInt 102); Some (VBool false);
                  Some (VStr "Out of stock")] ] |}.
Proof. vm_compute. reflexivity. Qed.

(** Two headers that differ in case or spacing become one name: the
    cleaned table has two columns of that name. *)
Example normalize_collision :
  columns (clean_dataframe {| columns := ["Item ID"; " item_id"];
                              rows := [[Some (VInt 1); Some (VInt 2)]] |})
  = ["item_id"; "item_id"].
Proof. vm_compute. reflexivity. Qed.

(** The conversion of the dates runs after the filling: a date that is
    missing, filled with the empty text, is missing again in the table
    stored when the parser refuses the empty text. *)
Lemma stored_incomplete {D : Dates} :
  to_date "%m/%d/%y" (Some (VStr EmptyString)) = None ->
  ~ complete (stored (Some ["date"]) (Some "%m/%d/%y")
                {| columns := ["date"; "item_id"];
                   rows := [ [None; Some (VInt 1)];
                             [Some (VStr "1/2/24"); Some (VInt 2)] ] |}).
Proof.
  intros H Hc. unfold complete in Hc. vm_compute in Hc.
  apply Forall_cons in Hc as [Hr _]. apply Forall_cons in Hr as [Hd _].
  change (isna (to_date "%m/%d/%y" (Some (VStr EmptyString))) = false) in Hd.
  by rewrite H in Hd.
Qed.

Lemma clean_dataframe_sound_witness :
  let df' := clean_dataframe raw_eligibility in
  wf df' /\ complete df' /\ normalized df' /\ trimmed df'.
Proof. apply (clean_dataframe_sound raw_eligibility), wf_raw_eligibility. Defined.

Lemma clean_dataframe_idempotent_witness :
  clean_dataframe (clean_dataframe raw_eligibility) = clean_dataframe raw_eligibility.
Proof. apply (clean_dataframe_idempotent raw_eligibility), wf_raw_eligibility. Defined.

Lemma main_creates_schema_witness :
  let d' := finished (D := demo_dates) demo_eligibility demo_ad_sales demo_total_sales
              demo_disk in
  returns (main (D := demo_dates)) demo_disk tt d'
  /\ Forall (fun '(name, names) => columns <$> tables d' !! name = Some names)
       Gemini.schema.
Proof.
  apply (main_creates_schema (D := demo_dates) demo_disk);
    [reflexivity | reflexivity | reflexivity |].
  repeat constructor.
Defined.

(** Only the first of the three files is there. *)
Definition partial_disk : disk :=
  {| data_files := {[ "data/Product-Level Eligibility Table.csv" := demo_eligibility ]};
     database_dir := true;
     tables := {[ "ad_sales_metrics" := demo_ad_sales ]};
     stdout := [] |}.

Lemma main_stops_witness :
  exists x d',
    main (D := demo_dates) partial_disk = (Raise x, d')
    /\ exn_cls x = FileNotFoundError
    /\ tables d' =
       <["eligibility" :=
           stored (D := demo_dates) (Some ["eligibility_datetime_utc"]) (Some "%m/%d/%y")
             demo_eligibility]> (tables partial_disk).
Proof.
  apply (main_stops (D := demo_dates) partial_disk demo_eligibility);
    vm_compute; reflexivity.
Defined.

Lemma main_sound_witness : sound (snd (main (D := demo_dates) demo_disk)).
Proof.
  apply (main_sound (D := demo_dates) demo_disk); [apply parsed_demo_disk |].
  apply map_Forall_empty.
Defined.

End DbLoader.
